(** * MoneyManager: the workbook-backed record store

    A shallow embedding of the spreadsheet adapter ([file_io/excel_loader.py]),
    the validation layer ([utils/validator.py]), the record model
    ([models/transaction.py]), the session orchestrator
    ([managers/session_manager.py]), the analytics reader
    ([managers/analytic_manager.py]) with the summary it returns
    ([models/financial_summary.py]), and the day-count helper
    ([utils/general_helper.py]).

    Conventions of the embedding:
    - Python [int] is [Z]; an [int] is printed as CPython prints one of at
      most 4300 digits ([printable_int]); Python [str] is [string], read as
      7-bit ASCII text (characters above 127 are neither whitespace nor
      letters);
    - a Python [float] is an exact decimal, NaN or an infinity ([pyfloat]);
      parsing overflows to infinity where a double does, binary rounding of
      finite values is not modelled;
    - a raised exception is the [Raise] branch of [result];
    - the worksheet is a finite map from [(row, column)] to cell values, an
      absent key being a cell whose value is [None];
    - a generator object is what it has yet to yield: iterating it leaves it
      exhausted for every name it is bound to. *)

From Stdlib Require Import ZArith Ascii String List Lia Bool.
From stdpp Require Import base option gmap strings list.

Local Open Scope Z_scope.

(** ** Exceptions and the error monad *)

Inductive exn : Type :=
  | ValidationError (message : string)
  | ValueError
  | TypeError
  | OverflowError
  | KeyError
  | AttributeError
  | OSError
  | IllegalCharacterError.  (* openpyxl.utils.exceptions *)

Inductive result (A : Type) : Type :=
  | Ok (a : A)
  | Raise (e : exn).
Arguments Ok {A} a.
Arguments Raise {A} e.

Global Instance result_ret : MRet result := @Ok.
Global Instance result_bind : MBind result :=
  λ A B f m, match m with Ok a => f a | Raise e => Raise e end.
Global Instance result_fmap : FMap result :=
  λ A B f m, match m with Ok a => Ok (f a) | Raise e => Raise e end.

Global Instance exn_eq_dec : EqDecision exn.
Proof. solve_decision. Defined.
Global Instance result_eq_dec `{EqDecision A} : EqDecision (result A).
Proof. solve_decision. Defined.

(** [try: m except Exception: h] *)
Definition try_except {A} (m : result A) (h : exn → result A) : result A :=
  match m with Ok a => Ok a | Raise e => h e end.

(** [try: m except ValueError: h]; any other exception propagates. *)
Definition except_ValueError {A} (m : result A) (h : result A) : result A :=
  match m with
  | Raise ValueError => h
  | other => other
  end.

Definition is_ok {A} (m : result A) : bool :=
  match m with Ok _ => true | Raise _ => false end.

(** ** Python strings *)

Definition code (c : ascii) : Z := Z.of_N (N_of_ascii c).
Definition chr (n : Z) : ascii := ascii_of_N (Z.to_N n).

(** [str.isspace] on one ASCII character: TAB..CR, FS..US and the blank. *)
Definition is_space (c : ascii) : bool :=
  let n := code c in
  ((9 <=? n) && (n <=? 13)) || ((28 <=? n) && (n <=? 31)) || (n =? 32).

Definition is_digit (c : ascii) : bool :=
  let n := code c in (48 <=? n) && (n <=? 57).

Definition digit_val (c : ascii) : Z := code c - 48.
Definition digit_char (d : Z) : ascii := chr (48 + d).

Definition upper_char (c : ascii) : ascii :=
  let n := code c in
  if (97 <=? n) && (n <=? 122) then chr (n - 32) else c.

Definition lower_char (c : ascii) : ascii :=
  let n := code c in
  if (65 <=? n) && (n <=? 90) then chr (n + 32) else c.

Fixpoint upper (s : string) : string :=
  match s with
  | EmptyString => EmptyString
  | String c r => String (upper_char c) (upper r)
  end.

Fixpoint lower (s : string) : string :=
  match s with
  | EmptyString => EmptyString
  | String c r => String (lower_char c) (lower r)
  end.

Fixpoint lstrip (s : string) : string :=
  match s with
  | EmptyString => EmptyString
  | String c r => if is_space c then lstrip r else s
  end.

Definition is_empty (s : string) : bool :=
  match s with EmptyString => true | String _ _ => false end.

Fixpoint rstrip (s : string) : string :=
  match s with
  | EmptyString => EmptyString
  | String c r =>
      let r' := rstrip r in
      if is_space c && is_empty r' then EmptyString else String c r'
  end.

Definition strip (s : string) : string := lstrip (rstrip s).

(** [s.replace(old, new)] for a one-character [old]. *)
Fixpoint replace (old : ascii) (new : string) (s : string) : string :=
  match s with
  | EmptyString => EmptyString
  | String c r =>
      if Ascii.eqb c old then new +:+ replace old new r
      else String c (replace old new r)
  end.

(** [s.split(sep)] for a one-character separator: never the empty list. *)
Fixpoint split (sep : ascii) (s : string) : list string :=
  match s with
  | EmptyString => [EmptyString]
  | String c r =>
      if Ascii.eqb c sep then EmptyString :: split sep r
      else match split sep r with
           | h :: t => String c h :: t
           | [] => [String c EmptyString]
           end
  end.

(** [parts[-1]] *)
Definition last_part (parts : list string) : string := List.last parts EmptyString.

Fixpoint startswith (s prefix : string) : bool :=
  match prefix, s with
  | EmptyString, _ => true
  | String p ps, String c cs => Ascii.eqb c p && startswith cs ps
  | String _ _, EmptyString => false
  end.

Fixpoint drop_prefix (s prefix : string) : string :=
  match prefix, s with
  | String _ ps, String _ cs => drop_prefix cs ps
  | _, _ => s
  end.

Definition endswith (s suffix : string) : bool :=
  startswith (String.rev s) (String.rev suffix).

(** Every character of [s] satisfies [p]. *)
Fixpoint all_chars (p : ascii → bool) (s : string) : bool :=
  match s with
  | EmptyString => true
  | String c r => p c && all_chars p r
  end.

(** The characters of a number in positional notation. *)
Definition numeric_char (c : ascii) : bool :=
  is_digit c || Ascii.eqb c "."%char || Ascii.eqb c "-"%char.

(** [c in s] for a one-character [c]. *)
Fixpoint contains (c : ascii) (s : string) : bool :=
  match s with
  | EmptyString => false
  | String d r => Ascii.eqb d c || contains c r
  end.

(** [s[:n]] *)
Fixpoint take (n : Z) (s : string) : string :=
  match s with
  | EmptyString => EmptyString
  | String c r => if n <=? 0 then EmptyString else String c (take (n - 1) r)
  end.

(** Some character of [s] satisfies [p]. *)
Fixpoint some_char (p : ascii → bool) (s : string) : bool :=
  match s with
  | EmptyString => false
  | String c r => p c || some_char p r
  end.

(** [s.isascii()]: the texts on which the case mappings and the whitespace
    of this embedding are Python's. *)
Definition is_ascii (s : string) : bool := all_chars (λ c, code c <? 128) s.

(** ** Python integers as text *)

(** Decimal digits of a non-negative number, most significant first, pushed
    in front of [acc]; [fuel] bounds the number of digits. *)
Fixpoint digits_fuel (fuel : nat) (n : Z) (acc : string) : string :=
  match fuel with
  | O => acc
  | S f =>
      let acc' := String (digit_char (n mod 10)) acc in
      if n / 10 =? 0 then acc' else digits_fuel f (n / 10) acc'
  end.

Definition str_of_nonneg (n : Z) (acc : string) : string :=
  digits_fuel (S (Z.to_nat (Z.log2 n))) n acc.

(** [str(n)] for an [int] that CPython prints, see [printable_int]. *)
Definition str_of_int (n : Z) : string :=
  if n <? 0 then String "-"%char (str_of_nonneg (- n) EmptyString)
  else str_of_nonneg n EmptyString.

(** [sys.int_info.default_max_str_digits] *)
Definition max_str_digits : Z := 4300.

(** The magnitudes from which an [int] has more digits than that:
    [str(n)] and [format(n, "d")] then raise [ValueError]. *)
Definition int_str_bound : Z := 10 ^ max_str_digits.

Definition printable_int (n : Z) : bool := Z.abs n <? int_str_bound.

(** Exactly [k] decimal digits of [n], most significant first, before [acc]. *)
Fixpoint fixed_digits (k : nat) (n : Z) (acc : string) : string :=
  match k with
  | O => acc
  | S k' => fixed_digits k' (n / 10) (String (digit_char (n mod 10)) acc)
  end.

(** The format spec [{n:0<width>d}]: the sign, then the digits padded with
    zeros to what is left of [width], or unpadded when they are longer. *)
Definition format_0d (width : nat) (n : Z) : string :=
  let sign := if n <? 0 then String "-"%char EmptyString else EmptyString in
  let room := (width - String.length sign)%nat in
  sign +:+ (if Z.abs n <? 10 ^ Z.of_nat room
            then fixed_digits room (Z.abs n) EmptyString
            else str_of_nonneg (Z.abs n) EmptyString).

(** [format(n, "0<width>d")] with the limit on the digits of [n]. *)
Definition format_int (width : nat) (n : Z) : result string :=
  if printable_int n then Ok (format_0d width n) else Raise ValueError.

(** Reads the leading run of digits of [s] onto the accumulator [a], counting
    them in [n]; returns the value, the count and the unread rest. *)
Fixpoint scan_digits (s : string) (a : Z) (n : nat) : Z * nat * string :=
  match s with
  | EmptyString => (a, n, EmptyString)
  | String c r =>
      if is_digit c then scan_digits r (10 * a + digit_val c) (S n)
      else (a, n, s)
  end.

(** Python accepts single underscores between digits in numeric text; this
    removes them, or fails where one is misplaced. [prev] tells whether the
    previous character was a digit. *)
Fixpoint strip_underscores (prev : bool) (s : string) : option string :=
  match s with
  | EmptyString => Some EmptyString
  | String c r =>
      if Ascii.eqb c "_"%char then
        match r with
        | String d _ =>
            if prev && is_digit d then strip_underscores false r else None
        | EmptyString => None
        end
      else String c <$> strip_underscores (is_digit c) r
  end.

(** An optional sign: [(negative, rest)]. *)
Definition scan_sign (s : string) : bool * string :=
  match s with
  | String "-"%char r => (true, r)
  | String "+"%char r => (false, r)
  | _ => (false, s)
  end.

(** [int(s)] for a [str]: surrounding whitespace, a sign, decimal digits. *)
Definition int_of_str (s : string) : result Z :=
  match strip_underscores false (strip s) with
  | None => Raise ValueError
  | Some t =>
      let '(neg, body) := scan_sign t in
      match scan_digits body 0 0 with
      | (v, S _, EmptyString) => Ok (if neg then - v else v)
      | _ => Raise ValueError
      end
  end.

(** ** Python floats *)

(** [FFin m p] is the decimal [m / 10^(p+1)]: at least one fractional digit,
    as [str] prints a float. *)
Inductive pyfloat : Type :=
  | FNan
  | FInf (negative : bool)
  | FFin (m : Z) (p : nat).

Definition pow10 (k : nat) : Z := 10 ^ Z.of_nat k.

(** The least magnitude that a double rounds to infinity: [2^1024 - 2^970]. *)
Definition float_overflow_bound : Z := 2 ^ 1024 - 2 ^ 970.

Definition overflows (m : Z) (p : nat) : bool :=
  float_overflow_bound * pow10 (S p) <=? Z.abs m.

Definition mk_float (m : Z) (p : nat) : pyfloat :=
  if overflows m p then FInf (m <? 0) else FFin m p.

Definition float_zero : pyfloat := FFin 0 0.

(** A float value a double can hold: finite ones stay below the bound. *)
Definition float_in_range (x : pyfloat) : bool :=
  match x with
  | FFin m p => negb (overflows m p)
  | _ => true
  end.

(** [float(n)] for an [int]. *)
Definition float_of_int (n : Z) : result pyfloat :=
  if overflows (10 * n) 0 then Raise OverflowError else Ok (FFin (10 * n) 0).

(** The exponent part of a float literal: nothing, or [e], a sign, digits. *)
Definition scan_exponent (s : string) : option Z :=
  match s with
  | EmptyString => Some 0
  | String c r =>
      if Ascii.eqb (lower_char c) "e"%char then
        let '(neg, body) := scan_sign r in
        match scan_digits body 0 0 with
        | (v, S _, EmptyString) => Some (if neg then - v else v)
        | _ => None
        end
      else None
  end.

(** The float written as mantissa [m], [nf] fractional digits and decimal
    exponent [e]. *)
Definition float_of_parts (neg : bool) (m : Z) (nf : nat) (e : Z) : pyfloat :=
  let sm := if neg then - m else m in
  let x := e - Z.of_nat nf in
  if x <? 0 then mk_float sm (Z.to_nat (- x) - 1)
  else mk_float (sm * 10 ^ x * 10) 0.

(** The float spelled by [body], the text after the sign. *)
Definition float_of_body (neg : bool) (body : string) : result pyfloat :=
  let word := lower body in
  if String.eqb word "inf" || String.eqb word "infinity" then Ok (FInf neg)
  else if String.eqb word "nan" then Ok FNan
  else
    let '(ip, ni, r1) := scan_digits body 0 0 in
    let '(m, nf, r2) :=
      match r1 with
      | String "."%char r => scan_digits r ip 0
      | _ => (ip, O, r1)
      end in
    if (ni + nf =? 0)%nat then Raise ValueError
    else match scan_exponent r2 with
         | None => Raise ValueError
         | Some e => Ok (float_of_parts neg m nf e)
         end.

(** [float(s)] for a [str]. *)
Definition float_of_str (s : string) : result pyfloat :=
  match strip_underscores false (strip s) with
  | None => Raise ValueError
  | Some t => let '(neg, body) := scan_sign t in float_of_body neg body
  end.

(** [str(x)] for a float, in positional notation; Python writes the
    largest and the smallest magnitudes with an exponent, a text that parses
    to the same float. *)
Definition float_str (x : pyfloat) : string :=
  match x with
  | FNan => "nan"
  | FInf false => "inf"
  | FInf true => "-inf"
  | FFin m p =>
      let a := Z.abs m in
      let body :=
        str_of_nonneg (a / pow10 (S p))
          (String "."%char (fixed_digits (S p) (a mod pow10 (S p)) EmptyString)) in
      if m <? 0 then String "-"%char body else body
  end.

(** [int(x)] for a float: truncation toward zero. *)
Definition int_of_float (x : pyfloat) : result Z :=
  match x with
  | FNan => Raise ValueError
  | FInf _ => Raise OverflowError
  | FFin m p => Ok (Z.quot m (pow10 (S p)))
  end.

(** [x < y] *)
Definition float_ltb (x y : pyfloat) : bool :=
  match x, y with
  | FNan, _ | _, FNan => false
  | FInf nx, FInf ny => nx && negb ny
  | FInf nx, FFin _ _ => nx
  | FFin _ _, FInf ny => negb ny
  | FFin m p, FFin n q => m * pow10 (S q) <? n * pow10 (S p)
  end.

(** [x <= y] *)
Definition float_leb (x y : pyfloat) : bool :=
  match x, y with
  | FNan, _ | _, FNan => false
  | FInf nx, FInf ny => nx || negb ny
  | FInf nx, FFin _ _ => nx
  | FFin _ _, FInf ny => negb ny
  | FFin m p, FFin n q => m * pow10 (S q) <=? n * pow10 (S p)
  end.

(** [x == y] *)
Definition float_eqb (x y : pyfloat) : bool :=
  match x, y with
  | FNan, _ | _, FNan => false
  | FInf nx, FInf ny => Bool.eqb nx ny
  | FFin m p, FFin n q => m * pow10 (S q) =? n * pow10 (S p)
  | _, _ => false
  end.

(** [x + y] *)
Definition float_add (x y : pyfloat) : pyfloat :=
  match x, y with
  | FNan, _ | _, FNan => FNan
  | FInf nx, FInf ny => if Bool.eqb nx ny then FInf nx else FNan
  | FInf nx, FFin _ _ => FInf nx
  | FFin _ _, FInf ny => FInf ny
  | FFin m p, FFin n q =>
      let r := Nat.max p q in
      mk_float (m * pow10 (r - p) + n * pow10 (r - q)) r
  end.

(** [- x] *)
Definition float_neg (x : pyfloat) : pyfloat :=
  match x with
  | FNan => FNan
  | FInf n => FInf (negb n)
  | FFin m p => FFin (- m) p
  end.

(** [x - y] *)
Definition float_sub (x y : pyfloat) : pyfloat := float_add x (float_neg y).

(** ** Cell values *)

Inductive cell : Type :=
  | CStr (s : string)
  | CInt (n : Z)
  | CFloat (x : pyfloat)
  | CBool (b : bool).

(** [str(v)] *)
Definition str (v : cell) : string :=
  match v with
  | CStr s => s
  | CInt n => str_of_int n
  | CFloat x => float_str x
  | CBool true => "True"
  | CBool false => "False"
  end.

(** A value that [str] prints: any but an [int] of more than 4300 digits,
    for which it raises [ValueError]. *)
Definition printable (v : option cell) : bool :=
  match v with
  | Some (CInt n) => printable_int n
  | _ => true
  end.

(** [float(v)]; [None] is Python's [None]. *)
Definition float_of (v : option cell) : result pyfloat :=
  match v with
  | None => Raise TypeError
  | Some (CStr s) => float_of_str s
  | Some (CInt n) => float_of_int n
  | Some (CFloat x) => Ok x
  | Some (CBool b) => Ok (FFin (if b then 10 else 0) 0)
  end.

Abbreviation Worksheet := (gmap (Z * Z) cell).

(** [ws.cell(row, column).value] *)
Definition cell_value (ws : Worksheet) (row col : Z) : option cell := ws !! (row, col).

(** The characters openpyxl refuses in the text of a cell
    ([ILLEGAL_CHARACTERS_RE]): the control characters other than TAB, LF
    and CR. *)
Definition illegal_char (c : ascii) : bool :=
  let n := code c in
  (n <=? 8) || ((11 <=? n) && (n <=? 12)) || ((14 <=? n) && (n <=? 31)).

(** The longest text a cell holds. *)
Definition MAX_CELL_TEXT : Z := 32767.

(** [Cell.check_string]: the text is cut to 32767 characters, then refused
    when an illegal character is left in it. *)
Definition check_string (s : string) : result string :=
  let value := take MAX_CELL_TEXT s in
  if some_char illegal_char value then Raise IllegalCharacterError else Ok value.

(** What a cell keeps of the value assigned to it ([Cell._bind_value]):
    numbers, booleans and [None] as they are, text as [check_string]
    returns it. *)
Definition bind_value (v : option cell) : result (option cell) :=
  match v with
  | Some (CStr s) => s' ← check_string s; Ok (Some (CStr s'))
  | _ => Ok v
  end.

(** The sheet with [v] as the value of the cell. *)
Definition put_cell (ws : Worksheet) (row col : Z) (v : option cell) : Worksheet :=
  match v with
  | Some c => <[(row, col) := c]> ws
  | None => delete (row, col) ws
  end.

(** [ws.cell(row, column).value = v] *)
Definition set_cell_value (ws : Worksheet) (row col : Z) (v : option cell)
    : result Worksheet :=
  v' ← bind_value v; Ok (put_cell ws row col v').

(** A text that a cell takes as it is. *)
Definition cell_text (s : string) : bool :=
  (Z.of_nat (String.length s) <=? MAX_CELL_TEXT) && negb (some_char illegal_char s).

(** ** State and exceptions

    A method that mutates its receiver or the file system is a function from
    the state to the state it leaves and its outcome: an exception keeps the
    mutations made before it was raised. *)

Definition prog (St A : Type) : Type := St → St * result A.

Definition ret {St A} (a : A) : prog St A := λ s, (s, Ok a).

Definition bind {St A B} (m : prog St A) (k : A → prog St B) : prog St B :=
  λ s, match m s with
       | (s', Ok a) => k a s'
       | (s', Raise e) => (s', Raise e)
       end.

Notation "x <- m ;; k" := (bind m (λ x, k))
  (at level 100, m at next level, right associativity).
Notation "m ;;; k" := (bind m (λ _, k))
  (at level 100, right associativity).

(** A check or a read that leaves the state alone. *)
Definition lift {St A} (r : result A) : prog St A := λ s, (s, r).
Definition reads {St A} (f : St → result A) : prog St A := λ s, (s, f s).
Definition gets {St A} (f : St → A) : prog St A := λ s, (s, Ok (f s)).
Definition modify {St} (f : St → St) : prog St unit := λ s, (f s, Ok tt).
Definition raise {St A} (e : exn) : prog St A := λ s, (s, Raise e).

(** [try: m except Exception: h] *)
Definition try_prog {St A} (m : prog St A) (h : exn → prog St A) : prog St A :=
  λ s, match m s with
       | (s', Ok a) => (s', Ok a)
       | (s', Raise e) => h e s'
       end.

(** Runs a program on the first component of a pair of states. *)
Definition on_fst {S1 S2 A} (m : prog S1 A) : prog (S1 * S2) A :=
  λ s, match m (fst s) with (s1, r) => ((s1, snd s), r) end.

Definition on_snd {S1 S2 A} (m : prog S2 A) : prog (S1 * S2) A :=
  λ s, match m (snd s) with (s2, r) => ((fst s, s2), r) end.

(** ** utils/general_helper.py *)

Module GeneralHelper.

Definition is_leap_year (year : Z) : bool :=
  ((year mod 4 =? 0) && negb (year mod 100 =? 0)) || (year mod 400 =? 0).

Definition month_days : list (string * Z) :=
  [("january", 31); ("february", 28); ("march", 31); ("april", 30);
   ("may", 31); ("june", 30); ("july", 31); ("august", 31);
   ("september", 30); ("october", 31); ("november", 30); ("december", 31)].

Fixpoint dict_get {V} (d : list (string * V)) (k : string) : option V :=
  match d with
  | [] => None
  | (k', v) :: r => if String.eqb k k' then Some v else dict_get r k
  end.

Definition get_days_in_month (month : string) (year : Z) : result Z :=
  let month := lower (strip month) in
  match dict_get month_days month with
  | None => Raise ValueError
  | Some n =>
      if String.eqb month "february" && is_leap_year year then Ok 29 else Ok n
  end.

End GeneralHelper.

(** ** models/transaction.py *)

Module Transaction.

Record t : Type := Build {
  date : string;
  day : string;
  category : string;
  amount : pyfloat;
  type : string;
  description : string;
}.

(** The dataclass constructor with its [__post_init__]: trims the text
    fields and upper-cases category and type ([float] of a float is itself). *)
Definition make (date day category : string) (amount : pyfloat)
    (type description : string) : t :=
  {| date := strip date;
     day := strip day;
     category := upper (strip category);
     amount := amount;
     type := upper (strip type);
     description := strip description |}.

(** *** Legacy compatibility layer *)

Definition with_date (self : t) (d : string) : t :=
  Build d (day self) (category self) (amount self) (type self) (description self).

Definition get_amount (self : t) : pyfloat := amount self.
Definition get_category (self : t) : string := category self.
Definition get_type (self : t) : string := type self.
Definition get_description (self : t) : string := description self.

Definition get_year (self : t) : string :=
  if negb (is_empty (date self)) && contains "-" (date self)
  then default EmptyString (split "-" (date self) !! 0%nat)
  else EmptyString.

Definition get_month (self : t) : string :=
  let parts := split "-" (date self) in
  match parts !! 1%nat with   (* len(parts) >= 2 *)
  | Some mm => mm
  | None => EmptyString
  end.

(** [parts[2]] raises [IndexError] on a shorter list; every exception gives 0. *)
Definition get_day (self : t) : Z :=
  match split "-" (date self) !! 2%nat with
  | Some dd => match int_of_str dd with Ok n => n | Raise _ => 0 end
  | None => 0
  end.

Definition set_amount (new_amount : pyfloat) (self : t) : t :=
  Build (date self) (day self) (category self) new_amount (type self) (description self).

Definition set_category (new_category : string) (self : t) : t :=
  Build (date self) (day self) (upper (strip new_category)) (amount self) (type self)
    (description self).

Definition set_type (new_type : string) (self : t) : t :=
  Build (date self) (day self) (category self) (amount self) (upper (strip new_type))
    (description self).

Definition set_description (new_description : string) (self : t) : t :=
  Build (date self) (day self) (category self) (amount self) (type self)
    (strip new_description).

Definition set_year (new_year : string) (self : t) : t :=
  let yy := strip new_year in
  let parts := split "-" (date self) in
  let mm := match parts !! 1%nat with Some p => p | None => "01" end in
  let dd := match parts !! 2%nat with Some p => p | None => "01" end in
  if negb (is_empty yy) then with_date self (yy +:+ "-" +:+ mm +:+ "-" +:+ dd)
  else self.


(** [new_day] is an [int]: [int(new_day)] is [new_day]. The f-string stands
    outside the [try]: what it raises leaves the method. *)
Definition set_day (new_day : Z) (self : t) : result t :=
  dd ← format_int 2 new_day;
  let parts := split "-" (date self) in
  let yy := match parts !! 0%nat with
            | Some p => if is_empty p then "0000" else p
            | None => "0000"
            end in
  let mm := match parts !! 1%nat with Some p => p | None => "01" end in
  Ok (with_date self (yy +:+ "-" +:+ mm +:+ "-" +:+ dd)).

End Transaction.

(** ** The file system

    Files and directories are known by their paths in resolved form (see
    [resolved]); there are no symbolic links. What [Path.resolve()] does to a
    path in another form is not modelled. *)

Record File : Type := mkFile {
  f_book : option Worksheet;  (* what [load_workbook] reads; [None]: not a workbook *)
  f_readable : bool;          (* [os.access(path, os.R_OK)] *)
  f_size : Z;                 (* [stat().st_size], in bytes *)
}.

Record FileSystem : Type := mkFS {
  files : gmap string File;
  dirs : gset string;
  locked : gset string;  (* directories in which nothing can be created or written *)
}.

(** [dir / name] for a directory in resolved form and a plain name. *)
Definition path_join (dir name : string) : string := dir +:+ "/" +:+ name.

(** A component of a path that names an entry of its directory. *)
Definition plain_name (c : string) : bool :=
  negb (is_empty c) && negb (String.eqb c ".") && negb (String.eqb c "..")
  && negb (contains "/" c).

(** A path in the form [Path.resolve()] gives it, below the root: absolute,
    no component empty, [.] or [..]; resolving such a path returns it. *)
Definition resolved (p : string) : bool :=
  match split "/" p with
  | EmptyString :: c :: rest => forallb plain_name (c :: rest)
  | _ => false
  end.

(** [Path(p).name] *)
Definition path_name (p : string) : string := last_part (split "/" p).

(** [Path(p).parent] *)
Definition path_parent (p : string) : string :=
  String.substring 0 (String.length p - String.length (path_name p) - 1) p.

(** Splits [name] at its last dot: [(before, after)]. *)
Fixpoint rsplit_dot (name : string) : option (string * string) :=
  match name with
  | EmptyString => None
  | String c r =>
      match rsplit_dot r with
      | Some (b, a) => Some (String c b, a)
      | None => if Ascii.eqb c "."%char then Some (EmptyString, r) else None
      end
  end.

(** [Path(p).suffix]: from the last dot of the name, when that dot is
    neither its first nor its last character. *)
Definition path_suffix (p : string) : string :=
  match rsplit_dot (path_name p) with
  | Some (String _ _, String c r) => String "."%char (String c r)
  | _ => EmptyString
  end.

(** [Path(p).stem] *)
Definition path_stem (p : string) : string :=
  match rsplit_dot (path_name p) with
  | Some (String b bs, String _ _) => String b bs
  | _ => path_name p
  end.

Definition is_file (fs : FileSystem) (p : string) : bool := bool_decide (is_Some (files fs !! p)).
Definition is_dir (fs : FileSystem) (p : string) : bool := bool_decide (p ∈ dirs fs).
Definition exists_ (fs : FileSystem) (p : string) : bool := is_file fs p || is_dir fs p.

(** [Path.mkdir(parents=True, exist_ok=True)] *)
Definition mkdir (d : string) : prog FileSystem unit :=
  λ fs, if is_file fs d || bool_decide (path_parent d ∈ locked fs) && negb (is_dir fs d)
        then (fs, Raise OSError)
        else (mkFS (files fs) ({[d]} ∪ dirs fs) (locked fs), Ok tt).

(** [with tempfile.TemporaryFile(dir=d): pass] *)
Definition probe_writable (d : string) : prog FileSystem unit :=
  λ fs, if is_dir fs d && negb (bool_decide (d ∈ locked fs)) then (fs, Ok tt)
        else (fs, Raise OSError).

(** [load_workbook(filename=p)]; whatever makes it fail is an [OSError] here.
    A file is kept as the worksheet it loads as. *)
Definition load_workbook (fs : FileSystem) (p : string) : result Worksheet :=
  match files fs !! p with
  | Some f => match f_book f with
              | Some ws => if f_readable f then Ok ws else Raise OSError
              | None => Raise OSError
              end
  | None => Raise OSError
  end.

(** [wb.save(p)]: writes the workbook as the file [p]. The size of the
    written file is not modelled: an existing file keeps its size; nor is
    what the file format does not keep of a cell value: the file is kept as
    the worksheet that was saved. *)
Definition save_workbook (ws : Worksheet) (p : string) : prog FileSystem unit :=
  λ fs, if is_dir fs p || bool_decide (path_parent p ∈ locked fs) then (fs, Raise OSError)
        else
          let size := match files fs !! p with Some f => f_size f | None => 0 end in
          (mkFS (<[p := mkFile (Some ws) true size]> (files fs)) (dirs fs) (locked fs), Ok tt).

(** [shutil.copy2(src, dst)] *)
Definition copy2 (src dst : string) : prog FileSystem unit :=
  λ fs, match files fs !! src with
        | Some f =>
            if negb (f_readable f) || is_dir fs dst || bool_decide (path_parent dst ∈ locked fs)
            then (fs, Raise OSError)
            else (mkFS (<[dst := f]> (files fs)) (dirs fs) (locked fs), Ok tt)
        | None => (fs, Raise OSError)
        end.

(** [shutil.move(src, dst)] for a file. *)
Definition move (src dst : string) : prog FileSystem unit :=
  λ fs, match files fs !! src with
        | Some f =>
            if is_dir fs dst || bool_decide (path_parent dst ∈ locked fs)
               || bool_decide (path_parent src ∈ locked fs)
            then (fs, Raise OSError)
            else (mkFS (<[dst := f]> (delete src (files fs))) (dirs fs) (locked fs), Ok tt)
        | None => (fs, Raise OSError)
        end.

(** [Path.unlink(missing_ok=True)] *)
Definition unlink (p : string) : prog FileSystem unit :=
  λ fs, if bool_decide (path_parent p ∈ locked fs) && is_file fs p then (fs, Raise OSError)
        else (mkFS (delete p (files fs)) (dirs fs) (locked fs), Ok tt).

(** ** utils/validator.py

    Each [validate_*] raises [ValidationError] with the message of the
    source; a message is given in ASCII and without the parts that embed a
    line break, the text of an underlying exception or a formatted float. *)

Definition _TEMPLATE_MARKER_CELL : Z * Z := (1, 1).  (* "A1" as (row, column) *)
Definition _TEMPLATE_MARKER_VALUE : string := "MM_TMU".

Definition _MONTH_TO_NUM : list (string * Z) :=
  [("JANUARY", 1); ("FEBRUARY", 2); ("MARCH", 3); ("APRIL", 4);
   ("MAY", 5); ("JUNE", 6); ("JULY", 7); ("AUGUST", 8);
   ("SEPTEMBER", 9); ("OCTOBER", 10); ("NOVEMBER", 11); ("DECEMBER", 12)].

Definition _MONTH_KEYS : list string := _MONTH_TO_NUM.*1.

Definition str_in (k : string) (l : list string) : bool :=
  existsb (String.eqb k) l.

(** The month of [%Y-%m-%d] and the dash after it: [1[0-2]|0[1-9]|[1-9]]. *)
Definition match_month (s : string) : option (Z * string) :=
  match s with
  | String a (String b (String "-"%char r)) =>
      if (Ascii.eqb a "1"%char && is_digit b && (digit_val b <=? 2))
         || (Ascii.eqb a "0"%char && is_digit b && (1 <=? digit_val b))
      then Some (10 * digit_val a + digit_val b, r)
      else None
  | String a (String "-"%char r) =>
      if is_digit a && (1 <=? digit_val a) then Some (digit_val a, r) else None
  | _ => None
  end.

(** The day of [%Y-%m-%d]: [3[01]|[12]\d|0[1-9]|[1-9]| [1-9]], then what is left. *)
Definition match_day (s : string) : option (Z * string) :=
  let two :=
    match s with
    | String a (String b r) =>
        if (Ascii.eqb a "3"%char && is_digit b && (digit_val b <=? 1))
           || ((Ascii.eqb a "1"%char || Ascii.eqb a "2"%char) && is_digit b)
           || (Ascii.eqb a "0"%char && is_digit b && (1 <=? digit_val b))
        then Some (10 * digit_val a + digit_val b, r)
        else None
    | _ => None
    end in
  match two, s with
  | Some r, _ => Some r
  | None, String a r =>
      if is_digit a && (1 <=? digit_val a) then Some (digit_val a, r)
      else match r with
           | String b r' =>
               if Ascii.eqb a " "%char && is_digit b && (1 <=? digit_val b)
               then Some (digit_val b, r')
               else None
           | EmptyString => None
           end
  | None, EmptyString => None
  end.

(** Days of a month of the proleptic Gregorian calendar ([datetime.date]). *)
Definition days_in (year month : Z) : Z :=
  if month =? 2 then (if GeneralHelper.is_leap_year year then 29 else 28)
  else if (month =? 4) || (month =? 6) || (month =? 9) || (month =? 11) then 30
  else 31.

(** [datetime.datetime.strptime(s, "%Y-%m-%d")]: the date's year, month and
    day, or [ValueError]. *)
Definition strptime (s : string) : result (Z * Z * Z) :=
  match s with
  | String y1 (String y2 (String y3 (String y4 (String "-"%char r)))) =>
      if is_digit y1 && is_digit y2 && is_digit y3 && is_digit y4 then
        let y := 1000 * digit_val y1 + 100 * digit_val y2 + 10 * digit_val y3 + digit_val y4 in
        match match_month r with
        | Some (m, r') =>
            match match_day r' with
            | Some (d, EmptyString) =>
                if (1 <=? y) && (d <=? days_in y m) then Ok (y, m, d)
                else Raise ValueError
            | _ => Raise ValueError
            end
        | None => Raise ValueError
        end
      else Raise ValueError
  | _ => Raise ValueError
  end.

Definition ensure_directory_writable (directory : string) : prog FileSystem unit :=
  try_prog (mkdir directory)
    (λ e, raise (ValidationError ("Cannot create directory:" +:+ directory))) ;;;
  try_prog (probe_writable directory)
    (λ _, raise (ValidationError ("This folder is not writable:" +:+ directory))).

Definition validate_fresh_session_paths (template_path storage_dir : string)
    : prog FileSystem unit :=
  fs <- gets id ;;
  if negb (exists_ fs template_path) || negb (is_file fs template_path) then
    raise (ValidationError ("Template not found at: " +:+ template_path))
  else if negb (String.eqb (lower (path_suffix template_path)) ".xlsx") then
    raise (ValidationError "Template must be an .xlsx file.")
  else ensure_directory_writable storage_dir.

Definition readable (fs : FileSystem) (p : string) : bool :=
  match files fs !! p with
  | Some f => f_readable f
  | None => is_dir fs p
  end.

Definition validate_user_upload_path (fs : FileSystem) (file_path : string) : result unit :=
  if is_empty file_path || is_empty (strip file_path) then
    Raise (ValidationError "Please select an Excel file (.xlsx).")
  else if negb (exists_ fs file_path) || negb (is_file fs file_path) then
    Raise (ValidationError ("File not found at: " +:+ file_path))
  else if negb (String.eqb (lower (path_suffix file_path)) ".xlsx") then
    Raise (ValidationError "Selected file must have a .xlsx extension.")
  else if negb (readable fs file_path) then
    Raise (ValidationError ("You do not have permission to read this file:" +:+ file_path))
  else Ok tt.

Definition template_mismatch_message : string :=
  "This file doesn't match the Money Manager template (missing 'MM_TMU' marker in cell A1).".

(** [str(marker or "")]: a falsy marker (None, empty text, zero, False)
    reads as the empty string. *)
Definition str_or_empty (v : option cell) : string :=
  match v with
  | None => EmptyString
  | Some (CInt 0) => EmptyString
  | Some (CBool false) => EmptyString
  | Some (CFloat x) => if float_eqb x float_zero then EmptyString else float_str x
  | Some c => str c
  end.

Definition validate_template_signature (file_path : string) : prog FileSystem unit :=
  ok <- try_prog
          (fs <- gets id ;;
           ws <- lift (load_workbook fs file_path) ;;
           let marker := ws !! _TEMPLATE_MARKER_CELL in
           let ok := String.eqb (upper (strip (str_or_empty marker))) _TEMPLATE_MARKER_VALUE in
           save_workbook ws file_path ;;;
           ret ok)
          (λ e, raise (ValidationError "Could not open the selected file.")) ;;
  if negb ok then raise (ValidationError template_mismatch_message)
  else ret tt.

Definition validate_download_target_path (save_path : string) : prog FileSystem unit :=
  if is_empty save_path || is_empty (strip save_path) then
    raise (ValidationError "Please choose a location to save the file.")
  else if negb (String.eqb (lower (path_suffix save_path)) ".xlsx") then
    raise (ValidationError "The target file name must end with .xlsx")
  else ensure_directory_writable (path_parent save_path).

Definition validate_open_excel_path (fs : FileSystem) (file_path : string) : result unit :=
  if is_empty file_path || is_empty (strip file_path) then
    Raise (ValidationError "Please provide a workbook path to open.")
  else if negb (exists_ fs file_path) || negb (is_file fs file_path) then
    Raise (ValidationError ("Workbook not found at: " +:+ file_path))
  else if negb (String.eqb (lower (path_suffix file_path)) ".xlsx") then
    Raise (ValidationError "Workbook must be an .xlsx file.")
  else if negb (readable fs file_path) then
    Raise (ValidationError ("You do not have permission to read this workbook:" +:+ file_path))
  else Ok tt.

Definition validate_year_value (year : Z) : result unit :=
  if (year <? 1900) || (2100 <? year) then
    Raise (ValidationError "Year must be between 1900 and 2100.")
  else Ok tt.

Definition validate_income_value (amount : pyfloat) : result unit :=
  if float_ltb amount float_zero then
    Raise (ValidationError "Income must be non-negative.")
  else Ok tt.

Definition validate_month_name (month_name : string) : result string :=
  if is_empty month_name || is_empty (strip month_name) then
    Raise (ValidationError "Month name is required.")
  else
    let key := upper (strip month_name) in
    if negb (str_in key _MONTH_KEYS) then
      Raise (ValidationError "Unknown month name. Use January-December.")
    else Ok key.

Definition validate_day_in_month (month_key : string) (year day : Z) : result unit :=
  max_day ← try_except (GeneralHelper.get_days_in_month month_key year)
              (λ _, Raise (ValidationError
                 "Could not validate the day for the given month/year."));
  if (day <? 1) || (max_day <? day) then
    Raise (ValidationError
      ("Day " +:+ str_of_int day +:+ " is not valid for " +:+ month_key +:+ " "
       +:+ str_of_int year +:+ " (max = " +:+ str_of_int max_day +:+ ")."))
  else Ok tt.

Definition validate_slot_index (slot_index : Z) : result unit :=
  if negb ((slot_index =? 0) || (slot_index =? 1)) then
    Raise (ValidationError "Slot index must be 0 or 1.")
  else Ok tt.

Definition validate_transaction_or_none (tx : option Transaction.t) : result unit :=
  match tx with
  | None => Ok tt
  | Some tx =>
      let amt := Transaction.amount tx in
      if float_ltb amt float_zero then
        Raise (ValidationError "Transaction amount must be non-negative.")
      else
        let t := upper (strip (Transaction.type tx)) in
        if negb (str_in t ["INCOME"; "EXPENSE"]) then
          Raise (ValidationError "Transaction type must be INCOME or EXPENSE.")
        else
          let cat := strip (Transaction.category tx) in
          if is_empty cat then
            Raise (ValidationError "Transaction category cannot be empty.")
          else
            let date_s := strip (Transaction.date tx) in
            if is_empty date_s then
              Raise (ValidationError "Transaction date is required (YYYY-MM-DD).")
            else
              try_except (_ ← strptime date_s; Ok tt)
                (λ _, Raise (ValidationError "Invalid date format. Expected YYYY-MM-DD."))
  end.

Definition validate_backup_directory (backup_dir : string) : prog FileSystem unit :=
  if is_empty backup_dir || is_empty (strip backup_dir) then
    raise (ValidationError "Please choose a backup folder.")
  else ensure_directory_writable backup_dir.

Definition validate_date_matches_month (month_key date_str : string) (year : Z)
    : result unit :=
  d ← try_except (strptime date_str)
        (λ _, Raise (ValidationError "Invalid transaction date. Expected YYYY-MM-DD."));
  match GeneralHelper.dict_get _MONTH_TO_NUM (upper (strip month_key)) with
  | None => Raise (ValidationError "Unknown month name. Use January-December.")
  | Some month_num =>
      let '(dy, dm, _) := d in
      if negb (dy =? year) || negb (dm =? month_num) then
        Raise (ValidationError
          ("Date " +:+ date_str +:+ " does not belong to " +:+ month_key +:+ " "
           +:+ str_of_int year +:+ "."))
      else Ok tt
  end.

(** [validate_upload_filesize]: [size / 2^20 > max_mb] on floats is
    [size > max_mb * 2^20] on the byte count. *)
Definition validate_upload_filesize (fs : FileSystem) (file_path : string) (max_mb : Z)
    : result unit :=
  match files fs !! file_path with
  | None => Raise OSError
  | Some f =>
      if max_mb * (1024 * 1024) <? f_size f then
        Raise (ValidationError ("Upload too large. Limit is " +:+ str_of_int max_mb +:+ " MB."))
      else Ok tt
  end.

Definition validate_workbook_is_open (get_path : option string) : result unit :=
  match get_path with
  | None => Raise (ValidationError "No workbook is open. Start a session or open a file first.")
  | Some _ => Ok tt
  end.

Definition validate_import_into_session (loader_path : option string) (source_path : string)
    : prog FileSystem unit :=
  lift (validate_workbook_is_open loader_path) ;;;
  fs <- gets id ;;
  lift (validate_user_upload_path fs source_path) ;;;
  validate_template_signature source_path.

Definition validate_active_session (fs : FileSystem) (session_path : option string)
    : result unit :=
  match session_path with
  | Some p =>
      if is_empty p || negb (exists_ fs p) then
        Raise (ValidationError
          "No active session found. Start a fresh or imported session first.")
      else Ok tt
  | None =>
      Raise (ValidationError
        "No active session found. Start a fresh or imported session first.")
  end.

(** [Path(p).relative_to(base)]: the part of [p] below [base], or
    [ValueError] when [p] is not [base] or below it. *)
Definition relative_to (p base : string) : result string :=
  if String.eqb p base then Ok "."
  else if startswith p (base +:+ "/") then Ok (drop_prefix p (base +:+ "/"))
  else Raise ValueError.

Definition live_storage_message : string :=
  "Please do not save into the application's live storage folder.".

Definition validate_export_target_path (target_path : string)
    (active_session_path : option string) : prog FileSystem unit :=
  validate_download_target_path target_path ;;;
  match active_session_path with
  | None => ret tt
  | Some active =>
      if is_empty active then ret tt
      else
        try_prog
          (let session_file := active in
           let storage_directory := path_parent session_file in
           let target := target_path in
           lift (except_ValueError
                   (_ ← relative_to target storage_directory;
                    Raise (ValidationError live_storage_message))
                   (Ok tt)))
          (λ _, ret tt)
  end.

(** ** file_io/excel_loader.py *)

Module ExcelLoader.

(** [_ws] is the active sheet of [_wb]: one object behind two names. *)
Record t : Type := Build {
  _wb : option Worksheet;
  _ws : option Worksheet;
  _path : option string;
}.

(** [ExcelLoader()] *)
Definition new : t := Build None None None.

Definition TEMPLATE_MARKER_CELL : Z * Z := (1, 1).  (* "A1" *)
Definition TEMPLATE_MARKER_VALUE : string := "MM_TMU".
Definition CURRENT_INCOME_CELL : Z * Z := (5, 3).   (* "C5" *)
Definition YEAR_CELL : Z * Z := (6, 2).             (* "B6" *)

Definition MONTH_ANCHOR_ROW : list (string * Z) :=
  [("JANUARY", 8); ("FEBRUARY", 72); ("MARCH", 132); ("APRIL", 196);
   ("MAY", 258); ("JUNE", 322); ("JULY", 384); ("AUGUST", 448);
   ("SEPTEMBER", 512); ("OCTOBER", 574); ("NOVEMBER", 638); ("DECEMBER", 700)].

Definition COL : list (string * Z) :=
  [("DATE", 1); ("DAY", 3); ("CATEGORY", 4); ("AMOUNT", 9); ("TYPE", 10);
   ("DESCRIPTION", 11)].

(** [self.COL[k]] for the keys the class uses. *)
Definition col (k : string) : Z := default 0 (GeneralHelper.dict_get COL k).

Definition VALID_TYPES : list string := ["EXPENSE"; "INCOME"; "NONE"].

(** *** Lifecycle *)

(** The path is taken in resolved form, which [Path(file_path).resolve()]
    returns as it is. *)
Definition open (file_path : string) : prog (t * FileSystem) unit :=
  fs <- gets snd ;;
  lift (validate_open_excel_path fs file_path) ;;;
  modify (λ s, (Build (_wb s.1) (_ws s.1) (Some file_path), s.2)) ;;;
  wb <- lift (load_workbook fs file_path) ;;
  modify (λ s, (Build (Some wb) (_ws s.1) (_path s.1), s.2)) ;;;
  modify (λ s, (Build (_wb s.1) (_wb s.1) (_path s.1), s.2)).

Definition close : prog t unit := modify (λ _, Build None None None).

(** *** Internals *)

Definition ensure_open (self : t) : result unit :=
  match _wb self, _ws self with
  | Some _, Some _ => Ok tt
  | _, _ => Raise (ValidationError "Workbook is not open. Call open(file_path) first.")
  end.

(** The sheet behind [self._ws]; using [None] as a sheet is an error. *)
Definition sheet (self : t) : result Worksheet :=
  match _ws self with
  | Some ws => Ok ws
  | None => Raise AttributeError
  end.

(** [self._ws.cell(row=row, column=col).value = v]: the write is seen
    through [_wb] as well, the sheet being the workbook's. *)
Definition write_cell (row c : Z) (v : option cell) : prog t unit :=
  λ self, match _ws self with
          | Some ws =>
              match set_cell_value ws row c v with
              | Ok ws' => (Build ((λ _, ws') <$> _wb self) (Some ws') (_path self), Ok tt)
              | Raise e => (self, Raise e)
              end
          | None => (self, Raise AttributeError)
          end.

Definition normalize_month (month_name : string) : result string :=
  let key := upper (strip month_name) in
  match GeneralHelper.dict_get MONTH_ANCHOR_ROW key with
  | None => Raise (ValidationError ("Unknown month: " +:+ month_name))
  | Some _ => Ok key
  end.

Definition get_anchor_row (month_key : string) : result Z :=
  match GeneralHelper.dict_get MONTH_ANCHOR_ROW month_key with
  | Some r => Ok r
  | None => Raise KeyError
  end.

Definition row_for_day (anchor_row day slot_index : Z) : result Z :=
  if day <? 1 then Raise (ValidationError "day must be >= 1")
  else if negb ((slot_index =? 0) || (slot_index =? 1)) then
    Raise (ValidationError "slot_index must be 0 or 1")
  else Ok (anchor_row + 2 + (day - 1) * 2 + slot_index).

Definition months_in_order : list string :=
  ["JANUARY"; "FEBRUARY"; "MARCH"; "APRIL"; "MAY"; "JUNE";
   "JULY"; "AUGUST"; "SEPTEMBER"; "OCTOBER"; "NOVEMBER"; "DECEMBER"].

Fixpoint clear_cols (row : Z) (cols : list Z) : prog t unit :=
  match cols with
  | [] => ret tt
  | c :: r => write_cell row c None ;;; clear_cols row r
  end.

Definition clear_row (row : Z) : prog t unit := clear_cols row (COL.*2).

Definition safe_cell_str (self : t) (row c : Z) : result string :=
  ws ← sheet self;
  match cell_value ws row c with
  | None => Ok EmptyString
  | Some v => Ok (str v)
  end.

Definition to_float (raw : option cell) : result pyfloat :=
  match raw with
  | None => Ok float_zero
  | Some v =>
      let s := strip (str v) in
      if is_empty s then Ok float_zero
      else
        let s := replace ","%char EmptyString (replace "$"%char EmptyString s) in
        except_ValueError (float_of_str s) (Ok float_zero)
  end.

Definition to_int (raw : option cell) : result Z :=
  match raw with
  | None => Ok 0
  | Some v =>
      if is_empty (strip (str v)) then Ok 0
      else except_ValueError (x ← float_of_str (str v); int_of_float x) (Ok 0)
  end.

Definition month_to_number (month_key : string) : result Z :=
  match GeneralHelper.dict_get _MONTH_TO_NUM month_key with
  | Some n => Ok n
  | None => Raise KeyError
  end.

Definition date_to_string (year : Z) (month_key : string) (day_number : Z) : result string :=
  month_num ← month_to_number month_key;
  Ok (format_0d 4 year +:+ "-" +:+ format_0d 2 month_num +:+ "-" +:+ format_0d 2 day_number).

Definition extract_day (date_str : string) : Z :=
  match int_of_str (last_part (split "-"%char date_str)) with
  | Ok n => n
  | Raise _ => 0
  end.

(** [str(raw)] where [raw] may be [None]. *)
Definition str_opt (raw : option cell) : string :=
  match raw with
  | None => "None"
  | Some v => str v
  end.

Definition read_row_as_transaction (self : t) (month_key : string) (year day row : Z)
    : result (option Transaction.t) :=
  t ← upper <$> (strip <$> safe_cell_str self row (col "TYPE"));
  date_cell ← strip <$> safe_cell_str self row (col "DATE");
  day_name ← strip <$> safe_cell_str self row (col "DAY");
  category ← strip <$> safe_cell_str self row (col "CATEGORY");
  ws ← sheet self;
  let amount_raw := cell_value ws row (col "AMOUNT") in
  desc ← strip <$> safe_cell_str self row (col "DESCRIPTION");
  let is_all_blank :=
    is_empty t && is_empty date_cell && is_empty day_name && is_empty category
    && is_empty desc
    && match amount_raw with
       | None => true
       | Some v => is_empty (strip (str v))
       end in
  if String.eqb t "NONE" || (is_empty t && is_all_blank) then Ok None
  else if negb (str_in t VALID_TYPES) then Ok None
  else
    day_number ← (if negb (is_empty date_cell) then to_int (Some (CStr date_cell))
                   else Ok day);
    date_str ← date_to_string year month_key day_number;
    amount_val ← to_float amount_raw;
    Ok (Some (Transaction.make date_str day_name category amount_val t desc)).

(** *** Verification and fixed fields *)

Definition verify_template (self : t) : result bool :=
  _ ← ensure_open self;
  ws ← sheet self;
  let value := ws !! TEMPLATE_MARKER_CELL in
  Ok (String.eqb (upper (strip (str_opt value))) TEMPLATE_MARKER_VALUE).

Definition get_year (self : t) : result Z :=
  _ ← ensure_open self;
  ws ← sheet self;
  let raw := ws !! YEAR_CELL in
  x ← float_of raw;
  int_of_float x.

Definition set_year (year : Z) : prog t unit :=
  lift (validate_year_value year) ;;;
  reads ensure_open ;;;
  write_cell YEAR_CELL.1 YEAR_CELL.2 (Some (CInt year)).

Definition get_current_income (self : t) : result pyfloat :=
  _ ← ensure_open self;
  ws ← sheet self;
  to_float (ws !! CURRENT_INCOME_CELL).

Definition set_current_income (income : pyfloat) : prog t unit :=
  lift (validate_income_value income) ;;;
  reads ensure_open ;;;
  write_cell CURRENT_INCOME_CELL.1 CURRENT_INCOME_CELL.2 (Some (CFloat income)).

(** *** Month and day I/O *)

(** The body of [read_month]'s loop over [d], the dict being built in
    insertion order. *)
Fixpoint read_days (self : t) (month_key : string) (year anchor : Z) (ds : list Z)
    : result (list (Z * list (option Transaction.t))) :=
  match ds with
  | [] => Ok []
  | d :: rest =>
      row_top ← row_for_day anchor d 0;
      let row_bottom := row_top + 1 in
      slot0 ← read_row_as_transaction self month_key year d row_top;
      slot1 ← read_row_as_transaction self month_key year d row_bottom;
      result ← read_days self month_key year anchor rest;
      Ok ((d, [slot0; slot1]) :: result)
  end.

Definition read_month (self : t) (month_name : string)
    : result (list (Z * list (option Transaction.t))) :=
  _ ← ensure_open self;
  month_key ← validate_month_name month_name;
  anchor ← get_anchor_row month_key;
  year ← get_year self;
  day_count ← GeneralHelper.get_days_in_month month_key year;
  read_days self month_key year anchor (seqZ 1 day_count).

Definition write_day_entry (month_name : string) (day slot_index : Z)
    (tx : option Transaction.t) : prog t unit :=
  reads ensure_open ;;;
  month_key <- lift (validate_month_name month_name) ;;
  year <- reads get_year ;;
  lift (validate_day_in_month month_key year day) ;;;
  lift (validate_slot_index slot_index) ;;;
  lift (validate_transaction_or_none tx) ;;;
  (match tx with
   | Some tx =>
       year <- reads get_year ;;
       lift (validate_date_matches_month month_key (Transaction.date tx) year)
   | None => ret tt
   end) ;;;
  anchor <- lift (get_anchor_row month_key) ;;
  row <- lift (row_for_day anchor day slot_index) ;;
  match tx with
  | None =>
      clear_row row ;;;
      write_cell row (col "TYPE") (Some (CStr "NONE"))
  | Some tx =>
      write_cell row (col "DATE") (Some (CInt (extract_day (Transaction.date tx)))) ;;;
      write_cell row (col "DAY") (Some (CStr (Transaction.day tx))) ;;;
      write_cell row (col "CATEGORY") (Some (CStr (Transaction.category tx))) ;;;
      write_cell row (col "AMOUNT") (Some (CFloat (Transaction.amount tx))) ;;;
      write_cell row (col "TYPE") (Some (CStr (upper (Transaction.type tx)))) ;;;
      write_cell row (col "DESCRIPTION") (Some (CStr (Transaction.description tx)))
  end.

Fixpoint read_months (self : t) (months : list string)
    : result (list (string * list (Z * list (option Transaction.t)))) :=
  match months with
  | [] => Ok []
  | month_key :: rest =>
      m ← read_month self month_key;
      data ← read_months self rest;
      Ok ((month_key, m) :: data)
  end.

Definition read_all (self : t)
    : result (list (string * list (Z * list (option Transaction.t)))) :=
  _ ← ensure_open self;
  read_months self months_in_order.

(** [for idx, tx in enumerate(slots)] from index [idx]. *)
Fixpoint write_slots (month_norm : string) (day idx : Z) (slots : list (option Transaction.t))
    : prog t unit :=
  match slots with
  | [] => ret tt
  | tx :: rest =>
      write_day_entry month_norm day idx tx ;;;
      write_slots month_norm day (idx + 1) rest
  end.

Fixpoint write_days (month_norm : string) (days : list (Z * list (option Transaction.t)))
    : prog t unit :=
  match days with
  | [] => ret tt
  | (day, slots) :: rest =>
      write_slots month_norm day 0 slots ;;;
      write_days month_norm rest
  end.

Fixpoint write_months (data : list (string * list (Z * list (option Transaction.t))))
    : prog t unit :=
  match data with
  | [] => ret tt
  | (month_key, days) :: rest =>
      month_norm <- lift (validate_month_name month_key) ;;
      write_days month_norm days ;;;
      write_months rest
  end.

Definition write_all (data : list (string * list (Z * list (option Transaction.t))))
    : prog t unit :=
  reads ensure_open ;;;
  write_months data.

(** *** Persistence *)

Definition no_backing_path : exn :=
  ValidationError "No backing path associated with this workbook.".

(** [self._wb.save(p)] *)
Definition wb_save (p : string) : prog (t * FileSystem) unit :=
  self <- gets fst ;;
  match _wb self with
  | Some wb => on_snd (save_workbook wb p)
  | None => raise AttributeError
  end.

Definition save : prog (t * FileSystem) unit :=
  on_fst (reads ensure_open) ;;;
  self <- gets fst ;;
  match _path self with
  | None => raise no_backing_path
  | Some p => wb_save p
  end.

Definition save_as (file_path : string) : prog (t * FileSystem) unit :=
  on_snd (validate_download_target_path file_path) ;;;
  on_fst (reads ensure_open) ;;;
  wb_save file_path.

(** *** Session helpers *)

Definition get_path (self : t) : option string := _path self.

(** The texts [datetime.now().strftime("%Y%m%d_%H%M%S")] gives: digits and
    an underscore. *)
Definition timestamp (now : string) : bool :=
  all_chars (λ c, is_digit c || Ascii.eqb c "_"%char) now.

(** [now] is [datetime.now().strftime("%Y%m%d_%H%M%S")]; [backup_dir] is
    taken in resolved form. *)
Definition save_backup (backup_dir now : string) : prog (t * FileSystem) string :=
  on_fst (reads ensure_open) ;;;
  self <- gets fst ;;
  match _path self with
  | None => raise no_backing_path
  | Some p =>
      on_snd (validate_backup_directory backup_dir) ;;;
      let backup_name := path_stem p +:+ "_backup_" +:+ now +:+ ".xlsx" in
      let backup_path := path_join backup_dir backup_name in
      save ;;;
      on_snd (copy2 p backup_path) ;;;
      ret backup_path
  end.

(** Both paths are taken in resolved form. *)
Definition prepare_fresh_session (template_path storage_dir : string)
    : prog (t * FileSystem) string :=
  on_snd (validate_fresh_session_paths template_path storage_dir) ;;;
  let dst := path_join storage_dir "user_data.xlsx" in
  on_snd (copy2 template_path dst) ;;;
  open dst ;;;
  ok <- on_fst (reads verify_template) ;;
  if negb ok then
    on_fst close ;;;
    try_prog (on_snd (unlink dst)) (λ _, ret tt) ;;;
    raise (ValidationError "Copied session file failed template verification.")
  else ret dst.

Definition import_into_session (source_path : string) : prog (t * FileSystem) unit :=
  self <- gets fst ;;
  match _path self with
  | None => raise (ValidationError "No session file is open. Start a fresh session first.")
  | Some p =>
      fs <- gets snd ;;
      lift (validate_upload_filesize fs source_path 20) ;;;
      on_snd (validate_import_into_session (get_path self) source_path) ;;;
      save ;;;
      on_snd (copy2 source_path p) ;;;
      open p
  end.

End ExcelLoader.

(** ** managers/session_manager.py *)

Module SessionManager.

Record SessionState : Type := mkState {
  session_path : option string;
  mode : option string;  (* "FRESH" | "IMPORTED" | None *)
}.

Record t : Type := Build {
  _template_path : string;
  _storage_dir : string;
  _backups_dir : string;
  _user_data_path : string;
  _state : SessionState;
}.

Definition TEMPLATE_FILE : string := "templateFile.xlsx".
Definition STORAGE_DIR : string := "file_storage".
Definition USER_DATA_FILE : string := "user_data.xlsx".
Definition BACKUPS_DIR : string := "backups".

(** [SessionManager(project_root)] *)
Definition new (project_root : string) : t :=
  let storage := path_join (path_join project_root "template") STORAGE_DIR in
  {| _template_path := path_join (path_join project_root "template") TEMPLATE_FILE;
     _storage_dir := storage;
     _backups_dir := path_join storage BACKUPS_DIR;
     _user_data_path := path_join storage USER_DATA_FILE;
     _state := mkState None None |}.

Definition set_state (st : SessionState) : prog (t * FileSystem) unit :=
  modify (λ s, (Build (_template_path s.1) (_storage_dir s.1) (_backups_dir s.1)
                  (_user_data_path s.1) st, s.2)).

(** Runs a block of calls on a local [loader = ExcelLoader()]. *)
Definition with_loader {A} (p : prog (ExcelLoader.t * FileSystem) A)
    : prog (t * FileSystem) A :=
  λ s, match p (ExcelLoader.new, s.2) with
       | ((_, fs'), r) => ((s.1, fs'), r)
       end.

(** *** Small helpers exposed to UI code *)

Definition get_session_path (self : t) : option string := session_path (_state self).
Definition get_mode (self : t) : option string := mode (_state self).

Definition is_session_active (self : t) (fs : FileSystem) : bool :=
  match session_path (_state self) with
  | Some p => negb (is_empty p) && exists_ fs p
  | None => false
  end.

(** *** Internals *)

Definition ensure_base_paths : prog (t * FileSystem) unit :=
  self <- gets fst ;;
  on_snd (validate_fresh_session_paths (_template_path self) (_storage_dir self)) ;;;
  on_snd (mkdir (_backups_dir self)).

Definition require_active_session : prog (t * FileSystem) unit :=
  s <- gets id ;;
  if negb (is_session_active s.1 s.2) then
    raise (ValidationError "No active session. Start a fresh or imported session first.")
  else ret tt.

(** The names in [dir]: files and directories directly below it. *)
Definition listdir (fs : FileSystem) (dir : string) : list string :=
  path_name <$>
    filter (λ p, p = path_join dir (path_name p))
      ((map_to_list (files fs)).*1 ++ elements (dirs fs)).

(** [dir.glob("*.xlsx")], as names. *)
Definition glob_xlsx (fs : FileSystem) (dir : string) : list string :=
  filter (λ n, endswith n ".xlsx" = true) (listdir fs dir).

(** [re.compile(re.escape(prefix) + r"_(\d+)\.xlsx$", re.IGNORECASE).match(name)]:
    the text of group 1. [$] also matches before a final newline. *)
Definition pattern_match (prefix name : string) : option string :=
  let head := prefix +:+ "_" in
  if startswith (lower name) (lower head) then
    let rest := drop_prefix name head in
    match scan_digits rest 0 0 with
    | (_, S n, tail) =>
        if String.eqb (lower tail) ".xlsx"
           || String.eqb (lower tail) (".xlsx" +:+ String (chr 10) EmptyString)
        then Some (String.substring 0 (S n) rest)
        else None
    | _ => None
    end
  else None.

(** The loop of [unique_backup_name] over the globbed names. *)
Fixpoint scan_backups (prefix : string) (names : list string) (max_n : Z) : Z :=
  match names with
  | [] => max_n
  | name :: rest =>
      let max_n :=
        match pattern_match prefix name with
        | Some g =>
            match int_of_str g with
            | Ok n => if max_n <? n then n else max_n
            | Raise _ => max_n
            end
        | None => max_n
        end in
      scan_backups prefix rest max_n
  end.

Definition unique_backup_name (self : t) (fs : FileSystem) (prefix : string) : string :=
  let max_n := scan_backups prefix (glob_xlsx fs (_backups_dir self)) 0 in
  let next_n := max_n + 1 in
  path_join (_backups_dir self) (prefix +:+ "_" +:+ str_of_int next_n +:+ ".xlsx").

Definition archive_current_user_data (label : string) : prog (t * FileSystem) string :=
  s <- gets id ;;
  if negb (exists_ s.2 (_user_data_path s.1)) then
    raise (ValidationError "No session file found to archive.")
  else
    let archived_path := unique_backup_name s.1 s.2 ("User_Data_" +:+ label) in
    on_snd (move (_user_data_path s.1) archived_path) ;;;
    ret archived_path.

Definition archive_if_stale_exists (label : string) : prog (t * FileSystem) unit :=
  s <- gets id ;;
  if exists_ s.2 (_user_data_path s.1) then
    try_prog
      (archive_current_user_data label ;;;
       set_state (mkState None None))
      (λ _,
         s <- gets id ;;
         let fallback := unique_backup_name s.1 s.2 ("User_Data_" +:+ label) in
         on_snd (move (_user_data_path s.1) fallback))
  else ret tt.

(** *** Public API *)

Definition start_fresh_session : prog (t * FileSystem) string :=
  ensure_base_paths ;;;
  archive_if_stale_exists "Stale" ;;;
  self <- gets fst ;;
  session_path <- with_loader
    (p <- ExcelLoader.prepare_fresh_session (_template_path self) (_storage_dir self) ;;
     on_fst ExcelLoader.close ;;;
     ret p) ;;
  set_state (mkState (Some session_path) (Some "FRESH")) ;;;
  ret session_path.

Definition start_imported_session (source_path : string) : prog (t * FileSystem) string :=
  ensure_base_paths ;;;
  fs <- gets snd ;;
  lift (validate_user_upload_path fs source_path) ;;;
  lift (validate_upload_filesize fs source_path 20) ;;;
  on_snd (validate_template_signature source_path) ;;;
  archive_if_stale_exists "Stale" ;;;
  self <- gets fst ;;
  session_path <- with_loader
    (p <- ExcelLoader.prepare_fresh_session (_template_path self) (_storage_dir self) ;;
     ExcelLoader.import_into_session source_path ;;;
     on_fst ExcelLoader.close ;;;
     ret p) ;;
  set_state (mkState (Some session_path) (Some "IMPORTED")) ;;;
  ret session_path.

Definition template_mismatch : exn :=
  ValidationError "Active session file no longer matches the template signature.".

(** [loader.open(self._state.session_path)] *)
Definition open_session (self : t) : prog (ExcelLoader.t * FileSystem) unit :=
  ExcelLoader.open (default EmptyString (session_path (_state self))).

Definition read_all
    : prog (t * FileSystem) (list (string * list (Z * list (option Transaction.t)))) :=
  require_active_session ;;;
  self <- gets fst ;;
  with_loader
    (open_session self ;;;
     ok <- on_fst (reads ExcelLoader.verify_template) ;;
     if negb ok then
       on_fst ExcelLoader.close ;;;
       raise template_mismatch
     else
       data <- on_fst (reads ExcelLoader.read_all) ;;
       on_fst ExcelLoader.close ;;;
       ret data).

Definition write_all (data : list (string * list (Z * list (option Transaction.t))))
    : prog (t * FileSystem) unit :=
  require_active_session ;;;
  self <- gets fst ;;
  with_loader
    (open_session self ;;;
     ok <- on_fst (reads ExcelLoader.verify_template) ;;
     if negb ok then
       on_fst ExcelLoader.close ;;;
       raise template_mismatch
     else
       on_fst (ExcelLoader.write_all data) ;;;
       ExcelLoader.save ;;;
       on_fst ExcelLoader.close).

Definition save : prog (t * FileSystem) unit :=
  require_active_session ;;;
  self <- gets fst ;;
  with_loader
    (open_session self ;;;
     ExcelLoader.save ;;;
     on_fst ExcelLoader.close).

Definition save_backup (backup_dir now : string) : prog (t * FileSystem) string :=
  require_active_session ;;;
  on_snd (validate_backup_directory backup_dir) ;;;
  self <- gets fst ;;
  with_loader
    (open_session self ;;;
     dst <- ExcelLoader.save_backup backup_dir now ;;
     on_fst ExcelLoader.close ;;;
     ret dst).

Definition end_session_and_archive : prog (t * FileSystem) (option string) :=
  s <- gets id ;;
  if negb (is_session_active s.1 s.2) then ret None
  else
    let label :=
      match mode (_state s.1) with
      | Some m => if String.eqb m "FRESH" then "Fresh"
                  else if String.eqb m "IMPORTED" then "Imported" else "Prev"
      | None => "Prev"
      end in
    archived <- archive_current_user_data label ;;
    set_state (mkState None None) ;;;
    ret (Some archived).

End SessionManager.

(** ** models/financial_summary.py *)

Module FinancialSummary.

Record t : Type := Build {
  _year : Z;
  _total_income : pyfloat;
  _total_expense : pyfloat;
  _net_savings : pyfloat;
  _notes : option string;
}.

Definition get_year (self : t) : Z := _year self.
Definition get_total_income (self : t) : pyfloat := _total_income self.
Definition get_total_expense (self : t) : pyfloat := _total_expense self.
Definition get_net_savings (self : t) : pyfloat := _net_savings self.
Definition get_notes (self : t) : option string := _notes self.

End FinancialSummary.

(** ** managers/analytic_manager.py *)

Module AnalyticManager.

Record t : Type := Build { _session_path : option string }.

Definition require_active_session (self : t) : result string :=
  match _session_path self with
  | Some p => if is_empty p then Raise (ValidationError "No active session. Set session path first.")
              else Ok p
  | None => Raise (ValidationError "No active session. Set session path first.")
  end.

(** The records a [{month: {day: [slot0, slot1]}}] value holds, in iteration
    order, [None] slots and records of other kinds skipped. *)
Definition kept (tx : option Transaction.t) : list Transaction.t :=
  match tx with
  | None => []
  | Some tx =>
      let ttype := upper (strip (Transaction.type tx)) in
      if negb (str_in ttype ["EXPENSE"; "INCOME"]) then [] else [tx]
  end.

Definition all_slots (all_data : list (string * list (Z * list (option Transaction.t))))
    : list Transaction.t :=
  days ← all_data.*2; slots ← days.*2; tx ← slots; kept tx.

(** The generator [_iter_all_transactions], as the list it yields. *)
Definition _iter_all_transactions (self : t) (fs : FileSystem) : result (list Transaction.t) :=
  path ← require_active_session self;
  match ExcelLoader.open path (ExcelLoader.new, fs) with
  | (_, Raise e) => Raise e
  | ((loader, _), Ok _) =>
      ok ← ExcelLoader.verify_template loader;
      if negb ok then Ok []
      else
        all_data ← ExcelLoader.read_all loader;
        Ok (all_slots all_data)
  end.

(** The loop of [get_category_totals_year]. *)
Fixpoint rollup (txs : list Transaction.t) (totals : gmap string pyfloat)
    : gmap string pyfloat :=
  match txs with
  | [] => totals
  | t :: rest =>
      let ttype := upper (strip (Transaction.type t)) in
      if negb (String.eqb ttype "EXPENSE") then rollup rest totals
      else
        let c := upper (strip (Transaction.category t)) in
        let key := if is_empty c then "MISCELLANEOUS" else c in
        rollup rest (<[key := float_add (default float_zero (totals !! key)) (Transaction.amount t)]> totals)
  end.

Definition get_category_totals_year (self : t) (fs : FileSystem)
    : result (gmap string pyfloat) :=
  txs ← _iter_all_transactions self fs;
  Ok (rollup txs ∅).

Definition set_session_path (session_path : string) (self : t) : t :=
  Build (Some session_path).

Definition get_session_path (self : t) : option string := _session_path self.

Definition get_year (self : t) (fs : FileSystem) : result Z :=
  path ← require_active_session self;
  match ExcelLoader.open path (ExcelLoader.new, fs) with
  | (_, Raise e) => Raise e
  | ((loader, _), Ok _) => ExcelLoader.get_year loader
  end.

Definition month_slots (month_data : list (Z * list (option Transaction.t)))
    : list Transaction.t :=
  slots ← month_data.*2; tx ← slots; kept tx.

(** The body of the generator function [_iter_month_transactions], run to its
    end: the records it yields, or the exception it stops with. Nothing is
    yielded before the workbook is read. *)
Definition _iter_month_transactions (self : t) (fs : FileSystem) (month_key : string)
    : result (list Transaction.t) :=
  path ← require_active_session self;
  match ExcelLoader.open path (ExcelLoader.new, fs) with
  | (_, Raise e) => Raise e
  | ((loader, _), Ok _) =>
      month_data ← ExcelLoader.read_month loader month_key;
      Ok (month_slots month_data)
  end.

(** A generator object: what iterating it will give, the outcome of its body.
    It is one object behind every name it is bound to. *)
Definition generator (A : Type) : Type := result (list A).

(** [for x in gen]: runs the generator to its end, which leaves it exhausted;
    an exception of its body is raised by the loop and finishes it too. *)
Definition iterate {A} : prog (generator A) (list A) := λ gen, (Ok [], gen).

(** [t.type.strip().upper() == kind] *)
Definition has_kind (kind : string) (t : Transaction.t) : bool :=
  String.eqb (upper (strip (Transaction.type t))) kind.

(** [sum(xs)]: from 0, left to right. *)
Definition sum (xs : list pyfloat) : pyfloat := fold_left float_add xs float_zero.

(** [sum(t.amount for t in txs if t.type.strip().upper() == kind)] on the
    generator [txs]. *)
Definition sum_of_kind (kind : string) : prog (generator Transaction.t) pyfloat :=
  items <- iterate ;;
  ret (sum (Transaction.amount <$> List.filter (has_kind kind) items)).

Definition get_month_totals (self : t) (fs : FileSystem) (month_key : string)
    : result (gmap string pyfloat) :=
  let txs : generator Transaction.t := _iter_month_transactions self fs month_key in
  ((income <- sum_of_kind "INCOME" ;;
    expense <- sum_of_kind "EXPENSE" ;;
    ret ({[ "income" := income; "expense" := expense;
            "net" := float_sub income expense ]} : gmap string pyfloat)) txs).2.

(** A value of the series dicts: a month name or a number. *)
Inductive value : Type :=
  | VStr (s : string)
  | VFloat (x : pyfloat).

(** [d[k]] *)
Definition item {V} (d : gmap string V) (k : string) : result V :=
  match d !! k with
  | Some v => Ok v
  | None => Raise KeyError
  end.

(** The loop of [get_monthly_series] over [months]. *)
Fixpoint series_of (self : t) (fs : FileSystem) (months : list string)
    : result (list (gmap string value)) :=
  match months with
  | [] => Ok []
  | m :: rest =>
      t ← get_month_totals self fs m;
      income ← item t "income";
      expense ← item t "expense";
      net ← item t "net";
      series ← series_of self fs rest;
      Ok (({[ "month" := VStr m; "income" := VFloat income; "expense" := VFloat expense;
              "net" := VFloat net ]} : gmap string value) :: series)
  end.

Definition get_monthly_series (self : t) (fs : FileSystem)
    : result (list (gmap string value)) :=
  path ← require_active_session self;
  match ExcelLoader.open path (ExcelLoader.new, fs) with
  | (_, Raise e) => Raise e
  | (_, Ok _) => series_of self fs ExcelLoader.months_in_order
  end.

(** [0 + v]: adding text to a number is a [TypeError]. *)
Definition number (v : value) : result pyfloat :=
  match v with
  | VFloat x => Ok x
  | VStr _ => Raise TypeError
  end.

(** [sum(m[key] for m in totals)] *)
Definition sum_items (key : string) (totals : list (gmap string value)) : result pyfloat :=
  sum <$> mapM (λ m, v ← item m key; number v) totals.

Definition compute_financial_summary (self : t) (fs : FileSystem)
    : result FinancialSummary.t :=
  year ← get_year self fs;
  totals ← get_monthly_series self fs;
  total_income ← sum_items "income" totals;
  total_expense ← sum_items "expense" totals;
  let net := float_sub total_income total_expense in
  Ok (FinancialSummary.Build year total_income total_expense net None).

(** The loop of [get_income_vs_expense_year]: the income and the expense so
    far. *)
Fixpoint tally (txs : list Transaction.t) (income expense : pyfloat) : pyfloat * pyfloat :=
  match txs with
  | [] => (income, expense)
  | t :: rest =>
      let ttype := upper (strip (Transaction.type t)) in
      if String.eqb ttype "INCOME" then
        tally rest (float_add income (Transaction.amount t)) expense
      else if String.eqb ttype "EXPENSE" then
        tally rest income (float_add expense (Transaction.amount t))
      else tally rest income expense
  end.

Definition get_income_vs_expense_year (self : t) (fs : FileSystem)
    : result (gmap string pyfloat) :=
  txs ← _iter_all_transactions self fs;
  let '(income, expense) := tally txs float_zero float_zero in
  Ok ({[ "income" := income; "expense" := expense;
         "net" := float_sub income expense ]} : gmap string pyfloat).

End AnalyticManager.

(** ** Reading a month's result, and the rows a write leaves alone *)

(** [result[d]] on the [{day: [slot0, slot1]}] value of [read_month]. *)
Definition day_slots {V} (result : list (Z * V)) (d : Z) : option V :=
  snd <$> List.find (λ p, p.1 =? d) result.

(** Every slot of the month other than [(day, slot_index)] parses without an
    exception. *)
Definition rest_of_month_readable (self : ExcelLoader.t) (month_key : string)
    (year day slot_index : Z) : bool :=
  match ExcelLoader.get_anchor_row month_key,
        GeneralHelper.get_days_in_month month_key year with
  | Ok anchor, Ok day_count =>
      forallb (λ d,
        forallb (λ s,
          ((d =? day) && (s =? slot_index))
          || is_ok (row ← ExcelLoader.row_for_day anchor d s;
                    ExcelLoader.read_row_as_transaction self month_key year d row))
          [0; 1])
        (seqZ 1 day_count)
  | _, _ => false
  end.

(** The handle once a cell of its open sheet is written: the sheet [ws'] is
    seen through both names. *)
Definition after_write (self : ExcelLoader.t) (ws' : Worksheet) : ExcelLoader.t :=
  ExcelLoader.Build ((λ _, ws') <$> ExcelLoader._wb self) (Some ws') (ExcelLoader._path self).

(** The sheet once the tracked columns of [row] are cleared and its type cell
    marked. *)
Definition cleared (ws : Worksheet) (row : Z) : Worksheet :=
  <[(row, 10) := CStr "NONE"]>
    (delete (row, 11) (delete (row, 10) (delete (row, 9)
      (delete (row, 4) (delete (row, 3) (delete (row, 1) ws)))))).

(** The sheet once the first [k] of the six cells of the record [tx] are
    written to [row], each text cut to the length a cell holds. *)
Definition written_cells (k : nat) (ws : Worksheet) (row : Z) (tx : Transaction.t)
    : Worksheet :=
  foldl (λ w (cv : Z * cell), <[(row, cv.1) := cv.2]> w) ws
    (List.firstn k
       [(1, CInt (ExcelLoader.extract_day (Transaction.date tx)));
        (3, CStr (take MAX_CELL_TEXT (Transaction.day tx)));
        (4, CStr (take MAX_CELL_TEXT (Transaction.category tx)));
        (9, CFloat (Transaction.amount tx));
        (10, CStr (take MAX_CELL_TEXT (upper (Transaction.type tx))));
        (11, CStr (take MAX_CELL_TEXT (Transaction.description tx)))]).

(** The sheet once the record [tx] is written to [row]. *)
Definition written (ws : Worksheet) (row : Z) (tx : Transaction.t) : Worksheet :=
  written_cells 6 ws row tx.

(** The texts of a record that a cell takes as they are. *)
Definition record_text (tx : Transaction.t) : bool :=
  cell_text (Transaction.day tx) && cell_text (Transaction.category tx)
  && cell_text (upper (Transaction.type tx)) && cell_text (Transaction.description tx).

(** A text that a cell takes, cut to the length it holds. *)
Definition accepted (s : string) : bool :=
  negb (some_char illegal_char (take MAX_CELL_TEXT s)).

(** The number of cells of the record [tx] that [write_day_entry] writes:
    those before the first text that is refused, all six when none is. *)
Definition cells_accepted (tx : Transaction.t) : nat :=
  if negb (accepted (Transaction.day tx)) then 1
  else if negb (accepted (Transaction.category tx)) then 2
  else if negb (accepted (upper (Transaction.type tx))) then 4
  else if negb (accepted (Transaction.description tx)) then 5
  else 6.

(** The text [date_to_string] builds: [YYYY-MM-DD]. *)
Definition iso_date (y m d : Z) : string :=
  format_0d 4 y +:+ "-" +:+ format_0d 2 m +:+ "-" +:+ format_0d 2 d.

(** ** The adapter's public operations as a transition system *)

Inductive call : Type :=
  | Open (file_path : string)
  | Close
  | VerifyTemplate
  | GetYear
  | SetYear (year : Z)
  | GetCurrentIncome
  | SetCurrentIncome (income : pyfloat)
  | ReadMonth (month_name : string)
  | WriteDayEntry (month_name : string) (day slot_index : Z) (tx : option Transaction.t)
  | ReadAll
  | WriteAll (data : list (string * list (Z * list (option Transaction.t))))
  | Save
  | SaveAs (file_path : string)
  | SaveBackup (backup_dir now : string)
  | PrepareFreshSession (template_path storage_dir : string)
  | ImportIntoSession (source_path : string).

(** A call whose returned value is dropped. *)
Definition void {St A} (m : prog St A) : prog St unit := m ;;; ret tt.

Definition run (c : call) : prog (ExcelLoader.t * FileSystem) unit :=
  match c with
  | Open p => ExcelLoader.open p
  | Close => on_fst ExcelLoader.close
  | VerifyTemplate => void (on_fst (reads ExcelLoader.verify_template))
  | GetYear => void (on_fst (reads ExcelLoader.get_year))
  | SetYear y => on_fst (ExcelLoader.set_year y)
  | GetCurrentIncome => void (on_fst (reads ExcelLoader.get_current_income))
  | SetCurrentIncome v => on_fst (ExcelLoader.set_current_income v)
  | ReadMonth m => void (on_fst (reads (λ l, ExcelLoader.read_month l m)))
  | WriteDayEntry m d s tx => on_fst (ExcelLoader.write_day_entry m d s tx)
  | ReadAll => void (on_fst (reads ExcelLoader.read_all))
  | WriteAll data => on_fst (ExcelLoader.write_all data)
  | Save => ExcelLoader.save
  | SaveAs p => ExcelLoader.save_as p
  | SaveBackup d now => void (ExcelLoader.save_backup d now)
  | PrepareFreshSession t s => void (ExcelLoader.prepare_fresh_session t s)
  | ImportIntoSession p => ExcelLoader.import_into_session p
  end.

(** The states of an adapter and the file system under it: a new adapter,
    then any sequence of calls, the files changing freely in between. *)
Inductive reachable : ExcelLoader.t * FileSystem → Prop :=
  | reach_new fs : reachable (ExcelLoader.new, fs)
  | reach_call s c : reachable s → reachable (run c s).1
  | reach_env self fs fs' : reachable (self, fs) → reachable (self, fs').

(** An open workbook handle has a backing path. *)
Definition handle_bound (self : ExcelLoader.t) : Prop :=
  is_Some (ExcelLoader._wb self) → is_Some (ExcelLoader._path self).

(** The program [m] keeps the property [I] of the state, whatever its
    outcome. *)
Definition preserves {St A} (I : St → Prop) (m : prog St A) : Prop :=
  ∀ s, I s → I (m s).1.

(** The checks [start_imported_session] makes before anything else. *)
Definition upload_checks (source_path : string) : prog (SessionManager.t * FileSystem) unit :=
  SessionManager.ensure_base_paths ;;;
  fs <- gets snd ;;
  lift (validate_user_upload_path fs source_path) ;;;
  lift (validate_upload_filesize fs source_path 20) ;;;
  on_snd (validate_template_signature source_path).

(** ** Backup numbering, in the words of the specification *)

(** The number [N] of a backup name [prefix_<N>.xlsx]. *)
Definition backup_number (prefix name : string) : option Z :=
  match SessionManager.pattern_match prefix name with
  | Some g => match int_of_str g with Ok n => Some n | Raise _ => None end
  | None => None
  end.

(** The highest number found among [names], [0] when there is none. *)
Definition highest_suffix (prefix : string) (names : list string) : Z :=
  foldr Z.max 0 (omap (backup_number prefix) names).

(** ** The category rollup, in the words of the specification *)

Definition is_expense (t : Transaction.t) : bool :=
  String.eqb (upper (strip (Transaction.type t))) "EXPENSE".

(** The category a record is counted under: blank ones fold into
    MISCELLANEOUS. *)
Definition bucket (t : Transaction.t) : string :=
  let c := upper (strip (Transaction.category t)) in
  if is_empty c then "MISCELLANEOUS" else c.

(** The amounts of the EXPENSE records of category [key], in order. *)
Definition expenses_in (key : string) (txs : list Transaction.t) : list pyfloat :=
  Transaction.amount <$> filter (λ t, is_expense t = true ∧ bucket t = key) txs.

(** Their sum from [0.0], left to right; no entry where there is none. *)
Definition running_total (amounts : list pyfloat) : option pyfloat :=
  match amounts with
  | [] => None
  | _ => Some (fold_left float_add amounts float_zero)
  end.

(** ** A small workbook and file system, for examples *)

Definition example_sheet : Worksheet :=
  {[ (1, 1) := CStr "MM_TMU"; (6, 2) := CInt 2024 ]}.

Definition example_loader : ExcelLoader.t :=
  ExcelLoader.Build (Some example_sheet) (Some example_sheet)
    (Some "/app/template/file_storage/user_data.xlsx").

Definition example_record : Transaction.t :=
  Transaction.make (iso_date 2024 1 5) "Fri" "food" (FFin 1005 1) "expense" " lunch ".

(** The example record with a control character (BEL) in its description. *)
Definition bell_record : Transaction.t :=
  Transaction.make (iso_date 2024 1 5) "Fri" "food" (FFin 1005 1) "expense"
    ("lunch" +:+ String (chr 7) "!").

(** The example workbook once the write of that record was refused. *)
Definition bell_loader : ExcelLoader.t :=
  (ExcelLoader.write_day_entry "january" 5 1 (Some bell_record) example_loader).1.

(** The example workbook with a legacy row (2 January, first slot) whose date
    cell holds the text [inf]. *)
Definition legacy_loader : ExcelLoader.t :=
  after_write example_loader
    (<[(12, 1) := CStr "inf"]> (<[(12, 10) := CStr "INCOME"]> example_sheet)).

(** The example workbook with a row (1 January, first slot) of a kind the
    adapter does not know. *)
Definition transfer_loader : ExcelLoader.t :=
  after_write example_loader
    (<[(10, 10) := CStr "transfer"]> (<[(10, 9) := CInt 40]> example_sheet)).

(** A session file with one INCOME of 500 and one EXPENSE of 100 in
    category FOOD, both on 1 January. *)
Definition ledger_sheet : Worksheet :=
  <[(10, 10) := CStr "INCOME"]> (<[(10, 9) := CInt 500]> (<[(10, 4) := CStr "SALARY"]>
  (<[(11, 10) := CStr "EXPENSE"]> (<[(11, 9) := CFloat (FFin 1000 0)]>
  (<[(11, 4) := CStr "FOOD"]> example_sheet))))).

Definition ledger_files : FileSystem :=
  mkFS {[ "/app/template/file_storage/user_data.xlsx" := mkFile (Some ledger_sheet) true 9000 ]}
       {[ "/app/template/file_storage" ]} ∅.

Definition ledger_analytics : AnalyticManager.t :=
  AnalyticManager.Build (Some "/app/template/file_storage/user_data.xlsx").

(** An installation under [/app] with a FRESH session running and two
    earlier archives, numbered 1 and 3. *)
Definition fresh_manager : SessionManager.t :=
  let m := SessionManager.new "/app" in
  SessionManager.Build (SessionManager._template_path m) (SessionManager._storage_dir m)
    (SessionManager._backups_dir m) (SessionManager._user_data_path m)
    (SessionManager.mkState (Some "/app/template/file_storage/user_data.xlsx")
       (Some "FRESH")).

(** A workbook that is not an instance of the template. *)
Definition foreign_sheet : Worksheet :=
  {[ (1, 1) := CStr "Budget 2024"; (6, 2) := CInt 2024 ]}.

Definition session_files : FileSystem :=
  mkFS {[ "/app/template/templateFile.xlsx" := mkFile (Some example_sheet) true 9000;
          "/app/template/file_storage/user_data.xlsx" := mkFile (Some example_sheet) true 9000;
          "/app/template/file_storage/backups/User_Data_Fresh_1.xlsx"
            := mkFile (Some example_sheet) true 9000;
          "/app/template/file_storage/backups/User_Data_Fresh_3.xlsx"
            := mkFile (Some example_sheet) true 9000;
          "/home/user/other.xlsx" := mkFile (Some foreign_sheet) true 9000 ]}
       {[ "/app/template/file_storage"; "/app/template/file_storage/backups";
          "/home/user" ]}
       ∅.

(** The same files once the session file was replaced, behind the
    application's back, by a workbook without the template marker. *)
Definition tampered_files : FileSystem :=
  mkFS (<["/app/template/file_storage/user_data.xlsx" := mkFile (Some foreign_sheet) true 9000]>
          (files session_files))
       (dirs session_files) (locked session_files).

(** The same files when nothing can be written in the folder of the
    upload [/home/user/other.xlsx]. *)
Definition readonly_files : FileSystem :=
  mkFS (files session_files) (dirs session_files) {[ "/home/user" ]}.

(** The error of [validate_template_signature] when the upload cannot be
    loaded or cannot be written back. *)
Definition could_not_open : exn := ValidationError "Could not open the selected file.".

(** The adapter once it opened the session file of [session_files]. *)
Definition opened_state : ExcelLoader.t * FileSystem :=
  (run (Open "/app/template/file_storage/user_data.xlsx")
     (ExcelLoader.new, session_files)).1.

(** ** What a write leaves, what a session keeps *)

(** The sheet [write_day_entry] leaves once its checks have passed, and how
    it ends: with the error of the first text that is refused, the cells
    before it being written. *)
Definition slot_written (ws : Worksheet) (row : Z) (tx : option Transaction.t) : Worksheet :=
  match tx with
  | None => cleared ws row
  | Some tx => written_cells (cells_accepted tx) ws row tx
  end.

Definition write_outcome (tx : option Transaction.t) : result unit :=
  match tx with
  | None => Ok tt
  | Some tx => if (cells_accepted tx =? 6)%nat then Ok tt else Raise IllegalCharacterError
  end.

(** The error of [prepare_fresh_session] when the copied file is not an
    instance of the template. *)
Definition verification_failed : exn :=
  ValidationError "Copied session file failed template verification.".

(** The error of the manager's operations when no session is running. *)
Definition no_active_session : exn :=
  ValidationError "No active session. Start a fresh or imported session first.".

(** The paths of a manager, which no operation changes. *)
Definition same_paths (a b : SessionManager.t) : Prop :=
  SessionManager._template_path a = SessionManager._template_path b
  ∧ SessionManager._storage_dir a = SessionManager._storage_dir b
  ∧ SessionManager._backups_dir a = SessionManager._backups_dir b
  ∧ SessionManager._user_data_path a = SessionManager._user_data_path b.

(** ** More examples *)

(** What the example workbook holds for February and for the year. *)
Definition february_rows :=
  match ExcelLoader.read_month example_loader "February"
        return list (Z * list (option Transaction.t)) with
  | Ok rows => rows
  | Raise _ => nil
  end.

Definition example_year :=
  match ExcelLoader.read_all example_loader
        return list (string * list (Z * list (option Transaction.t))) with
  | Ok data => data
  | Raise _ => nil
  end.

(** The example record written to the second slot of 5 January. *)
Definition written_loader : ExcelLoader.t :=
  (ExcelLoader.write_day_entry "january" 5 1 (Some example_record) example_loader).1.

(** An installation whose template file lacks the marker. *)
Definition unmarked_files : FileSystem :=
  mkFS {[ "/app/template/templateFile.xlsx" := mkFile (Some foreign_sheet) true 9000 ]}
       {[ "/app/template/file_storage" ]} ∅.

(** The example installation with an upload that is an instance of the
    template. *)
Definition upload_files : FileSystem :=
  mkFS (<["/home/user/budget.xlsx" := mkFile (Some ledger_sheet) true 9000]>
          (files session_files))
       (dirs session_files) (locked session_files).

(** The example installation with a file that is no workbook, and the
    adapter of the example session once it failed to open that file. *)
Definition corrupt_files : FileSystem :=
  mkFS (<["/home/user/notes.xlsx" := mkFile None true 120]> (files session_files))
       (dirs session_files) (locked session_files).

Definition failed_open_state : (ExcelLoader.t * FileSystem) * result unit :=
  ExcelLoader.open "/home/user/notes.xlsx" (opened_state.1, corrupt_files).

(** The states three operations of the manager leave. *)
Definition archived_state : (SessionManager.t * FileSystem) * result (option string) :=
  SessionManager.end_session_and_archive (fresh_manager, session_files).

Definition started_state : (SessionManager.t * FileSystem) * result string :=
  SessionManager.start_fresh_session (SessionManager.new "/app", session_files).

Definition imported_state : (SessionManager.t * FileSystem) * result string :=
  SessionManager.start_imported_session "/home/user/budget.xlsx"
    (SessionManager.new "/app", upload_files).

(** The adapter of the example session once it took a backup, once it
    imported the upload and once it saved a copy. *)
Definition backup_state : (ExcelLoader.t * FileSystem) * result string :=
  ExcelLoader.save_backup "/home/user" "20240105_101500" opened_state.


Definition copy_state : (ExcelLoader.t * FileSystem) * result unit :=
  ExcelLoader.save_as "/home/user/Copy.XLSX" opened_state.

(** The January totals of the ledger, as [get_month_totals] gives them. *)
Definition january_totals : gmap string pyfloat :=
  {[ "income" := FFin 5000 0; "expense" := FFin 0 0; "net" := FFin 5000 0 ]}.

(** The records of the ledger and its yearly summary. *)
Definition ledger_records : list Transaction.t :=
  [Transaction.Build "2024-01-01" "" "SALARY" (FFin 5000 0) "INCOME" "";
   Transaction.Build "2024-01-01" "" "FOOD" (FFin 1000 0) "EXPENSE" ""].

Definition ledger_summary : FinancialSummary.t :=
  FinancialSummary.Build 2024 (FFin 5000 0) (FFin 0 0) (FFin 5000 0) None.

(** * Properties *)

(** ** Strings *)

Section Strings.

Lemma is_space_upper_char c : is_space (upper_char c) = is_space c.
Proof. by destruct c as [[] [] [] [] [] [] [] []]. Qed.

Lemma upper_char_idem c : upper_char (upper_char c) = upper_char c.
Proof. by destruct c as [[] [] [] [] [] [] [] []]. Qed.

Lemma upper_idem s : upper (upper s) = upper s.
Proof. induction s as [|c r IH]; simpl; [done|]. by rewrite upper_char_idem, IH. Qed.

Lemma is_empty_upper s : is_empty (upper s) = is_empty s.
Proof. by destruct s. Qed.

Lemma is_empty_true s : is_empty s = true ↔ s = EmptyString.
Proof. by destruct s. Qed.

Lemma lstrip_upper s : lstrip (upper s) = upper (lstrip s).
Proof.
  induction s as [|c r IH]; simpl; [done|].
  rewrite is_space_upper_char. by destruct (is_space c).
Qed.

Lemma rstrip_upper s : rstrip (upper s) = upper (rstrip s).
Proof.
  induction s as [|c r IH]; simpl; [done|].
  rewrite IH, is_empty_upper, is_space_upper_char.
  by destruct (is_space c && is_empty (rstrip r)).
Qed.

Lemma strip_upper s : strip (upper s) = upper (strip s).
Proof. unfold strip. by rewrite rstrip_upper, lstrip_upper. Qed.

Lemma lstrip_idem s : lstrip (lstrip s) = lstrip s.
Proof.
  induction s as [|c r IH]; simpl; [done|].
  destruct (is_space c) eqn:E; [done|]. simpl. by rewrite E.
Qed.

Lemma rstrip_idem s : rstrip (rstrip s) = rstrip s.
Proof.
  induction s as [|c r IH]; simpl; [done|].
  destruct (is_space c && is_empty (rstrip r)) eqn:E; simpl; [done|].
  by rewrite IH, E.
Qed.

(** Trimming the left end keeps a trimmed right end. *)
Lemma rstrip_lstrip_fixed s : rstrip s = s → rstrip (lstrip s) = lstrip s.
Proof.
  induction s as [|c r IH]; simpl; [done|].
  destruct (is_space c) eqn:Ec; simpl.
  - destruct (is_empty (rstrip r)); [done|]. intros [= Hr]. by apply IH.
  - rewrite Ec. simpl. done.
Qed.

Lemma strip_idem s : strip (strip s) = strip s.
Proof.
  unfold strip.
  rewrite (rstrip_lstrip_fixed (rstrip s)) by apply rstrip_idem.
  apply lstrip_idem.
Qed.

End Strings.

(** ** Numbers as text *)

Section Digits.

Lemma digit_char_spec d :
  0 ≤ d ≤ 9 → is_digit (digit_char d) = true ∧ digit_val (digit_char d) = d.
Proof.
  intros H.
  assert (d = 0 ∨ d = 1 ∨ d = 2 ∨ d = 3 ∨ d = 4 ∨ d = 5 ∨ d = 6 ∨ d = 7 ∨ d = 8 ∨ d = 9)
    as Hd by lia.
  destruct_or!; subst d; by vm_compute.
Qed.

Lemma mod10_digit n : 0 ≤ n mod 10 ≤ 9.
Proof. pose proof (Z.mod_pos_bound n 10). lia. Qed.

Lemma scan_digits_digit n rest a c :
  scan_digits (String (digit_char (n mod 10)) rest) a c
  = scan_digits rest (10 * a + n mod 10) (S c).
Proof.
  simpl. destruct (digit_char_spec (n mod 10) (mod10_digit n)) as [-> ->]. done.
Qed.

Lemma pow10_S k : pow10 (S k) = 10 * pow10 k.
Proof. unfold pow10. rewrite Nat2Z.inj_succ, Z.pow_succ_r by lia. done. Qed.

Lemma pow10_pos k : 0 < pow10 k.
Proof. unfold pow10. apply Z.pow_pos_nonneg; lia. Qed.

Lemma mod_pow10_S n k :
  n mod pow10 (S k) = 10 * ((n / 10) mod pow10 k) + n mod 10.
Proof.
  rewrite pow10_S. pose proof (pow10_pos k).
  rewrite Z.rem_mul_r by lia. lia.
Qed.

(** Scanning over a fixed-width rendering reads the number back. *)
Lemma scan_fixed_digits k : ∀ n rest a c,
  scan_digits (fixed_digits k n rest) a c
  = scan_digits rest (a * pow10 k + n mod pow10 k) (c + k)%nat.
Proof.
  induction k as [|k IH]; intros n rest a c; simpl.
  - unfold pow10. simpl. rewrite Z.mod_1_r, Nat.add_0_r. f_equal. lia.
  - rewrite IH, scan_digits_digit, mod_pow10_S, pow10_S.
    f_equal; lia.
Qed.

(** Scanning over a printed number reads it back, with at least one digit. *)
Lemma scan_digits_fuel f : ∀ n rest c,
  0 ≤ n < 2 ^ Z.of_nat f →
  ∃ k, scan_digits (digits_fuel f n rest) 0 c = scan_digits rest n (c + k)%nat
       ∧ (f ≠ O → k ≠ O).
Proof.
  induction f as [|f IH]; intros n rest c Hn.
  - exists O. simpl in *. assert (n = 0) as -> by lia. by rewrite Nat.add_0_r.
  - rewrite Nat2Z.inj_succ, Z.pow_succ_r in Hn by lia. simpl.
    destruct (n / 10 =? 0) eqn:E.
    + exists 1%nat. rewrite scan_digits_digit. apply Z.eqb_eq in E.
      split; [|done]. pose proof (Z.div_mod n 10). f_equal; lia.
    + destruct (IH (n / 10) (String (digit_char (n mod 10)) rest) c) as (k & Hk & _).
      { split; [apply Z.div_pos; lia|].
        apply Z.div_lt_upper_bound; lia. }
      exists (S k). rewrite Hk, scan_digits_digit. split; [|done].
      pose proof (Z.div_mod n 10). f_equal; lia.
Qed.

Lemma scan_str_of_nonneg n rest c :
  0 ≤ n →
  ∃ k, scan_digits (str_of_nonneg n rest) 0 c = scan_digits rest n (c + S k)%nat.
Proof.
  intros Hn. unfold str_of_nonneg.
  destruct (scan_digits_fuel (S (Z.to_nat (Z.log2 n))) n rest c) as (k & Hk & Hpos).
  - split; [done|]. rewrite Nat2Z.inj_succ, Z2Nat.id by apply Z.log2_nonneg.
    destruct (decide (n = 0)) as [->|]; [done|].
    apply Z.log2_spec. lia.
  - destruct k as [|k]; [by destruct Hpos|]. by exists k.
Qed.

End Digits.

Section NumericText.

Lemma numeric_char_plain c :
  numeric_char c = true →
  is_space c = false ∧ Ascii.eqb c "$"%char = false ∧ Ascii.eqb c ","%char = false
  ∧ Ascii.eqb c "_"%char = false.
Proof. by destruct c as [[] [] [] [] [] [] [] []]. Qed.

Lemma lstrip_numeric s : all_chars numeric_char s = true → lstrip s = s.
Proof.
  destruct s as [|c r]; simpl; [done|]. intros [Hc _]%andb_prop.
  by destruct (numeric_char_plain c Hc) as (-> & _).
Qed.

Lemma rstrip_numeric s : all_chars numeric_char s = true → rstrip s = s.
Proof.
  induction s as [|c r IH]; simpl; [done|]. intros [Hc Hr]%andb_prop.
  destruct (numeric_char_plain c Hc) as (-> & _). simpl. by rewrite IH.
Qed.

Lemma strip_numeric s : all_chars numeric_char s = true → strip s = s.
Proof. intros H. unfold strip. by rewrite rstrip_numeric, lstrip_numeric. Qed.

Lemma replace_numeric old s :
  all_chars numeric_char s = true →
  old = "$"%char ∨ old = ","%char →
  replace old EmptyString s = s.
Proof.
  intros Hs Hold. induction s as [|c r IH]; simpl; [done|].
  apply andb_prop in Hs as [Hc Hr].
  destruct (numeric_char_plain c Hc) as (_ & H1 & H2 & _).
  destruct Hold as [-> | ->]; rewrite ?H1, ?H2, IH; done.
Qed.

Lemma strip_underscores_numeric s : ∀ prev,
  all_chars numeric_char s = true → strip_underscores prev s = Some s.
Proof.
  induction s as [|c r IH]; intros prev; simpl; [done|]. intros [Hc Hr]%andb_prop.
  destruct (numeric_char_plain c Hc) as (_ & _ & _ & ->). by rewrite IH.
Qed.

Lemma numeric_digit_char d : 0 ≤ d ≤ 9 → numeric_char (digit_char d) = true.
Proof.
  intros H. unfold numeric_char. by destruct (digit_char_spec d H) as [-> _].
Qed.

Lemma numeric_fixed_digits k : ∀ n acc,
  all_chars numeric_char acc = true →
  all_chars numeric_char (fixed_digits k n acc) = true.
Proof.
  induction k as [|k IH]; intros n acc Hacc; simpl; [done|].
  apply IH. simpl. by rewrite numeric_digit_char, Hacc by apply mod10_digit.
Qed.

Lemma numeric_digits_fuel f : ∀ n acc,
  all_chars numeric_char acc = true →
  all_chars numeric_char (digits_fuel f n acc) = true.
Proof.
  induction f as [|f IH]; intros n acc Hacc; simpl; [done|].
  assert (all_chars numeric_char (String (digit_char (n mod 10)) acc) = true) as H.
  { simpl. by rewrite numeric_digit_char, Hacc by apply mod10_digit. }
  destruct (n / 10 =? 0); [done|]. by apply IH.
Qed.

(** A printed natural number starts with a digit. *)
Lemma digits_fuel_head f n acc :
  ∃ d r, 0 ≤ d ≤ 9 ∧ digits_fuel (S f) n acc = String (digit_char d) r.
Proof.
  revert n acc. induction f as [|f IH]; intros n acc.
  - simpl. exists (n mod 10), acc. split; [apply mod10_digit|].
    by destruct (n / 10 =? 0).
  - change (digits_fuel (S (S f)) n acc)
      with (let acc' := String (digit_char (n mod 10)) acc in
            if n / 10 =? 0 then acc' else digits_fuel (S f) (n / 10) acc').
    simpl. destruct (n / 10 =? 0).
    + exists (n mod 10), acc. split; [apply mod10_digit|done].
    + apply IH.
Qed.

Lemma numeric_float_str m p : all_chars numeric_char (float_str (FFin m p)) = true.
Proof.
  unfold float_str.
  assert (all_chars numeric_char
            (str_of_nonneg (Z.abs m / pow10 (S p))
               (String "."%char
                  (fixed_digits (S p) (Z.abs m mod pow10 (S p)) EmptyString))) = true).
  { apply numeric_digits_fuel. change (all_chars numeric_char (String "."%char ?r))
      with (all_chars numeric_char r). by apply numeric_fixed_digits. }
  destruct (m <? 0); [|done]. done.
Qed.

End NumericText.

Section Floats.

Lemma scan_sign_digit d r :
  0 ≤ d ≤ 9 → scan_sign (String (digit_char d) r) = (false, String (digit_char d) r).
Proof.
  intros H.
  assert (d = 0 ∨ d = 1 ∨ d = 2 ∨ d = 3 ∨ d = 4 ∨ d = 5 ∨ d = 6 ∨ d = 7 ∨ d = 8 ∨ d = 9)
    as Hd by lia.
  destruct_or!; by subst d.
Qed.

Lemma not_a_word d r w :
  0 ≤ d ≤ 9 → w = "inf" ∨ w = "infinity" ∨ w = "nan" →
  String.eqb (lower (String (digit_char d) r)) w = false.
Proof.
  intros H Hw.
  assert (d = 0 ∨ d = 1 ∨ d = 2 ∨ d = 3 ∨ d = 4 ∨ d = 5 ∨ d = 6 ∨ d = 7 ∨ d = 8 ∨ d = 9)
    as Hd by lia.
  destruct_or!; by subst d w.
Qed.

(** The unsigned part of a printed finite float parses to its digits. *)
Lemma parse_float_body a p neg :
  0 ≤ a →
  float_of_body neg
    (str_of_nonneg (a / pow10 (S p))
       (String "."%char (fixed_digits (S p) (a mod pow10 (S p)) EmptyString)))
  = Ok (mk_float (if neg then - a else a) p).
Proof.
  intros Ha. pose proof (pow10_pos (S p)) as HP.
  set (body := str_of_nonneg (a / pow10 (S p))
       (String "."%char (fixed_digits (S p) (a mod pow10 (S p)) EmptyString))).
  destruct (digits_fuel_head (Z.to_nat (Z.log2 (a / pow10 (S p)))) (a / pow10 (S p))
              (String "."%char (fixed_digits (S p) (a mod pow10 (S p)) EmptyString)))
    as (d & r & Hd & Hbody).
  fold (str_of_nonneg (a / pow10 (S p))
          (String "."%char (fixed_digits (S p) (a mod pow10 (S p)) EmptyString))) in Hbody.
  fold body in Hbody.
  unfold float_of_body. cbv zeta.
  assert (∀ w, w = "inf" ∨ w = "infinity" ∨ w = "nan" →
               String.eqb (lower body) w = false) as Hw.
  { intros w Hw. rewrite Hbody. by apply not_a_word. }
  rewrite !Hw by tauto. simpl orb. cbv iota.
  destruct (scan_str_of_nonneg (a / pow10 (S p))
              (String "."%char (fixed_digits (S p) (a mod pow10 (S p)) EmptyString)) 0)
    as (k & Hk).
  { apply Z.div_pos; lia. }
  fold body in Hk. rewrite Hk.
  change (scan_digits (String "."%char ?r) ?x ?n) with (x, n, String "."%char r).
  cbv beta iota.
  rewrite scan_fixed_digits. simpl scan_digits. cbv beta iota.
  rewrite Z.mod_mod by lia.
  replace (a / pow10 (S p) * pow10 (S p) + a mod pow10 (S p)) with a
    by (pose proof (Z.div_mod a (pow10 (S p))); lia).
  simpl scan_exponent. cbv iota. unfold float_of_parts.
  match goal with
  | |- context [Nat.eqb ?x ?y] => destruct (Nat.eqb_spec x y) as [|_]; [lia|]
  end.
  match goal with
  | |- context [Z.ltb ?x ?y] => destruct (Z.ltb_spec x y) as [_|]; [|lia]
  end.
  do 2 f_equal. lia.
Qed.

Lemma float_of_str_float_str x :
  float_in_range x = true → float_of_str (float_str x) = Ok x.
Proof.
  destruct x as [|[]|m p]; [done..|]. intros Hr.
  unfold float_of_str.
  rewrite strip_numeric, strip_underscores_numeric by apply numeric_float_str.
  unfold float_str.
  assert (mk_float m p = FFin m p) as Hmk.
  { unfold mk_float. simpl in Hr. by destruct (overflows m p). }
  destruct (m <? 0) eqn:Hm.
  - change (scan_sign (String "-"%char ?b)) with (true, b). cbv beta iota.
    rewrite (parse_float_body (Z.abs m) p true) by lia.
    apply Z.ltb_lt in Hm. replace (- Z.abs m) with m by lia. by rewrite Hmk.
  - apply Z.ltb_ge in Hm.
    destruct (digits_fuel_head (Z.to_nat (Z.log2 (Z.abs m / pow10 (S p))))
                (Z.abs m / pow10 (S p))
                (String "."%char (fixed_digits (S p) (Z.abs m mod pow10 (S p)) EmptyString)))
      as (d & r & Hd & Hbody).
    unfold str_of_nonneg at 1. rewrite Hbody, scan_sign_digit by done. rewrite <- Hbody.
    cbv beta iota.
    fold (str_of_nonneg (Z.abs m / pow10 (S p))
          (String "."%char (fixed_digits (S p) (Z.abs m mod pow10 (S p)) EmptyString))).
    rewrite (parse_float_body (Z.abs m) p false) by lia.
    replace (Z.abs m) with m by lia. by rewrite Hmk.
Qed.

End Floats.

(** ** Dates as text *)

Section Dates.

Lemma digit_not_dash c : is_digit c = true → Ascii.eqb c "-"%char = false.
Proof. by destruct c as [[] [] [] [] [] [] [] []]. Qed.

Lemma in_seqZ (x m len : Z) : m ≤ x < m + len → In x (seqZ m len).
Proof. intros H. apply list_elem_of_In, elem_of_seqZ. lia. Qed.

(** Four digits spell a year between 1 and 9999. *)
Lemma year_text y :
  1 ≤ y ≤ 9999 →
  ∃ a b c d,
    format_0d 4 y = String a (String b (String c (String d EmptyString)))
    ∧ is_digit a = true ∧ is_digit b = true ∧ is_digit c = true ∧ is_digit d = true
    ∧ 1000 * digit_val a + 100 * digit_val b + 10 * digit_val c + digit_val d = y.
Proof.
  intros Hy. unfold format_0d.
  destruct (Z.ltb_spec y 0); [lia|]. cbn [String.length Nat.sub String.append].
  rewrite Z.abs_eq by lia.
  change (10 ^ Z.of_nat 4) with 10000.
  destruct (Z.ltb_spec y 10000); [|lia]. cbn [fixed_digits].
  eexists _, _, _, _. split; [reflexivity|].
  pose proof (digit_char_spec _ (mod10_digit y)) as [-> ->].
  pose proof (digit_char_spec _ (mod10_digit (y / 10))) as [-> ->].
  pose proof (digit_char_spec _ (mod10_digit (y / 10 / 10))) as [-> ->].
  pose proof (digit_char_spec _ (mod10_digit (y / 10 / 10 / 10))) as [-> ->].
  repeat (split; [done|]). Z.div_mod_to_equations. lia.
Qed.

Lemma month_day_text_check :
  forallb (λ m,
    forallb (λ d,
      bool_decide (match_month (format_0d 2 m +:+ "-" +:+ format_0d 2 d)
                   = Some (m, format_0d 2 d))
      && bool_decide (match_day (format_0d 2 d) = Some (d, EmptyString))
      && bool_decide (split "-"%char (format_0d 2 m +:+ "-" +:+ format_0d 2 d)
                      = [format_0d 2 m; format_0d 2 d])
      && bool_decide (int_of_str (format_0d 2 d) = Ok d))
      (seqZ 1 31))
    (seqZ 1 12) = true.
Proof. by vm_compute. Qed.

Lemma month_day_text m d :
  1 ≤ m ≤ 12 → 1 ≤ d ≤ 31 →
  match_month (format_0d 2 m +:+ "-" +:+ format_0d 2 d) = Some (m, format_0d 2 d)
  ∧ match_day (format_0d 2 d) = Some (d, EmptyString)
  ∧ split "-"%char (format_0d 2 m +:+ "-" +:+ format_0d 2 d)
    = [format_0d 2 m; format_0d 2 d]
  ∧ int_of_str (format_0d 2 d) = Ok d.
Proof.
  intros Hm Hd. pose proof month_day_text_check as H.
  rewrite forallb_forall in H. specialize (H m (in_seqZ m 1 12 ltac:(lia))).
  rewrite forallb_forall in H. specialize (H d (in_seqZ d 1 31 ltac:(lia))).
  repeat (apply andb_prop in H as [H ?]).
  repeat match goal with X : bool_decide _ = true |- _ => apply bool_decide_eq_true in X end.
  done.
Qed.

Lemma days_in_le_31 y m : days_in y m ≤ 31.
Proof. unfold days_in. repeat case_match; lia. Qed.

Lemma iso_date_text y m d :
  1 ≤ y ≤ 9999 →
  ∃ a b c e,
    iso_date y m d
    = String a (String b (String c (String e
        (String "-"%char (format_0d 2 m +:+ "-" +:+ format_0d 2 d)))))
    ∧ is_digit a = true ∧ is_digit b = true ∧ is_digit c = true ∧ is_digit e = true
    ∧ 1000 * digit_val a + 100 * digit_val b + 10 * digit_val c + digit_val e = y.
Proof.
  intros Hy. destruct (year_text y Hy) as (a & b & c & e & Hf & H).
  exists a, b, c, e. split; [|done]. unfold iso_date. by rewrite Hf.
Qed.

(** [strptime] reads a canonical date back. *)
Lemma strptime_iso_date y m d :
  1 ≤ y ≤ 9999 → 1 ≤ m ≤ 12 → 1 ≤ d ≤ days_in y m →
  strptime (iso_date y m d) = Ok (y, m, d).
Proof.
  intros Hy Hm Hd. pose proof (days_in_le_31 y m).
  destruct (iso_date_text y m d Hy) as (a & b & c & e & -> & Ha & Hb & Hc & He & Hv).
  destruct (month_day_text m d Hm ltac:(lia)) as (Hmm & Hdd & _).
  unfold strptime. rewrite Ha, Hb, Hc, He, Hv, Hmm, Hdd. simpl.
  destruct (Z.leb_spec 1 y); [|lia]. destruct (Z.leb_spec d (days_in y m)); [done|lia].
Qed.

Lemma extract_day_iso_date y m d :
  1 ≤ y ≤ 9999 → 1 ≤ m ≤ 12 → 1 ≤ d ≤ 31 →
  ExcelLoader.extract_day (iso_date y m d) = d.
Proof.
  intros Hy Hm Hd.
  destruct (iso_date_text y m d Hy) as (a & b & c & e & -> & Ha & Hb & Hc & He & Hv).
  destruct (month_day_text m d Hm Hd) as (_ & _ & Hsplit & Hint).
  unfold ExcelLoader.extract_day. cbn [split].
  rewrite !digit_not_dash by done. change (Ascii.eqb "-" "-") with true. cbv iota.
  rewrite Hsplit. unfold last_part. cbn [List.last]. by rewrite Hint.
Qed.

(** The day number written to the DATE cell reads back through [to_int]. *)
Lemma day_cell_text_check :
  forallb (λ d,
    let s := strip (str (CInt d)) in
    negb (is_empty s) && bool_decide (ExcelLoader.to_int (Some (CStr s)) = Ok d))
    (seqZ 1 31) = true.
Proof. by vm_compute. Qed.

Lemma day_cell_text d :
  1 ≤ d ≤ 31 →
  is_empty (strip (str (CInt d))) = false
  ∧ ExcelLoader.to_int (Some (CStr (strip (str (CInt d))))) = Ok d.
Proof.
  intros Hd. pose proof day_cell_text_check as H.
  rewrite forallb_forall in H. specialize (H d (in_seqZ d 1 31 ltac:(lia))).
  apply andb_prop in H as [H1 H2]. apply bool_decide_eq_true in H2.
  apply negb_true_iff in H1. done.
Qed.

(** The twelve month keys. *)
Lemma month_key_cases key :
  str_in key _MONTH_KEYS = true →
  In key ["JANUARY"; "FEBRUARY"; "MARCH"; "APRIL"; "MAY"; "JUNE"; "JULY"; "AUGUST";
          "SEPTEMBER"; "OCTOBER"; "NOVEMBER"; "DECEMBER"].
Proof.
  unfold str_in. rewrite existsb_exists. intros (k & Hk & ->%String.eqb_eq). exact Hk.
Qed.

End Dates.

(** ** Grid addressing *)

Section Addressing.
Import ExcelLoader.

Lemma row_for_day_ok anchor day slot_index :
  1 ≤ day → slot_index = 0 ∨ slot_index = 1 →
  row_for_day anchor day slot_index = Ok (anchor + 2 + (day - 1) * 2 + slot_index).
Proof.
  intros Hd Hs. unfold row_for_day.
  destruct (Z.ltb_spec day 1); [lia|].
  by destruct Hs as [-> | ->].
Qed.

Lemma row_for_day_inv anchor day slot_index row :
  row_for_day anchor day slot_index = Ok row →
  1 ≤ day ∧ (slot_index = 0 ∨ slot_index = 1)
  ∧ row = anchor + 2 + (day - 1) * 2 + slot_index.
Proof.
  unfold row_for_day. destruct (Z.ltb_spec day 1); [done|].
  destruct (Z.eqb_spec slot_index 0), (Z.eqb_spec slot_index 1); simpl; try done;
    intros [= <-]; lia.
Qed.

Lemma validate_slot_index_inv slot_index :
  validate_slot_index slot_index = Ok tt → slot_index = 0 ∨ slot_index = 1.
Proof.
  unfold validate_slot_index.
  destruct (Z.eqb_spec slot_index 0), (Z.eqb_spec slot_index 1); simpl; auto; done.
Qed.

Lemma validate_month_name_inv month_name month_key :
  validate_month_name month_name = Ok month_key →
  month_key = upper (strip month_name) ∧ str_in month_key _MONTH_KEYS = true.
Proof.
  unfold validate_month_name.
  destruct (is_empty month_name || is_empty (strip month_name)); [done|].
  destruct (str_in (upper (strip month_name)) _MONTH_KEYS) eqn:E; simpl; [|done].
  by intros [= <-].
Qed.

(** What the month tables hold for each of the twelve keys. *)
Lemma month_tables month_key :
  str_in month_key _MONTH_KEYS = true →
  ∃ anchor num,
    get_anchor_row month_key = Ok anchor ∧ 8 ≤ anchor
    ∧ month_to_number month_key = Ok num ∧ 1 ≤ num ≤ 12
    ∧ GeneralHelper.dict_get _MONTH_TO_NUM (upper (strip month_key)) = Some num
    ∧ validate_month_name month_key = Ok month_key
    ∧ ∀ year, GeneralHelper.get_days_in_month month_key year = Ok (days_in year num).
Proof.
  intros H%month_key_cases. simpl in H.
  destruct_or!; try done; subst month_key; eexists _, _;
    (split; [reflexivity|]); (split; [lia|]); (split; [reflexivity|]);
    (split; [lia|]); (split; [reflexivity|]); (split; [reflexivity|]);
    intros year; unfold GeneralHelper.get_days_in_month, days_in; simpl;
    by destruct (GeneralHelper.is_leap_year year).
Qed.

Lemma validate_day_in_month_inv month_key year day num :
  GeneralHelper.get_days_in_month month_key year = Ok (days_in year num) →
  validate_day_in_month month_key year day = Ok tt →
  1 ≤ day ≤ days_in year num.
Proof.
  unfold validate_day_in_month. intros ->. simpl.
  destruct (Z.ltb_spec day 1), (Z.ltb_spec (days_in year num) day); simpl; try done; lia.
Qed.

End Addressing.

(** ** Rows and cells *)

Section Rows.
Import ExcelLoader.

Lemma safe_cell_str_open self ws row c :
  _ws self = Some ws →
  safe_cell_str self row c
  = Ok (match ws !! (row, c) with None => EmptyString | Some v => str v end).
Proof.
  intros H. unfold safe_cell_str, sheet, cell_value. rewrite H. simpl.
  by destruct (ws !! (row, c)).
Qed.

Lemma safe_cell_str_inv self row c s :
  safe_cell_str self row c = Ok s → is_Some (_ws self).
Proof. unfold safe_cell_str, sheet. destruct (_ws self); simpl; [by eexists|done]. Qed.

(** A row is read from its own cells only. *)
Lemma read_row_frame self self' ws ws' month_key year day row :
  _ws self = Some ws → _ws self' = Some ws' →
  (∀ c, ws' !! (row, c) = ws !! (row, c)) →
  read_row_as_transaction self' month_key year day row
  = read_row_as_transaction self month_key year day row.
Proof.
  intros H H' Hc. unfold read_row_as_transaction.
  rewrite !(safe_cell_str_open self ws), !(safe_cell_str_open self' ws') by done.
  unfold sheet, cell_value. rewrite H, H', !Hc. cbn [mbind result_bind fmap result_fmap].
  rewrite !Hc. done.
Qed.

Lemma float_of_body_raises neg body e :
  float_of_body neg body = Raise e → e = ValueError.
Proof. unfold float_of_body. repeat case_match; congruence. Qed.

Lemma float_of_str_raises s e : float_of_str s = Raise e → e = ValueError.
Proof.
  unfold float_of_str. repeat case_match; try congruence.
  apply float_of_body_raises.
Qed.

(** [to_float] never raises: what does not parse is [0.0]. *)
Lemma to_float_total raw :
  to_float raw
  = Ok match raw with
       | None => float_zero
       | Some v =>
           let s := strip (str v) in
           if is_empty s then float_zero
           else match float_of_str
                        (replace ","%char EmptyString (replace "$"%char EmptyString s)) with
                | Ok x => x
                | Raise _ => float_zero
                end
       end.
Proof.
  destruct raw as [v|]; [|done]. unfold to_float. cbv zeta.
  destruct (is_empty (strip (str v))); [done|].
  destruct (float_of_str _) as [x|e] eqn:E; [done|].
  by rewrite (float_of_str_raises _ _ E).
Qed.

(** A float cell reads back through [to_float]. *)
Lemma to_float_float x :
  float_in_range x = true → to_float (Some (CFloat x)) = Ok x.
Proof.
  intros Hx. rewrite to_float_total. cbv zeta. f_equal.
  destruct x as [|[]|m p]; [done..|].
  change (str (CFloat (FFin m p))) with (float_str (FFin m p)).
  rewrite strip_numeric by apply numeric_float_str.
  rewrite (replace_numeric "$"), (replace_numeric ",")
    by (try apply numeric_float_str; auto).
  rewrite float_of_str_float_str by done.
  pose proof (numeric_float_str m p) as H.
  destruct (float_str (FFin m p)) eqn:E; [|done].
  unfold float_str in E. unfold str_of_nonneg in E.
  destruct (digits_fuel_head (Z.to_nat (Z.log2 (Z.abs m / pow10 (S p))))
              (Z.abs m / pow10 (S p))
              (String "."%char (fixed_digits (S p) (Z.abs m mod pow10 (S p)) EmptyString)))
    as (d & r & _ & Hd).
  rewrite Hd in E. by destruct (m <? 0).
Qed.

End Rows.

(** ** Writing a slot *)

Section Writing.
Import ExcelLoader.

Lemma ensure_open_inv self :
  ensure_open self = Ok tt → ∃ wb ws, _wb self = Some wb ∧ _ws self = Some ws.
Proof. unfold ensure_open. destruct (_wb self), (_ws self); try done. eauto. Qed.

Lemma get_year_inv self year :
  get_year self = Ok year →
  ensure_open self = Ok tt
  ∧ ∃ ws x, _ws self = Some ws ∧ float_of (ws !! YEAR_CELL) = Ok x
            ∧ int_of_float x = Ok year.
Proof.
  unfold get_year. destruct (ensure_open self) as [[]|] eqn:E; [|done]. simpl.
  unfold sheet. destruct (_ws self) as [ws|]; [|done]. simpl.
  destruct (float_of (ws !! YEAR_CELL)) as [x|] eqn:Ex; [|done]. simpl.
  intros Hx. split; [done|]. eauto.
Qed.

Lemma take_all s : ∀ n, Z.of_nat (String.length s) ≤ n → take n s = s.
Proof.
  induction s as [|c r IH]; intros n Hn; [done|]. cbn [take String.length] in *.
  destruct (Z.leb_spec n 0); [lia|]. rewrite IH by lia. done.
Qed.

Lemma cell_text_inv s :
  cell_text s = true → take MAX_CELL_TEXT s = s ∧ accepted s = true.
Proof.
  unfold cell_text, accepted. intros [Hlen Hc]%andb_prop. apply Z.leb_le in Hlen.
  by rewrite take_all.
Qed.

Lemma check_string_accepted s :
  check_string s
  = if accepted s then Ok (take MAX_CELL_TEXT s) else Raise IllegalCharacterError.
Proof. unfold check_string, accepted. by destruct (some_char _ _). Qed.

Lemma record_text_inv tx :
  record_text tx = true →
  cells_accepted tx = 6%nat
  ∧ take MAX_CELL_TEXT (Transaction.day tx) = Transaction.day tx
  ∧ take MAX_CELL_TEXT (Transaction.category tx) = Transaction.category tx
  ∧ take MAX_CELL_TEXT (upper (Transaction.type tx)) = upper (Transaction.type tx)
  ∧ take MAX_CELL_TEXT (Transaction.description tx) = Transaction.description tx.
Proof.
  unfold record_text. intros [[[H1 H2]%andb_prop H3]%andb_prop H4]%andb_prop.
  apply cell_text_inv in H1 as [? A1], H2 as [? A2], H3 as [? A3], H4 as [? A4].
  unfold cells_accepted. by rewrite A1, A2, A3, A4.
Qed.

Lemma write_cell_open self ws row c v :
  _ws self = Some ws →
  write_cell row c v self
  = match bind_value v with
    | Ok v' => (after_write self (put_cell ws row c v'), Ok tt)
    | Raise e => (self, Raise e)
    end.
Proof.
  intros H. unfold write_cell, set_cell_value. rewrite H. by destruct (bind_value v).
Qed.

Lemma after_write_twice self ws1 ws2 :
  after_write (after_write self ws1) ws2 = after_write self ws2.
Proof. unfold after_write. simpl. by destruct (_wb self). Qed.

(** The six assignments of a record: each text is bound in turn, and the
    first one refused ends the call with the cells before it written. *)
Lemma write_record_cells self ws row tx :
  _ws self = Some ws →
  (write_cell row (col "DATE") (Some (CInt (extract_day (Transaction.date tx)))) ;;;
   write_cell row (col "DAY") (Some (CStr (Transaction.day tx))) ;;;
   write_cell row (col "CATEGORY") (Some (CStr (Transaction.category tx))) ;;;
   write_cell row (col "AMOUNT") (Some (CFloat (Transaction.amount tx))) ;;;
   write_cell row (col "TYPE") (Some (CStr (upper (Transaction.type tx)))) ;;;
   write_cell row (col "DESCRIPTION") (Some (CStr (Transaction.description tx)))) self
  = (after_write self (written_cells (cells_accepted tx) ws row tx),
     write_outcome (Some tx)).
Proof.
  intros Hws. unfold bind, write_outcome, cells_accepted.
  rewrite (write_cell_open self ws) by done. cbn [bind_value].
  erewrite write_cell_open by reflexivity. cbn [bind_value].
  rewrite check_string_accepted.
  destruct (accepted (Transaction.day tx)); cbn [negb mbind result_bind]; [|done].
  rewrite after_write_twice.
  erewrite write_cell_open by reflexivity. cbn [bind_value].
  rewrite check_string_accepted.
  destruct (accepted (Transaction.category tx)); cbn [negb mbind result_bind]; [|done].
  rewrite after_write_twice.
  erewrite write_cell_open by reflexivity. cbn [bind_value]. rewrite after_write_twice.
  erewrite write_cell_open by reflexivity. cbn [bind_value].
  rewrite check_string_accepted.
  destruct (accepted (upper (Transaction.type tx))); cbn [negb mbind result_bind]; [|done].
  rewrite after_write_twice.
  erewrite write_cell_open by reflexivity. cbn [bind_value].
  rewrite check_string_accepted.
  destruct (accepted (Transaction.description tx)); cbn [negb mbind result_bind]; [|done].
  by rewrite after_write_twice.
Qed.

Lemma write_day_entry_None self ws month_name month_key year day slot_index anchor row :
  _ws self = Some ws →
  validate_month_name month_name = Ok month_key →
  get_year self = Ok year →
  validate_day_in_month month_key year day = Ok tt →
  validate_slot_index slot_index = Ok tt →
  get_anchor_row month_key = Ok anchor →
  row_for_day anchor day slot_index = Ok row →
  write_day_entry month_name day slot_index None self
  = (after_write self (cleared ws row), Ok tt).
Proof.
  intros Hws Hm Hy Hd Hs Ha Hr.
  destruct (get_year_inv _ _ Hy) as (Ho & _).
  unfold write_day_entry, bind, reads, lift, ret.
  rewrite Ho, Hm, Hy, Hd, Hs. simpl. rewrite Ha, Hr.
  unfold clear_row, COL. simpl clear_cols. unfold bind, ret.
  rewrite (write_cell_open self ws) by done. cbn [bind_value].
  repeat (erewrite write_cell_open by reflexivity; cbn [bind_value];
          rewrite ?after_write_twice).
  change (check_string "NONE") with (Ok "NONE" : result string).
  cbn [mbind result_bind]. by rewrite after_write_twice.
Qed.

Lemma write_day_entry_Some self ws month_name month_key year day slot_index anchor row tx :
  _ws self = Some ws →
  validate_month_name month_name = Ok month_key →
  get_year self = Ok year →
  validate_day_in_month month_key year day = Ok tt →
  validate_slot_index slot_index = Ok tt →
  validate_transaction_or_none (Some tx) = Ok tt →
  validate_date_matches_month month_key (Transaction.date tx) year = Ok tt →
  get_anchor_row month_key = Ok anchor →
  row_for_day anchor day slot_index = Ok row →
  write_day_entry month_name day slot_index (Some tx) self
  = (after_write self (slot_written ws row (Some tx)), write_outcome (Some tx)).
Proof.
  intros Hws Hm Hy Hd Hs Ht Hdm Ha Hr.
  destruct (get_year_inv _ _ Hy) as (Ho & _).
  pose proof (write_record_cells self ws row tx Hws) as Hcells.
  unfold write_day_entry, bind, reads, lift, ret.
  unfold bind in Hcells.
  rewrite Ho, Hm, Hy, Hd, Hs, Ht. cbv beta iota. rewrite Hdm. cbv beta iota.
  rewrite Ha, Hr. cbv beta iota. exact Hcells.
Qed.

End Writing.

(** ** Reading a month *)

Section Reading.
Import ExcelLoader.

(** The row of slot [s] of day [d] under [anchor]. *)
Lemma read_days_slots self month_key year anchor ds : ∀ result,
  read_days self month_key year anchor ds = Ok result →
  ∀ d, In d ds →
    ∃ slot0 slot1,
      day_slots result d = Some [slot0; slot1]
      ∧ read_row_as_transaction self month_key year d (anchor + 2 + (d - 1) * 2 + 0)
        = Ok slot0
      ∧ read_row_as_transaction self month_key year d (anchor + 2 + (d - 1) * 2 + 1)
        = Ok slot1.
Proof.
  induction ds as [|d0 rest IH]; intros result Hr d Hin; [done|].
  cbn [read_days] in Hr.
  destruct (row_for_day anchor d0 0) as [row_top|] eqn:Erow;
    cbn [mbind result_bind] in Hr; [|done].
  apply row_for_day_inv in Erow as (Hd0 & _ & ->).
  destruct (read_row_as_transaction self month_key year d0 (anchor + 2 + (d0 - 1) * 2 + 0))
    as [slot0|] eqn:E0; cbn [mbind result_bind] in Hr; [|done].
  destruct (read_row_as_transaction self month_key year d0 (_ + 1)) as [slot1|] eqn:E1;
    cbn [mbind result_bind] in Hr; [|done].
  destruct (read_days self month_key year anchor rest) as [r'|] eqn:Er;
    cbn [mbind result_bind] in Hr; [|done].
  injection Hr as <-.
  unfold day_slots. cbn [List.find fst]. destruct (Z.eqb_spec d0 d) as [->|Hne].
  - exists slot0, slot1. split; [done|]. split; [done|].
    by replace (anchor + 2 + (d - 1) * 2 + 1) with (anchor + 2 + (d - 1) * 2 + 0 + 1) by lia.
  - destruct Hin as [|Hin]; [done|]. apply (IH r' eq_refl d Hin).
Qed.

Lemma read_days_ok self month_key year anchor ds :
  (∀ d, In d ds →
     1 ≤ d
     ∧ is_ok (read_row_as_transaction self month_key year d (anchor + 2 + (d - 1) * 2 + 0))
       = true
     ∧ is_ok (read_row_as_transaction self month_key year d (anchor + 2 + (d - 1) * 2 + 1))
       = true) →
  ∃ result, read_days self month_key year anchor ds = Ok result.
Proof.
  induction ds as [|d0 rest IH]; intros H; [by eexists|].
  destruct (H d0 (or_introl eq_refl)) as (Hd & H0 & H1).
  destruct IH as [r' Hr']. { intros d Hd'. apply H. by right. }
  cbn [read_days]. rewrite row_for_day_ok by auto. cbn [mbind result_bind].
  replace (anchor + 2 + (d0 - 1) * 2 + 0 + 1) with (anchor + 2 + (d0 - 1) * 2 + 1) by lia.
  destruct (read_row_as_transaction self month_key year d0 (_ + 0)) as [slot0|]; [|done].
  destruct (read_row_as_transaction self month_key year d0 (_ + 1)) as [slot1|]; [|done].
  cbn [mbind result_bind]. rewrite Hr'. by eexists.
Qed.

(** A row that parses to a record has kind INCOME or EXPENSE. *)
Lemma read_row_kind self month_key year day row tx :
  read_row_as_transaction self month_key year day row = Ok (Some tx) →
  Transaction.type tx = "INCOME" ∨ Transaction.type tx = "EXPENSE".
Proof.
  unfold read_row_as_transaction.
  destruct (safe_cell_str self row (col "TYPE")) as [ty|]; [|done].
  destruct (safe_cell_str self row (col "DATE")) as [dt|]; [|done].
  destruct (safe_cell_str self row (col "DAY")) as [dn|]; [|done].
  destruct (safe_cell_str self row (col "CATEGORY")) as [ca|]; [|done].
  destruct (sheet self) as [ws|]; [|done].
  destruct (safe_cell_str self row (col "DESCRIPTION")) as [de|]; [|done].
  cbn [mbind result_bind fmap result_fmap].
  set (t := upper (strip ty)).
  destruct (String.eqb_spec t "NONE") as [|Hnone]; [done|]. simpl orb.
  destruct (is_empty t && _); [done|].
  unfold VALID_TYPES, str_in. simpl existsb.
  destruct (String.eqb_spec t "EXPENSE") as [He|_];
    [|destruct (String.eqb_spec t "INCOME") as [He|_];
      [|destruct (String.eqb_spec t "NONE"); done]].
  all: simpl negb; cbv iota.
  all: destruct (if negb (is_empty (strip dt)) then _ else _) as [n|]; [|done].
  all: cbn [mbind result_bind].
  all: destruct (date_to_string year month_key n) as [ds|]; [|done].
  all: cbn [mbind result_bind].
  all: destruct (to_float _) as [x|]; [|done].
  all: cbn [mbind result_bind]; intros [= <-]; rewrite He; auto.
Qed.

End Reading.

(** ** A written slot, read back *)

Section WriteThenRead.
Import ExcelLoader.

Lemma ensure_open_after_write self ws' :
  ensure_open self = Ok tt → ensure_open (after_write self ws') = Ok tt.
Proof.
  intros (wb & ws & H1 & H2)%ensure_open_inv. unfold ensure_open, after_write.
  simpl. by rewrite H1.
Qed.

Lemma get_year_after_write self ws ws' year :
  _ws self = Some ws → ws' !! YEAR_CELL = ws !! YEAR_CELL →
  get_year self = Ok year → get_year (after_write self ws') = Ok year.
Proof.
  intros Hws Hc Hy. destruct (get_year_inv _ _ Hy) as (Ho & ws0 & x & Hws0 & Hx & Hi).
  rewrite Hws in Hws0. injection Hws0 as <-.
  unfold get_year. rewrite (ensure_open_after_write _ _ Ho). simpl.
  by rewrite Hc, Hx.
Qed.

(** Reading the month after one row of an open sheet changed: the slot of
    that row holds what the row parses to, the other slots are read as
    before. *)
Lemma read_month_after_write self ws ws' month_name month_key year day slot_index
    anchor num row v :
  _ws self = Some ws →
  validate_month_name month_name = Ok month_key →
  get_anchor_row month_key = Ok anchor → 8 ≤ anchor →
  (∀ y, GeneralHelper.get_days_in_month month_key y = Ok (days_in y num)) →
  get_year self = Ok year →
  1 ≤ day ≤ days_in year num →
  slot_index = 0 ∨ slot_index = 1 →
  row = anchor + 2 + (day - 1) * 2 + slot_index →
  (∀ r c, r ≠ row → ws' !! (r, c) = ws !! (r, c)) →
  read_row_as_transaction (after_write self ws') month_key year day row = Ok v →
  (∀ result, read_month (after_write self ws') month_name = Ok result →
     ∃ slots, day_slots result day = Some slots
              ∧ slots !! Z.to_nat slot_index = Some v)
  ∧ (rest_of_month_readable self month_key year day slot_index = true →
     ∃ result, read_month (after_write self ws') month_name = Ok result).
Proof.
  intros Hws Hm Ha Ha8 Hdays Hy Hday Hs -> Hframe Hrow.
  destruct (get_year_inv _ _ Hy) as (Ho & _).
  assert (get_year (after_write self ws') = Ok year) as Hy'.
  { apply (get_year_after_write self ws); [done| |done]. apply Hframe. lia. }
  assert (read_month (after_write self ws') month_name
          = read_days (after_write self ws') month_key year anchor
              (seqZ 1 (days_in year num))) as Hread.
  { unfold read_month. rewrite (ensure_open_after_write _ _ Ho), Hm.
    cbn [mbind result_bind]. rewrite Ha. cbn [mbind result_bind].
    rewrite Hy'. cbn [mbind result_bind]. by rewrite Hdays. }
  rewrite Hread. split.
  - intros result Hr.
    destruct (read_days_slots _ _ _ _ _ _ Hr day) as (s0 & s1 & Hslots & H0 & H1).
    { apply in_seqZ. lia. }
    exists [s0; s1]. split; [done|].
    destruct Hs as [-> | ->]; simpl; congruence.
  - intros Hrest. apply read_days_ok. intros d Hd.
    apply list_elem_of_In, elem_of_seqZ in Hd.
    split; [lia|].
    unfold rest_of_month_readable in Hrest. rewrite Ha, Hdays in Hrest.
    rewrite forallb_forall in Hrest.
    specialize (Hrest d (in_seqZ d 1 (days_in year num) ltac:(lia))).
    cbn [forallb] in Hrest.
    rewrite !row_for_day_ok in Hrest by (auto; lia).
    cbn [mbind result_bind] in Hrest.
    apply andb_prop in Hrest as [H0 H1%andb_prop]. destruct H1 as [H1 _].
    assert (∀ s, s = 0 ∨ s = 1 →
      (d =? day) && (s =? slot_index)
      || is_ok (read_row_as_transaction self month_key year d
                  (anchor + 2 + (d - 1) * 2 + s)) = true →
      is_ok (read_row_as_transaction (after_write self ws') month_key year d
               (anchor + 2 + (d - 1) * 2 + s)) = true) as Hslot.
    { intros s Hs' H. destruct (Z.eqb_spec d day) as [Heq|Hne].
      - subst d. destruct (Z.eqb_spec s slot_index) as [Heq|Hne']; [subst s|].
        + by rewrite Hrow.
        + simpl in H.
          rewrite (read_row_frame self (after_write self ws') ws ws' _ _ _ _ Hws eq_refl);
            [done|]. intros c. apply Hframe. lia.
      - simpl in H.
        rewrite (read_row_frame self (after_write self ws') ws ws' _ _ _ _ Hws eq_refl);
          [done|]. intros c. apply Hframe. lia. }
    split; apply Hslot; auto.
Qed.

End WriteThenRead.

(** ** The record a written row parses to *)

Section RoundTrip.
Import ExcelLoader.

Lemma iso_date_numeric_check :
  forallb (λ m,
    forallb (λ d,
      all_chars numeric_char (format_0d 2 m +:+ "-" +:+ format_0d 2 d))
      (seqZ 1 31))
    (seqZ 1 12) = true.
Proof. by vm_compute. Qed.

Lemma digit_numeric c : is_digit c = true → numeric_char c = true.
Proof. unfold numeric_char. by intros ->. Qed.

Lemma iso_date_numeric y m d :
  1 ≤ y ≤ 9999 → 1 ≤ m ≤ 12 → 1 ≤ d ≤ 31 →
  all_chars numeric_char (iso_date y m d) = true.
Proof.
  intros Hy Hm Hd.
  destruct (iso_date_text y m d Hy) as (a & b & c & e & -> & Ha & Hb & Hc & He & _).
  pose proof iso_date_numeric_check as H.
  rewrite forallb_forall in H. specialize (H m (in_seqZ m 1 12 ltac:(lia))).
  rewrite forallb_forall in H. specialize (H d (in_seqZ d 1 31 ltac:(lia))).
  cbn [all_chars]. rewrite !digit_numeric by done. by rewrite H.
Qed.

Lemma iso_date_nonempty y m d : 1 ≤ y ≤ 9999 → is_empty (iso_date y m d) = false.
Proof.
  intros Hy. by destruct (iso_date_text y m d Hy) as (a & b & c & e & -> & _).
Qed.

Lemma float_leb_not_ltb x : float_leb float_zero x = true → float_ltb x float_zero = false.
Proof.
  destruct x as [|[]|m p]; try done. unfold float_leb, float_ltb, float_zero.
  intros H%Z.leb_le. apply Z.ltb_ge. lia.
Qed.

(** Text as [Transaction.make] leaves it. *)
Lemma strip_strip_upper s : strip (upper (strip s)) = upper (strip s).
Proof. by rewrite strip_upper, strip_idem. Qed.

Lemma written_row_lookup ws row tx c :
  written ws row tx !! (row, c)
  = if c =? 11 then Some (CStr (take MAX_CELL_TEXT (Transaction.description tx)))
    else if c =? 10 then Some (CStr (take MAX_CELL_TEXT (upper (Transaction.type tx))))
    else if c =? 9 then Some (CFloat (Transaction.amount tx))
    else if c =? 4 then Some (CStr (take MAX_CELL_TEXT (Transaction.category tx)))
    else if c =? 3 then Some (CStr (take MAX_CELL_TEXT (Transaction.day tx)))
    else if c =? 1 then Some (CInt (extract_day (Transaction.date tx)))
    else ws !! (row, c).
Proof.
  unfold written, written_cells. cbn [firstn foldl fst snd]. rewrite !lookup_insert.
  repeat match goal with
         | |- context [decide ((row, ?k) = (row, c))] =>
             destruct (decide ((row, k) = (row, c))) as [Heq|?];
             [injection Heq as <-; reflexivity|]
         end.
  repeat match goal with
         | |- context [Z.eqb c ?k] =>
             destruct (Z.eqb_spec c k) as [Heq|_]; [subst c; congruence|]
         end.
  done.
Qed.

Lemma written_other_rows k ws row tx r c :
  r ≠ row → written_cells k ws row tx !! (r, c) = ws !! (r, c).
Proof.
  intros H. unfold written_cells.
  destruct k as [|[|[|[|[|[|k]]]]]]; cbn [firstn foldl fst snd];
    rewrite ?firstn_nil; cbn [foldl fst snd];
    by rewrite ?lookup_insert_ne by congruence.
Qed.

Lemma cleared_row_lookup ws row c :
  In c (COL.*2) →
  cleared ws row !! (row, c) = if c =? col "TYPE" then Some (CStr "NONE") else None.
Proof.
  intros H. simpl in H. unfold cleared. rewrite lookup_insert, !lookup_delete.
  destruct_or!; try done; subst c; by repeat case_decide.
Qed.

Lemma cleared_other_rows ws row r c :
  r ≠ row → cleared ws row !! (r, c) = ws !! (r, c).
Proof.
  intros H. unfold cleared.
  by rewrite lookup_insert_ne, !lookup_delete_ne by congruence.
Qed.

(** A cleared row parses to no record. *)
Lemma read_row_cleared self ws month_key year day row :
  read_row_as_transaction (after_write self (cleared ws row)) month_key year day row
  = Ok None.
Proof.
  unfold read_row_as_transaction.
  rewrite !(safe_cell_str_open _ (cleared ws row)) by done.
  rewrite !cleared_row_lookup by (simpl; tauto). done.
Qed.

(** A written row parses to the record written. *)
Lemma read_row_written self ws month_key year num day row dd tx :
  month_to_number month_key = Ok num →
  1 ≤ year ≤ 9999 → 1 ≤ num ≤ 12 → 1 ≤ dd ≤ 31 →
  Transaction.date tx = iso_date year num dd →
  strip (Transaction.day tx) = Transaction.day tx →
  strip (Transaction.category tx) = Transaction.category tx →
  upper (Transaction.category tx) = Transaction.category tx →
  Transaction.type tx = "INCOME" ∨ Transaction.type tx = "EXPENSE" →
  strip (Transaction.description tx) = Transaction.description tx →
  float_in_range (Transaction.amount tx) = true →
  record_text tx = true →
  read_row_as_transaction (after_write self (written ws row tx)) month_key year day row
  = Ok (Some tx).
Proof.
  intros Hnum Hy Hm Hdd Hdate Hday Hcat Hcat' Hty Hdesc Hamt Htext.
  destruct (record_text_inv tx Htext) as (_ & Hc1 & Hc2 & Hc3 & Hc4).
  destruct (day_cell_text dd Hdd) as (Hne & Hint).
  unfold read_row_as_transaction.
  rewrite !(safe_cell_str_open _ (written ws row tx)) by done.
  unfold sheet, after_write, cell_value. cbn [_ws].
  change (col "TYPE") with 10. change (col "DATE") with 1. change (col "DAY") with 3.
  change (col "CATEGORY") with 4. change (col "AMOUNT") with 9.
  change (col "DESCRIPTION") with 11.
  cbn [mbind result_bind fmap result_fmap].
  rewrite !written_row_lookup. cbn [Z.eqb Pos.eqb]. cbv iota.
  rewrite Hc1, Hc2, Hc3, Hc4.
  cbn [mbind result_bind fmap result_fmap].
  rewrite Hdate, extract_day_iso_date by done.
  rewrite Hne, Hint. cbn [negb mbind result_bind].
  unfold date_to_string. rewrite Hnum. cbn [mbind result_bind].
  rewrite to_float_float by done. cbn [mbind result_bind].
  fold (iso_date year num dd).
  assert (upper (strip (str (CStr (upper (Transaction.type tx))))) = Transaction.type tx)
    as Hty' by (by destruct Hty as [-> | ->]).
  rewrite Hty'.
  assert (Transaction.make (iso_date year num dd) (strip (str (CStr (Transaction.day tx))))
            (strip (str (CStr (Transaction.category tx)))) (Transaction.amount tx)
            (Transaction.type tx) (strip (str (CStr (Transaction.description tx)))) = tx)
    as Hmk.
  { unfold Transaction.make. cbn [str].
    rewrite (strip_numeric (iso_date _ _ _)) by (by apply iso_date_numeric).
    rewrite Hday, Hday, Hcat, Hcat, Hcat', Hdesc, Hdesc, <- Hdate.
    destruct tx as [? ? ? ? ty ?]. simpl in *. f_equal.
    by destruct Hty as [-> | ->]. }
  rewrite Hmk. by destruct Hty as [-> | ->].
Qed.

End RoundTrip.

(** ** The adapter's contract *)

Section AdapterContract.
Import ExcelLoader.

(** What a valid target [(month, day, slot)] of an open workbook gives. *)
Lemma valid_target self month_name month_key year day slot_index :
  validate_month_name month_name = Ok month_key →
  get_year self = Ok year →
  validate_day_in_month month_key year day = Ok tt →
  validate_slot_index slot_index = Ok tt →
  ∃ ws anchor num,
    _ws self = Some ws
    ∧ get_anchor_row month_key = Ok anchor ∧ 8 ≤ anchor
    ∧ month_to_number month_key = Ok num ∧ 1 ≤ num ≤ 12
    ∧ GeneralHelper.dict_get _MONTH_TO_NUM (upper (strip month_key)) = Some num
    ∧ (∀ y, GeneralHelper.get_days_in_month month_key y = Ok (days_in y num))
    ∧ 1 ≤ day ≤ days_in year num
    ∧ (slot_index = 0 ∨ slot_index = 1)
    ∧ row_for_day anchor day slot_index = Ok (anchor + 2 + (day - 1) * 2 + slot_index).
Proof.
  intros Hm Hy Hd Hs.
  destruct (validate_month_name_inv _ _ Hm) as (_ & Hkey).
  destruct (month_tables _ Hkey) as (anchor & num & Ha & Ha8 & Hn & Hn12 & Hg & _ & Hdays).
  destruct (get_year_inv _ _ Hy) as (_ & ws & _ & Hws & _).
  pose proof (validate_day_in_month_inv _ _ _ _ (Hdays year) Hd) as Hday.
  pose proof (validate_slot_index_inv _ Hs) as Hslot.
  exists ws, anchor, num. repeat (split; [done|]). apply row_for_day_ok; [lia|done].
Qed.

(** What [write_day_entry] does with [None] at a valid
    [(month, day, slot)] of an open workbook: it succeeds, clears every
    tracked column of the slot's row and puts the literal NONE marker in its
    type cell; the row then parses to [None], so whatever [read_month]
    returns for that month has [None] at that slot, and [read_month] does
    return as soon as the other slots of the month parse without an
    exception. *)
Lemma write_none_outcome self month_name month_key year day slot_index :
  validate_month_name month_name = Ok month_key →
  get_year self = Ok year →
  validate_day_in_month month_key year day = Ok tt →
  validate_slot_index slot_index = Ok tt →
  ∃ self' ws' anchor row,
    write_day_entry month_name day slot_index None self = (self', Ok tt)
    ∧ _ws self' = Some ws'
    ∧ get_anchor_row month_key = Ok anchor
    ∧ row_for_day anchor day slot_index = Ok row
    ∧ (∀ c, In c (COL.*2) →
         ws' !! (row, c) = if c =? col "TYPE" then Some (CStr "NONE") else None)
    ∧ read_row_as_transaction self' month_key year day row = Ok None
    ∧ (∀ result, read_month self' month_name = Ok result →
         ∃ slots, day_slots result day = Some slots
                  ∧ slots !! Z.to_nat slot_index = Some None)
    ∧ (rest_of_month_readable self month_key year day slot_index = true →
         ∃ result, read_month self' month_name = Ok result).
Proof.
  intros Hm Hy Hd Hs.
  destruct (valid_target _ _ _ _ _ _ Hm Hy Hd Hs)
    as (ws & anchor & num & Hws & Ha & Ha8 & _ & _ & _ & Hdays & Hday & Hslot & Hrow).
  set (row := anchor + 2 + (day - 1) * 2 + slot_index) in *.
  exists (after_write self (cleared ws row)), (cleared ws row), anchor, row.
  split; [by apply (write_day_entry_None self ws _ month_key year _ _ anchor)|].
  split; [done|]. split; [done|]. split; [done|].
  split; [intros c Hc; by apply cleared_row_lookup|].
  split; [apply read_row_cleared|].
  apply (read_month_after_write self ws (cleared ws row) month_name month_key year day
           slot_index anchor num row None); try done.
  - intros r c Hr. by apply cleared_other_rows.
  - apply read_row_cleared.
Qed.

(** C5, where the code departs from it: writing [None] to a valid
    [(month, day, slot)] of an open workbook does clear every tracked column
    of the slot's row and put the literal NONE marker in its type cell, and
    the row then parses to [None], so that what [read_month] returns, when
    it returns, has [None] at the slot, and it returns when the other rows
    of the month parse; but the [read_month] that follows raises
    [OverflowError], where the claim has it yield [None] for the slot, when
    another row of the month holds a date cell that spells an infinity. *)
Theorem write_none_read_month_overflow :
  (∀ self month_name month_key year day slot_index,
     validate_month_name month_name = Ok month_key →
     get_year self = Ok year →
     validate_day_in_month month_key year day = Ok tt →
     validate_slot_index slot_index = Ok tt →
     ∃ self' ws' anchor row,
       write_day_entry month_name day slot_index None self = (self', Ok tt)
       ∧ _ws self' = Some ws'
       ∧ get_anchor_row month_key = Ok anchor
       ∧ row_for_day anchor day slot_index = Ok row
       ∧ (∀ c, In c (COL.*2) →
            ws' !! (row, c) = if c =? col "TYPE" then Some (CStr "NONE") else None)
       ∧ read_row_as_transaction self' month_key year day row = Ok None
       ∧ (∀ result, read_month self' month_name = Ok result →
            ∃ slots, day_slots result day = Some slots
                     ∧ slots !! Z.to_nat slot_index = Some None)
       ∧ (rest_of_month_readable self month_key year day slot_index = true →
            ∃ result, read_month self' month_name = Ok result))
  ∧ validate_month_name "january" = Ok "JANUARY"
  ∧ get_year legacy_loader = Ok 2024
  ∧ validate_day_in_month "JANUARY" 2024 1 = Ok tt
  ∧ validate_slot_index 0 = Ok tt
  ∧ (write_day_entry "january" 1 0 None legacy_loader).2 = Ok tt
  ∧ read_month (write_day_entry "january" 1 0 None legacy_loader).1 "january"
    = Raise OverflowError.
Proof.
  split; [|by vm_compute].
  intros self month_name month_key year day slot_index Hm Hy Hd Hs.
  exact (write_none_outcome _ _ _ _ _ _ Hm Hy Hd Hs).
Qed.

(** C1, as the code has it: a record made by the [Transaction] constructor,
    dated by a canonical [YYYY-MM-DD] date of the target month and of the
    workbook's year, of kind INCOME or EXPENSE, with a non-empty category and
    a non-negative amount, and whose texts are texts a cell takes as they are
    (at most 32767 characters, no control character but TAB, LF and CR), is
    accepted by [write_day_entry] at a valid [(month, day, slot)]; the slot's
    row then parses to a record equal to it in every field, so what
    [read_month] returns holds that record at that slot, and [read_month]
    does return as soon as the other slots of the month parse without an
    exception. *)
Theorem write_then_read_round_trip self month_name month_key year month_num day
    slot_index dd weekday category amount kind description :
  validate_month_name month_name = Ok month_key →
  get_year self = Ok year →
  validate_day_in_month month_key year day = Ok tt →
  validate_slot_index slot_index = Ok tt →
  month_to_number month_key = Ok month_num →
  1 ≤ year ≤ 9999 →
  1 ≤ dd ≤ days_in year month_num →
  let tx := Transaction.make (iso_date year month_num dd) weekday category amount
              kind description in
  Transaction.type tx = "INCOME" ∨ Transaction.type tx = "EXPENSE" →
  Transaction.category tx ≠ EmptyString →
  float_leb float_zero amount = true →
  float_in_range amount = true →
  record_text tx = true →
  ∃ self' anchor row,
    write_day_entry month_name day slot_index (Some tx) self = (self', Ok tt)
    ∧ get_anchor_row month_key = Ok anchor
    ∧ row_for_day anchor day slot_index = Ok row
    ∧ read_row_as_transaction self' month_key year day row = Ok (Some tx)
    ∧ (∀ result, read_month self' month_name = Ok result →
         ∃ slots, day_slots result day = Some slots
                  ∧ slots !! Z.to_nat slot_index = Some (Some tx))
    ∧ (rest_of_month_readable self month_key year day slot_index = true →
         ∃ result, read_month self' month_name = Ok result).
Proof.
  intros Hm Hy Hd Hs Hnum Hyear Hdd tx Hkind Hcat Hamt Hrange Htext.
  destruct (valid_target _ _ _ _ _ _ Hm Hy Hd Hs)
    as (ws & anchor & num & Hws & Ha & Ha8 & Hn & Hn12 & Hg & Hdays & Hday & Hslot & Hrow).
  rewrite Hnum in Hn. injection Hn as <-.
  pose proof (days_in_le_31 year month_num) as H31.
  destruct (record_text_inv tx Htext) as (Hall & _).
  assert (Transaction.date tx = iso_date year month_num dd) as Hdate.
  { unfold tx, Transaction.make. cbn [Transaction.date].
    apply strip_numeric, iso_date_numeric; lia. }
  set (row := anchor + 2 + (day - 1) * 2 + slot_index) in *.
  assert (read_row_as_transaction (after_write self (written ws row tx)) month_key year
            day row = Ok (Some tx)) as Hread.
  { apply (read_row_written self ws month_key year month_num day row dd tx);
      try done; try lia.
    - apply strip_idem.
    - apply strip_strip_upper.
    - apply upper_idem.
    - apply strip_idem. }
  exists (after_write self (written ws row tx)), anchor, row.
  split; [|split; [done|split; [done|split; [done|]]]].
  - rewrite (write_day_entry_Some self ws _ month_key year _ _ anchor row tx); try done.
    + unfold slot_written, write_outcome, written. by rewrite Hall.
    + unfold validate_transaction_or_none.
      change (Transaction.amount tx) with amount.
      rewrite (float_leb_not_ltb _ Hamt).
      assert (upper (strip (Transaction.type tx)) = Transaction.type tx) as ->.
      { by destruct Hkind as [-> | ->]. }
      assert (str_in (Transaction.type tx) ["INCOME"; "EXPENSE"] = true) as ->.
      { by destruct Hkind as [-> | ->]. }
      cbn [negb].
      assert (strip (Transaction.category tx) = Transaction.category tx) as ->.
      { apply strip_strip_upper. }
      destruct (Transaction.category tx) eqn:Ecat; [done|]. cbn [is_empty].
      rewrite Hdate, strip_numeric by (apply iso_date_numeric; lia).
      rewrite iso_date_nonempty by done.
      by rewrite strptime_iso_date.
    + unfold validate_date_matches_month.
      rewrite Hdate, strptime_iso_date, Hg by done. simpl.
      by rewrite !Z.eqb_refl.
  - apply (read_month_after_write self ws (written ws row tx) month_name month_key year
             day slot_index anchor month_num row (Some tx)); try done.
    intros r c Hr. by apply written_other_rows.
Qed.

Lemma write_then_read_round_trip_example :
  ∃ self' anchor row,
    write_day_entry "january" 5 1 (Some example_record) example_loader = (self', Ok tt)
    ∧ get_anchor_row "JANUARY" = Ok anchor
    ∧ row_for_day anchor 5 1 = Ok row
    ∧ read_row_as_transaction self' "JANUARY" 2024 5 row = Ok (Some example_record)
    ∧ (∀ result, read_month self' "january" = Ok result →
         ∃ slots, day_slots result 5 = Some slots
                  ∧ slots !! Z.to_nat 1 = Some (Some example_record))
    ∧ (rest_of_month_readable example_loader "JANUARY" 2024 5 1 = true →
         ∃ result, read_month self' "january" = Ok result).
Proof.
  apply (write_then_read_round_trip example_loader "january" "JANUARY" 2024 1 5 1 5
           "Fri" "food" (FFin 1005 1) "expense" " lunch ");
    first [lia | by vm_compute | by right].
Defined.

(** C1 as stated fails on a record whose description holds a control
    character: every condition of the claim holds, yet the write is refused
    at the description cell, the five cells before it being written, and
    what [read_month] then returns for the slot is not the record. It also
    fails, for the example record, on the workbook with the legacy row: the
    write returns and [read_month] raises. *)
Lemma round_trip_refuses_control_character :
  validate_month_name "january" = Ok "JANUARY"
  ∧ get_year example_loader = Ok 2024
  ∧ validate_day_in_month "JANUARY" 2024 5 = Ok tt
  ∧ validate_slot_index 1 = Ok tt
  ∧ validate_transaction_or_none (Some bell_record) = Ok tt
  ∧ validate_date_matches_month "JANUARY" (Transaction.date bell_record) 2024 = Ok tt
  ∧ Transaction.date bell_record = "2024-01-05"
  ∧ Transaction.type bell_record = "EXPENSE"
  ∧ Transaction.category bell_record = "FOOD"
  ∧ float_leb float_zero (Transaction.amount bell_record) = true
  ∧ (write_day_entry "january" 5 1 (Some bell_record) example_loader).2
    = Raise IllegalCharacterError
  ∧ (∃ result slots,
      read_month (write_day_entry "january" 5 1 (Some bell_record) example_loader).1
        "january" = Ok result
      ∧ day_slots result 5 = Some slots
      ∧ slots !! 1%nat ≠ Some (Some bell_record))
  ∧ (write_day_entry "january" 5 1 (Some example_record) legacy_loader).2 = Ok tt
  ∧ read_month (write_day_entry "january" 5 1 (Some example_record) legacy_loader).1
      "january" = Raise OverflowError.
Proof.
  repeat (split; [by vm_compute|]).
  split; [|split; by vm_compute].
  destruct (read_month (write_day_entry "january" 5 1 (Some bell_record) example_loader).1
              "january") as [result|] eqn:E; [|by vm_compute in E].
  destruct (day_slots result 5) as [slots|] eqn:E5.
  - exists result, slots. split; [done|]. split; [done|].
    revert E5. revert E. vm_compute. intros [= <-]. intros [= <-]. discriminate.
  - revert E5. revert E. vm_compute. intros [= <-]. discriminate.
Qed.

End AdapterContract.

(** ** Addressing, coercion and the kinds that are read *)

Section AdapterRows.
Import ExcelLoader.

(** C2: for every month and year, every day of the month and every slot in
    {0, 1}, the worksheet row is [anchorRow(month) + 2 + (day-1)*2 + slot];
    the row grows strictly with [(day, slot)] in lexicographic order and no
    two slots of the month share a row. *)
Theorem row_addressing month_key year :
  str_in month_key _MONTH_KEYS = true →
  ∃ anchor,
    get_anchor_row month_key = Ok anchor
    ∧ (∀ day slot_index,
         validate_day_in_month month_key year day = Ok tt →
         validate_slot_index slot_index = Ok tt →
         row_for_day anchor day slot_index
         = Ok (anchor + 2 + (day - 1) * 2 + slot_index))
    ∧ (∀ d1 s1 d2 s2 r1 r2,
         row_for_day anchor d1 s1 = Ok r1 →
         row_for_day anchor d2 s2 = Ok r2 →
         (d1 < d2 ∨ d1 = d2 ∧ s1 < s2 → r1 < r2)
         ∧ (r1 = r2 → d1 = d2 ∧ s1 = s2)).
Proof.
  intros Hkey.
  destruct (month_tables _ Hkey) as (anchor & num & Ha & _ & _ & _ & _ & _ & Hdays).
  exists anchor. split; [done|]. split.
  - intros day slot_index Hd Hs.
    pose proof (validate_day_in_month_inv _ _ _ _ (Hdays year) Hd).
    apply row_for_day_ok; [lia|]. by apply validate_slot_index_inv.
  - intros d1 s1 d2 s2 r1 r2 (_ & Hs1 & ->)%row_for_day_inv (_ & Hs2 & ->)%row_for_day_inv.
    split; lia.
Qed.

Lemma row_addressing_example :
  ∃ anchor,
    get_anchor_row "FEBRUARY" = Ok anchor
    ∧ (∀ day slot_index,
         validate_day_in_month "FEBRUARY" 2024 day = Ok tt →
         validate_slot_index slot_index = Ok tt →
         row_for_day anchor day slot_index
         = Ok (anchor + 2 + (day - 1) * 2 + slot_index))
    ∧ (∀ d1 s1 d2 s2 r1 r2,
         row_for_day anchor d1 s1 = Ok r1 →
         row_for_day anchor d2 s2 = Ok r2 →
         (d1 < d2 ∨ d1 = d2 ∧ s1 < s2 → r1 < r2)
         ∧ (r1 = r2 → d1 = d2 ∧ s1 = s2)).
Proof. apply (row_addressing "FEBRUARY" 2024). reflexivity. Defined.

(** The only exception [to_int] lets through is [OverflowError]. *)
Lemma to_int_raises raw e : to_int raw = Raise e → e = OverflowError.
Proof.
  destruct raw as [v|]; [|done]. unfold to_int.
  destruct (is_empty (strip (str v))); [done|].
  destruct (float_of_str (str v)) as [[|neg|m p]|e'] eqn:E; simpl; try done.
  - by intros [= <-].
  - by rewrite (float_of_str_raises _ _ E).
Qed.

(** C6, where the code departs from it: a date cell that spells an
    infinity makes [to_int] raise [OverflowError] where the claim has it
    return [0], and the exception aborts [read_month]. *)
Theorem to_int_overflow :
  to_int (Some (CStr "inf")) = Raise OverflowError
  ∧ to_int (Some (CStr "1e400")) = Raise OverflowError
  ∧ read_month legacy_loader "JANUARY" = Raise OverflowError.
Proof. by vm_compute. Qed.

Lemma read_days_kinds self month_key year anchor ds : ∀ result,
  read_days self month_key year anchor ds = Ok result →
  ∀ d slots tx, In (d, slots) result → In (Some tx) slots →
    Transaction.type tx = "INCOME" ∨ Transaction.type tx = "EXPENSE".
Proof.
  induction ds as [|d0 rest IH]; intros result Hr d slots tx Hin Htx.
  { injection Hr as <-. done. }
  cbn [read_days] in Hr.
  destruct (row_for_day anchor d0 0) as [row_top|];
    cbn [mbind result_bind] in Hr; [|done].
  destruct (read_row_as_transaction self month_key year d0 row_top)
    as [slot0|] eqn:E0; cbn [mbind result_bind] in Hr; [|done].
  destruct (read_row_as_transaction self month_key year d0 (row_top + 1))
    as [slot1|] eqn:E1; cbn [mbind result_bind] in Hr; [|done].
  destruct (read_days self month_key year anchor rest) as [r'|] eqn:Er;
    cbn [mbind result_bind] in Hr; [|done].
  injection Hr as <-. destruct Hin as [[= <- <-]|Hin].
  - destruct Htx as [->|[->|[]]]; eauto using read_row_kind.
  - by apply (IH r' eq_refl d slots tx).
Qed.

(** C8: a row whose type cell reads NONE, or whose tracked fields are all
    blank, or whose type cell holds a value outside {INCOME, EXPENSE, NONE},
    parses to [None]; and every record in what [read_month] returns has kind
    INCOME or EXPENSE. *)
Theorem read_month_never_yields_kind_none self month_key year day row :
  (∀ ty, safe_cell_str self row (col "TYPE") = Ok ty →
     upper (strip ty) = "NONE"
     ∨ (∀ c, In c (COL.*2) → strip <$> safe_cell_str self row c = Ok EmptyString)
     ∨ str_in (upper (strip ty)) VALID_TYPES = false →
     read_row_as_transaction self month_key year day row = Ok None)
  ∧ (∀ month_name result d slots tx,
       read_month self month_name = Ok result →
       In (d, slots) result → In (Some tx) slots →
       Transaction.type tx = "INCOME" ∨ Transaction.type tx = "EXPENSE").
Proof.
  split.
  - intros ty Hty Hcases.
    destruct (safe_cell_str_inv _ _ _ _ Hty) as [ws Hws].
    unfold read_row_as_transaction.
    rewrite Hty. rewrite !(safe_cell_str_open self ws) by done.
    unfold sheet, cell_value. rewrite Hws. cbn [mbind result_bind fmap result_fmap].
    destruct Hcases as [Hnone | [Hblank | Hother]].
    + by rewrite Hnone.
    + assert (∀ c, In c (COL.*2) →
                strip (match ws !! (row, c) with Some v => str v | None => "" end) = "")
        as Hb.
      { intros c Hc. specialize (Hblank c Hc).
        rewrite (safe_cell_str_open self ws) in Hblank by done. by injection Hblank. }
      assert (strip ty = "") as ->.
      { rewrite (safe_cell_str_open self ws) in Hty by done. injection Hty as <-.
        apply Hb. simpl. tauto. }
      rewrite !Hb by (simpl; tauto).
      specialize (Hb (col "AMOUNT") ltac:(simpl; tauto)).
      destruct (ws !! (row, col "AMOUNT")); [by rewrite Hb|done].
    + rewrite Hother. cbn [negb]. by destruct (_ || _).
  - intros month_name result d slots tx Hr. unfold read_month in Hr.
    destruct (ensure_open self); cbn [mbind result_bind] in Hr; [|done].
    destruct (validate_month_name month_name) as [mk|];
      cbn [mbind result_bind] in Hr; [|done].
    destruct (get_anchor_row mk) as [anchor|]; cbn [mbind result_bind] in Hr; [|done].
    destruct (get_year self) as [y|]; cbn [mbind result_bind] in Hr; [|done].
    destruct (GeneralHelper.get_days_in_month mk y) as [n|];
      cbn [mbind result_bind] in Hr; [|done].
    by apply (read_days_kinds _ _ _ _ _ _ Hr).
Qed.

Lemma read_month_never_yields_kind_none_example :
  read_row_as_transaction transfer_loader "JANUARY" 2024 1 10 = Ok None.
Proof.
  apply (proj1 (read_month_never_yields_kind_none transfer_loader "JANUARY" 2024 1 10)
           "transfer"); [by vm_compute|]. right. right. by vm_compute.
Defined.

End AdapterRows.

(** ** Category totals *)

Section CategoryTotals.
Import AnalyticManager.

Lemma rollup_lookup txs : ∀ totals key,
  rollup txs totals !! key
  = match expenses_in key txs with
    | [] => totals !! key
    | amounts => Some (fold_left float_add amounts (default float_zero (totals !! key)))
    end.
Proof.
  induction txs as [|t rest IH]; intros totals key; [done|].
  cbn [rollup]. unfold expenses_in. fold (is_expense t). fold (bucket t).
  destruct (is_expense t) eqn:Ee; cbn [negb].
  - destruct (decide (bucket t = key)) as [Hk|Hk].
    + rewrite filter_cons_True by done. rewrite IH, Hk, lookup_insert_eq.
      cbn [fmap list_fmap fold_left default]. fold (expenses_in key rest).
      by destruct (expenses_in key rest).
    + rewrite filter_cons_False by tauto. rewrite IH, lookup_insert_ne by done.
      done.
  - rewrite filter_cons_False by (intros [? _]; congruence). apply IH.
Qed.

(** C7: the yearly category totals hold, for each category, the sum of the
    amounts of the EXPENSE records counted under it and nothing else: no
    INCOME record contributes, a category without an EXPENSE record has no
    entry, and a record whose category is blank after trimming counts under
    MISCELLANEOUS. With one INCOME of 500 and one EXPENSE of 100 in FOOD the
    totals are [{FOOD: 100.0}]. *)
Theorem category_totals_expense_only :
  (∀ self fs txs,
     _iter_all_transactions self fs = Ok txs →
     ∃ totals,
       get_category_totals_year self fs = Ok totals
       ∧ (∀ key, totals !! key = running_total (expenses_in key txs))
       ∧ (∀ t, In t txs → is_expense t = true →
            strip (Transaction.category t) = EmptyString →
            bucket t = "MISCELLANEOUS" ∧ is_Some (totals !! "MISCELLANEOUS"))
       ∧ (∀ key, (∀ t, In t txs → bucket t = key → is_expense t = false) →
            totals !! key = None))
  ∧ get_category_totals_year ledger_analytics ledger_files
    = Ok {[ "FOOD" := FFin 1000 0 ]}.
Proof.
  split; [|by vm_compute].
  intros self fs txs Htxs. exists (rollup txs ∅).
  unfold get_category_totals_year. rewrite Htxs. split; [done|].
  assert (∀ key, rollup txs ∅ !! key = running_total (expenses_in key txs)) as Hsum.
  { intros key. rewrite rollup_lookup, lookup_empty. unfold running_total.
    by destruct (expenses_in key txs). }
  split; [done|]. split.
  - intros t Hin He Hblank.
    assert (bucket t = "MISCELLANEOUS") as Hb by (unfold bucket; by rewrite Hblank).
    split; [done|]. rewrite Hsum. unfold running_total, expenses_in.
    assert (t ∈ filter (λ t, is_expense t = true ∧ bucket t = "MISCELLANEOUS") txs) as Hf.
    { apply list_elem_of_filter. split; [done|]. by apply list_elem_of_In. }
    destruct (filter _ txs); [by apply not_elem_of_nil in Hf|]. by eexists.
  - intros key Hnone. rewrite Hsum. unfold running_total, expenses_in.
    destruct (filter _ txs) as [|t l] eqn:Ef; [done|].
    assert (t ∈ filter (λ t, is_expense t = true ∧ bucket t = key) txs) as Hf.
    { rewrite Ef. left. }
    apply list_elem_of_filter in Hf as [[He Hb] Hin%list_elem_of_In].
    rewrite (Hnone t Hin Hb) in He. done.
Qed.

End CategoryTotals.

(** ** Archive names *)

Section ArchiveNames.
Import SessionManager.

Lemma highest_suffix_nonneg prefix names : 0 ≤ highest_suffix prefix names.
Proof.
  unfold highest_suffix. induction (omap (backup_number prefix) names); simpl; lia.
Qed.

Lemma scan_backups_max prefix names : ∀ max_n,
  0 ≤ max_n →
  scan_backups prefix names max_n = Z.max max_n (highest_suffix prefix names).
Proof.
  induction names as [|name rest IH]; intros max_n Hm.
  - unfold highest_suffix. simpl. lia.
  - pose proof (highest_suffix_nonneg prefix rest) as Hrest.
    cbn [scan_backups]. unfold highest_suffix in *. cbn [omap list_omap].
    assert (backup_number prefix name
            = match pattern_match prefix name with
              | Some g => match int_of_str g with Ok n => Some n | Raise _ => None end
              | None => None
              end) as -> by reflexivity.
    destruct (pattern_match prefix name) as [g|]; [|by apply IH].
    destruct (int_of_str g) as [n|]; [|by apply IH].
    cbn [foldr]. destruct (Z.ltb_spec max_n n); rewrite IH by lia; lia.
Qed.

Lemma highest_suffix_bounds prefix names :
  (∀ name n, In name names → backup_number prefix name = Some n →
     n ≤ highest_suffix prefix names)
  ∧ (highest_suffix prefix names = 0
     ∨ ∃ name, In name names
               ∧ backup_number prefix name = Some (highest_suffix prefix names)).
Proof.
  unfold highest_suffix. induction names as [|name rest [IHle IHmax]].
  - split; [done|]. by left.
  - cbn [omap list_omap]. destruct (backup_number prefix name) as [m|] eqn:Em.
    + cbn [foldr]. split.
      * intros name' n [<-|Hin] Hn.
        -- rewrite Em in Hn. injection Hn as <-. lia.
        -- specialize (IHle name' n Hin Hn). lia.
      * destruct (Z.max_spec m (foldr Z.max 0 (omap (backup_number prefix) rest)))
          as [[_ ->]|[_ ->]].
        -- destruct IHmax as [H0|(name' & Hin & Hn)]; [by left|].
           right. exists name'. split; [by right|done].
        -- right. exists name. split; [by left|done].
    + split.
      * intros name' n [<-|Hin] Hn; [congruence|]. by apply (IHle name').
      * destruct IHmax as [H0|(name' & Hin & Hn)]; [by left|].
        right. exists name'. split; [by right|done].
Qed.

(** C9: the name of the next archive carries the highest number found among
    the backup directory's names [prefix_<N>.xlsx], plus one (1 when there
    is none); with [User_Data_Fresh_1.xlsx] and [User_Data_Fresh_3.xlsx]
    present, a FRESH session is archived as [User_Data_Fresh_4.xlsx], not
    under the free number 2. *)
Theorem unique_backup_name_highest_plus_one :
  (∀ self fs prefix,
     let names := glob_xlsx fs (_backups_dir self) in
     let top := highest_suffix prefix names in
     unique_backup_name self fs prefix
     = path_join (_backups_dir self) (prefix +:+ "_" +:+ str_of_int (top + 1) +:+ ".xlsx")
     ∧ (∀ name n, In name names → backup_number prefix name = Some n → n ≤ top)
     ∧ (top = 0 ∨ ∃ name, In name names ∧ backup_number prefix name = Some top))
  ∧ (end_session_and_archive (fresh_manager, session_files)).2
    = Ok (Some "/app/template/file_storage/backups/User_Data_Fresh_4.xlsx")
  ∧ is_file session_files "/app/template/file_storage/backups/User_Data_Fresh_2.xlsx"
    = false.
Proof.
  split; [|by vm_compute].
  intros self fs prefix names top. split.
  - unfold unique_backup_name. fold names. rewrite scan_backups_max by done.
    fold top. pose proof (highest_suffix_nonneg prefix names). fold top in H.
    by rewrite Z.max_r by done.
  - apply highest_suffix_bounds.
Qed.

End ArchiveNames.

(** ** Sessions *)

Section Sessions.
Import SessionManager.

(** C3, where the code departs from it: with the session file replaced by a
    workbook that lacks the template marker, [read_all] and [write_all] fail
    with the template-mismatch error, while [save] and [save_backup] open
    the file and do their work without verifying it. *)
Theorem save_skips_signature_check :
  (read_all (fresh_manager, tampered_files)).2 = Raise template_mismatch
  ∧ (write_all [] (fresh_manager, tampered_files)).2 = Raise template_mismatch
  ∧ (save (fresh_manager, tampered_files)).2 = Ok tt
  ∧ (save_backup "/home/user" "20240105_101500" (fresh_manager, tampered_files)).2
    = Ok "/home/user/user_data_backup_20240105_101500.xlsx".
Proof. by vm_compute. Qed.

Lemma on_snd_fst {S1 S2 A} (m : prog S2 A) (s : S1 * S2) : (on_snd m s).1.1 = s.1.
Proof. unfold on_snd. by destruct (m s.2). Qed.

Lemma ensure_base_paths_manager s : (ensure_base_paths s).1.1 = s.1.
Proof.
  unfold ensure_base_paths, bind, gets.
  pose proof (on_snd_fst (validate_fresh_session_paths (_template_path s.1)
                            (_storage_dir s.1)) s) as H1.
  destruct (on_snd _ s) as [s1 [[]|e]]; [|done].
  pose proof (on_snd_fst (mkdir (_backups_dir s.1)) s1) as H2.
  simpl in *. congruence.
Qed.

Lemma upload_checks_manager source_path s : (upload_checks source_path s).1.1 = s.1.
Proof.
  unfold upload_checks, bind, gets, lift.
  pose proof (ensure_base_paths_manager s) as H1.
  destruct (ensure_base_paths s) as [s1 [[]|e]]; [|done].
  destruct (validate_user_upload_path s1.2 source_path) as [[]|]; [|done].
  destruct (validate_upload_filesize s1.2 source_path 20) as [[]|]; [|done].
  rewrite on_snd_fst. done.
Qed.

Lemma validate_template_signature_raises file_path fs fs' e :
  validate_template_signature file_path fs = (fs', Raise e) →
  ∃ msg, e = ValidationError msg.
Proof.
  unfold validate_template_signature, bind, try_prog, gets, lift, raise, ret, id.
  destruct (load_workbook fs file_path) as [ws|]; [|intros H; simplify_eq/=; eauto].
  destruct (save_workbook ws file_path fs) as [fs1 [[]|]];
    [|intros H; simplify_eq/=; eauto].
  destruct (negb _); intros H; simplify_eq/=; eauto.
Qed.

Lemma validate_template_signature_mismatch file_path fs ws :
  load_workbook fs file_path = Ok ws →
  String.eqb (upper (strip (str_or_empty (ws !! _TEMPLATE_MARKER_CELL))))
    _TEMPLATE_MARKER_VALUE = false →
  (validate_template_signature file_path fs).2
  = Raise (if is_ok (save_workbook ws file_path fs).2
           then ValidationError template_mismatch_message
           else could_not_open).
Proof.
  intros Hload Hmark.
  unfold validate_template_signature, bind, try_prog, gets, lift, raise, ret, id.
  rewrite Hload. destruct (save_workbook ws file_path fs) as [fs1 [[]|e]]; cbn [snd is_ok].
  - by rewrite Hmark.
  - done.
Qed.

(** C4, where the code departs from it: [start_imported_session] does
    check the upload (base paths, existence, extension, readability, size,
    template signature) before it touches the session state, and when one of
    the checks fails the operation fails with that error and the manager, its
    session path and mode included, is as before. But the signature check
    writes the workbook back to the upload inside the block that guards its
    loading: a readable upload whose marker cell does not hold the template
    marker fails with the template-mismatch error only when it could be
    written back, and with the could-not-open error, where the claim has the
    mismatch error, when it could not. *)
Theorem start_imported_session_validates_first :
  (∀ self fs source_path s' e,
     upload_checks source_path (self, fs) = (s', Raise e) →
     start_imported_session source_path (self, fs) = (s', Raise e) ∧ s'.1 = self)
  ∧ (∀ self fs source_path fs1 ws,
       ensure_base_paths (self, fs) = ((self, fs1), Ok tt) →
       validate_user_upload_path fs1 source_path = Ok tt →
       validate_upload_filesize fs1 source_path 20 = Ok tt →
       load_workbook fs1 source_path = Ok ws →
       String.eqb (upper (strip (str_or_empty (ws !! _TEMPLATE_MARKER_CELL))))
         _TEMPLATE_MARKER_VALUE = false →
       (start_imported_session source_path (self, fs)).2
       = Raise (if is_ok (save_workbook ws source_path fs1).2
                then ValidationError template_mismatch_message
                else could_not_open)
       ∧ (start_imported_session source_path (self, fs)).1.1 = self)
  ∧ ((start_imported_session "/home/user/other.xlsx" (fresh_manager, session_files)).2
     = Raise (ValidationError template_mismatch_message)
     ∧ (start_imported_session "/home/user/other.xlsx" (fresh_manager, session_files)).1.1
       = fresh_manager)
  ∧ ((ensure_base_paths (fresh_manager, readonly_files)).2 = Ok tt
     ∧ validate_user_upload_path readonly_files "/home/user/other.xlsx" = Ok tt
     ∧ validate_upload_filesize readonly_files "/home/user/other.xlsx" 20 = Ok tt
     ∧ load_workbook readonly_files "/home/user/other.xlsx" = Ok foreign_sheet
     ∧ String.eqb (upper (strip (str_or_empty (foreign_sheet !! _TEMPLATE_MARKER_CELL))))
         _TEMPLATE_MARKER_VALUE = false
     ∧ (start_imported_session "/home/user/other.xlsx" (fresh_manager, readonly_files)).2
       = Raise could_not_open
     ∧ could_not_open ≠ ValidationError template_mismatch_message
     ∧ (start_imported_session "/home/user/other.xlsx" (fresh_manager, readonly_files)).1.1
       = fresh_manager).
Proof.
  assert (∀ self fs source_path s' e,
     upload_checks source_path (self, fs) = (s', Raise e) →
     start_imported_session source_path (self, fs) = (s', Raise e) ∧ s'.1 = self) as HA.
  { intros self fs source_path s' e Hchk.
    pose proof (upload_checks_manager source_path (self, fs)) as Hm.
    rewrite Hchk in Hm. split; [|done]. revert Hchk.
    unfold upload_checks, start_imported_session, bind, gets, lift.
    destruct (ensure_base_paths (self, fs)) as [s1 [[]|e1]];
      [|by intros [= -> ->]].
    destruct (validate_user_upload_path s1.2 source_path) as [[]|];
      [|by intros [= -> ->]].
    destruct (validate_upload_filesize s1.2 source_path 20) as [[]|];
      [|by intros [= -> ->]].
    destruct (on_snd (validate_template_signature source_path) s1) as [s2 [[]|e2]];
      [done|by intros [= -> ->]]. }
  split; [exact HA|]. split; [|split; [by vm_compute|repeat split; by vm_compute]].
  intros self fs source_path fs1 ws Hbase Hpath Hsize Hload Hmark.
  pose proof (validate_template_signature_mismatch _ _ _ Hload Hmark) as Hsig.
  destruct (validate_template_signature source_path fs1) as [fs2 r] eqn:Ev.
  simpl in Hsig. subst r.
  set (e := if is_ok (save_workbook ws source_path fs1).2
            then ValidationError template_mismatch_message else could_not_open) in *.
  assert (upload_checks source_path (self, fs) = ((self, fs2), Raise e)) as Hchk.
  { unfold upload_checks, bind, gets, lift. rewrite Hbase. simpl.
    rewrite Hpath, Hsize. unfold on_snd. simpl. by rewrite Ev. }
  destruct (HA _ _ _ _ _ Hchk) as [-> _]. done.
Qed.

End Sessions.

(** ** The adapter's handle and its path *)

Section Handles.
Import ExcelLoader.

Context {St : Type} (I : St → Prop).

Lemma preserves_ret {A} (a : A) : preserves I (ret a).
Proof. by intros s. Qed.

Lemma preserves_lift {A} (r : result A) : preserves I (lift r).
Proof. by intros s. Qed.

Lemma preserves_reads {A} (f : St → result A) : preserves I (reads f).
Proof. by intros s. Qed.

Lemma preserves_gets {A} (f : St → A) : preserves I (gets f).
Proof. by intros s. Qed.

Lemma preserves_raise {A} (e : exn) : preserves I (raise (A:=A) e).
Proof. by intros s. Qed.

Lemma preserves_modify (f : St → St) : (∀ s, I s → I (f s)) → preserves I (modify f).
Proof. intros H s Hs. by apply H. Qed.

Lemma preserves_bind {A B} (m : prog St A) (k : A → prog St B) :
  preserves I m → (∀ a, preserves I (k a)) → preserves I (bind m k).
Proof.
  intros Hm Hk s Hs. unfold bind. specialize (Hm s Hs).
  destruct (m s) as [s' [a|e]]; [|done]. by apply Hk.
Qed.

Lemma preserves_try {A} (m : prog St A) (h : exn → prog St A) :
  preserves I m → (∀ e, preserves I (h e)) → preserves I (try_prog m h).
Proof.
  intros Hm Hh s Hs. unfold try_prog. specialize (Hm s Hs).
  destruct (m s) as [s' [a|e]]; [done|]. by apply Hh.
Qed.

Lemma preserves_void {A} (m : prog St A) : preserves I m → preserves I (void m).
Proof. intros H. apply preserves_bind; [done|]. intros. apply preserves_ret. Qed.

Lemma preserves_on_fst {S2 A} (m : prog St A) :
  preserves I m → preserves (λ s : St * S2, I s.1) (on_fst m).
Proof.
  intros H s Hs. unfold on_fst. specialize (H s.1 Hs). by destruct (m s.1).
Qed.

Lemma preserves_on_snd {S2 A} (m : prog S2 A) :
  preserves (λ s : St * S2, I s.1) (on_snd m).
Proof. intros s Hs. unfold on_snd. by destruct (m s.2). Qed.

End Handles.

Section HandleBound.
Import ExcelLoader.

Local Ltac step :=
  first
    [ apply preserves_ret | apply preserves_lift | apply preserves_reads
    | apply preserves_gets | apply preserves_raise | apply preserves_on_snd
    | apply preserves_void
    | apply preserves_bind; [|intros ?]
    | apply preserves_try; [|intros ?]
    | match goal with |- preserves _ (match ?x with _ => _ end) => destruct x end ].

Lemma write_cell_bound row c v : preserves handle_bound (write_cell row c v).
Proof.
  intros self H. unfold write_cell. destruct (_ws self) as [ws|]; [|done].
  destruct (set_cell_value ws row c v) as [ws'|]; [|done].
  unfold handle_bound in *. simpl. intros Hwb. apply H.
  by destruct (_wb self).
Qed.

Lemma close_bound : preserves handle_bound close.
Proof. intros self _. unfold close, modify, handle_bound. simpl. by intros [? [=]]. Qed.

Lemma clear_cols_bound row cols : preserves handle_bound (clear_cols row cols).
Proof.
  induction cols as [|c r IH]; simpl; [apply preserves_ret|].
  apply preserves_bind; [apply write_cell_bound|done].
Qed.

Lemma write_day_entry_bound month_name day slot_index tx :
  preserves handle_bound (write_day_entry month_name day slot_index tx).
Proof.
  unfold write_day_entry, clear_row.
  repeat first [apply write_cell_bound | apply clear_cols_bound | step].
Qed.

Lemma write_slots_bound month_norm day slots : ∀ idx,
  preserves handle_bound (write_slots month_norm day idx slots).
Proof.
  induction slots as [|tx r IH]; intros idx; simpl; [apply preserves_ret|].
  apply preserves_bind; [apply write_day_entry_bound|intros; apply IH].
Qed.

Lemma write_days_bound month_norm days :
  preserves handle_bound (write_days month_norm days).
Proof.
  induction days as [|[day slots] r IH]; simpl; [apply preserves_ret|].
  apply preserves_bind; [apply write_slots_bound|done].
Qed.

Lemma write_months_bound data : preserves handle_bound (write_months data).
Proof.
  induction data as [|[month_key days] r IH]; simpl; [apply preserves_ret|].
  repeat first [apply write_days_bound | apply IH | step].
Qed.

Lemma open_bound file_path :
  preserves (λ s : t * FileSystem, handle_bound s.1) (open file_path).
Proof.
  intros [self fs] H. unfold open, bind, gets, lift, modify. simpl.
  destruct (validate_open_excel_path fs file_path) as [[]|]; [|done].
  destruct (load_workbook fs file_path); unfold handle_bound; simpl; eauto.
Qed.

Lemma wb_save_bound p : preserves (λ s : t * FileSystem, handle_bound s.1) (wb_save p).
Proof. unfold wb_save. repeat step. Qed.

Lemma save_bound : preserves (λ s : t * FileSystem, handle_bound s.1) save.
Proof.
  unfold save.
  repeat first [apply wb_save_bound
               | apply (preserves_on_fst handle_bound (S2:=FileSystem)) | step].
Qed.

(** Every public operation keeps an open handle bound to a path. *)
Lemma run_bound c : preserves (λ s : t * FileSystem, handle_bound s.1) (run c).
Proof.
  destruct c; unfold run, set_year, set_current_income, write_all, save_as, save_backup,
    prepare_fresh_session, import_into_session.
  all: repeat first
         [ apply open_bound | apply save_bound | apply wb_save_bound
         | apply (preserves_on_fst handle_bound (S2:=FileSystem))
         | apply write_cell_bound | apply close_bound | apply write_day_entry_bound
         | apply write_months_bound | step ].
Qed.

Lemma reachable_bound s : reachable s → handle_bound s.1.
Proof.
  induction 1 as [fs|s c _ IH|self fs fs' _ IH].
  - unfold handle_bound. simpl. by intros [? [=]].
  - by apply (run_bound c s).
  - done.
Qed.

(** C10: in every state the public operations of the adapter can reach, an
    open workbook handle has a backing path; so once the open-handle check
    of [save] passes, [save] does not fail for want of a backing path. *)
Theorem open_handle_has_path s :
  reachable s →
  (is_Some (_wb s.1) → is_Some (_path s.1))
  ∧ (ensure_open s.1 = Ok tt → (save s).2 ≠ Raise no_backing_path).
Proof.
  intros Hr. pose proof (reachable_bound s Hr) as Hb. split; [exact Hb|].
  intros (wb & ws & Hwb & Hws)%ensure_open_inv.
  destruct (Hb ltac:(by rewrite Hwb)) as [p Hp].
  destruct s as [self fs]. simpl in *.
  unfold save, bind, on_fst, reads, gets, ensure_open, wb_save, on_snd. simpl.
  rewrite Hwb, Hws, Hp. simpl. unfold bind, gets. simpl. rewrite Hwb.
  unfold save_workbook. by destruct (_ || _).
Qed.

Lemma open_handle_has_path_example :
  (is_Some (_wb opened_state.1) → is_Some (_path opened_state.1))
  ∧ (ensure_open opened_state.1 = Ok tt → (save opened_state).2 ≠ Raise no_backing_path).
Proof.
  apply (open_handle_has_path opened_state).
  apply reach_call, reach_new.
Defined.

End HandleBound.

(** ** The calendar behind the grid *)

Section Calendar.
Import ExcelLoader.

Lemma lower_upper_char c : lower_char (upper_char c) = lower_char c.
Proof. by destruct c as [[] [] [] [] [] [] [] []]. Qed.

Lemma lower_upper s : lower (upper s) = lower s.
Proof. induction s as [|c r IH]; simpl; [done|]. by rewrite lower_upper_char, IH. Qed.

Lemma leap_year_spec year :
  GeneralHelper.is_leap_year year = true
  ↔ (year mod 4 = 0 ∧ year mod 100 ≠ 0) ∨ year mod 400 = 0.
Proof.
  unfold GeneralHelper.is_leap_year.
  rewrite orb_true_iff, andb_true_iff, negb_true_iff, !Z.eqb_eq, Z.eqb_neq. tauto.
Qed.

(** X1: on a month name in ASCII, [get_days_in_month] does not depend on
    the case of the name nor on whitespace around it; for one of the twelve
    names it returns a count from 28 to 31, and 29 exactly for February of a
    year divisible by 4 and not by 100, or divisible by 400; for any other
    name it raises [ValueError]. *)
Theorem get_days_in_month_table month year :
  is_ascii month = true →
  GeneralHelper.get_days_in_month (upper month) year
  = GeneralHelper.get_days_in_month month year
  ∧ GeneralHelper.get_days_in_month (strip month) year
    = GeneralHelper.get_days_in_month month year
  ∧ match GeneralHelper.get_days_in_month month year with
    | Ok n =>
        28 ≤ n ≤ 31
        ∧ (n = 29 ↔ lower (strip month) = "february"
                    ∧ (year mod 4 = 0 ∧ year mod 100 ≠ 0 ∨ year mod 400 = 0))
    | Raise e =>
        e = ValueError ∧ ¬ In (lower (strip month)) (GeneralHelper.month_days.*1)
    end.
Proof.
  intros _. split.
  { unfold GeneralHelper.get_days_in_month. by rewrite strip_upper, lower_upper. }
  split.
  { unfold GeneralHelper.get_days_in_month. by rewrite strip_idem. }
  unfold GeneralHelper.get_days_in_month.
  pose proof (leap_year_spec year) as Hleap.
  generalize (lower (strip month)). intros k.
  unfold GeneralHelper.month_days. cbn [GeneralHelper.dict_get].
  repeat match goal with
         | |- context [String.eqb k ?m] =>
             destruct (String.eqb_spec k m) as [->|?]
         end;
    try (cbn [andb String.eqb Ascii.eqb Bool.eqb]; split; [lia|]; split;
         [lia | intros [[=] _]]).
  - cbn [String.eqb Ascii.eqb Bool.eqb andb].
    destruct (GeneralHelper.is_leap_year year).
    + split; [lia|]. split; [intros _; split; [done|by apply Hleap]|done].
    + split; [lia|]. split; [lia|]. intros [_ H]. apply Hleap in H. done.
  - split; [done|]. simpl. intuition congruence.
Qed.

Lemma get_days_in_month_table_example :
  GeneralHelper.get_days_in_month (upper " February ") 2024
  = GeneralHelper.get_days_in_month " February " 2024
  ∧ GeneralHelper.get_days_in_month (strip " February ") 2024
    = GeneralHelper.get_days_in_month " February " 2024
  ∧ match GeneralHelper.get_days_in_month " February " 2024 with
    | Ok n =>
        28 ≤ n ≤ 31
        ∧ (n = 29 ↔ lower (strip " February ") = "february"
                    ∧ (2024 mod 4 = 0 ∧ 2024 mod 100 ≠ 0 ∨ 2024 mod 400 = 0))
    | Raise e =>
        e = ValueError
        ∧ ¬ In (lower (strip " February ")) (GeneralHelper.month_days.*1)
    end.
Proof. apply (get_days_in_month_table " February " 2024). reflexivity. Defined.

(** X2: for a month key that [validate_month_name] returns,
    [validate_day_in_month] accepts exactly the days from 1 to the length of
    that month in that year, and when it rejects a day it is never with its
    fallback message for a month it could not look up. *)
Theorem validate_day_in_month_exact month_name month_key year day :
  validate_month_name month_name = Ok month_key →
  ∃ num,
    month_to_number month_key = Ok num ∧ 1 ≤ num ≤ 12
    ∧ (validate_day_in_month month_key year day = Ok tt ↔ 1 ≤ day ≤ days_in year num)
    ∧ (∀ e, validate_day_in_month month_key year day = Raise e →
         e ≠ ValidationError "Could not validate the day for the given month/year.").
Proof.
  intros [_ Hkey]%validate_month_name_inv.
  destruct (month_tables month_key Hkey)
    as (anchor & num & _ & _ & Hnum & Hrange & _ & _ & Hdays).
  exists num. split; [done|]. split; [done|].
  unfold validate_day_in_month. rewrite Hdays. cbn [try_except mbind result_bind].
  destruct (Z.ltb_spec day 1); destruct (Z.ltb_spec (days_in year num) day);
    cbn [orb]; (split; [split; [try done; lia | try done; intros; lia]|]);
    intros e [= <-]; simpl; discriminate.
Qed.

Lemma validate_day_in_month_exact_example :
  ∃ num,
    month_to_number "FEBRUARY" = Ok num ∧ 1 ≤ num ≤ 12
    ∧ (validate_day_in_month "FEBRUARY" 2024 29 = Ok tt ↔ 1 ≤ 29 ≤ days_in 2024 num)
    ∧ (∀ e, validate_day_in_month "FEBRUARY" 2024 29 = Raise e →
         e ≠ ValidationError "Could not validate the day for the given month/year.").
Proof. apply (validate_day_in_month_exact " february "). reflexivity. Defined.

(** X3: for a month key of the template, a year from 1 to 9999 and a day
    that [validate_day_in_month] accepts, the text [date_to_string] builds is
    a date that [strptime] parses back to that year, month and day, that
    [validate_date_matches_month] accepts for the month, and whose day
    [extract_day] returns. *)
Theorem slot_date_is_valid month_key year day :
  str_in month_key _MONTH_KEYS = true →
  1 ≤ year ≤ 9999 →
  validate_day_in_month month_key year day = Ok tt →
  ∃ num date_str,
    month_to_number month_key = Ok num
    ∧ date_to_string year month_key day = Ok date_str
    ∧ strptime date_str = Ok (year, num, day)
    ∧ validate_date_matches_month month_key date_str year = Ok tt
    ∧ extract_day date_str = day.
Proof.
  intros Hkey Hyear Hday.
  destruct (month_tables month_key Hkey)
    as (anchor & num & _ & _ & Hnum & Hrange & Hget & _ & Hdays).
  pose proof (validate_day_in_month_inv _ _ _ _ (Hdays year) Hday) as Hd.
  pose proof (days_in_le_31 year num) as H31.
  exists num, (iso_date year num day). split; [done|].
  assert (strptime (iso_date year num day) = Ok (year, num, day)) as Hparse
    by (by apply strptime_iso_date).
  split; [unfold date_to_string; by rewrite Hnum|]. split; [done|]. split.
  - unfold validate_date_matches_month. rewrite Hparse, Hget.
    cbn [try_except mbind result_bind]. by rewrite !Z.eqb_refl.
  - apply extract_day_iso_date; lia.
Qed.

Lemma slot_date_is_valid_example :
  ∃ num date_str,
    month_to_number "FEBRUARY" = Ok num
    ∧ date_to_string 2024 "FEBRUARY" 29 = Ok date_str
    ∧ strptime date_str = Ok (2024, num, 29)
    ∧ validate_date_matches_month "FEBRUARY" date_str 2024 = Ok tt
    ∧ extract_day date_str = 29.
Proof. apply slot_date_is_valid; [reflexivity | lia | reflexivity]. Defined.

End Calendar.

(** ** The month blocks of the grid *)

Section Blocks.
Import ExcelLoader.

Local Ltac branch := solve [repeat split; first [reflexivity | lia]].
Local Ltac pick := first [left; branch | right; pick | branch].

Lemma block_cases key year day anchor num :
  str_in key _MONTH_KEYS = true →
  validate_day_in_month key year day = Ok tt →
  get_anchor_row key = Ok anchor →
  month_to_number key = Ok num →
  1 ≤ day
  ∧ (key = "JANUARY" ∧ anchor = 8 ∧ num = 1 ∧ day ≤ 31
     ∨ key = "FEBRUARY" ∧ anchor = 72 ∧ num = 2 ∧ day ≤ 29
     ∨ key = "MARCH" ∧ anchor = 132 ∧ num = 3 ∧ day ≤ 31
     ∨ key = "APRIL" ∧ anchor = 196 ∧ num = 4 ∧ day ≤ 30
     ∨ key = "MAY" ∧ anchor = 258 ∧ num = 5 ∧ day ≤ 31
     ∨ key = "JUNE" ∧ anchor = 322 ∧ num = 6 ∧ day ≤ 30
     ∨ key = "JULY" ∧ anchor = 384 ∧ num = 7 ∧ day ≤ 31
     ∨ key = "AUGUST" ∧ anchor = 448 ∧ num = 8 ∧ day ≤ 31
     ∨ key = "SEPTEMBER" ∧ anchor = 512 ∧ num = 9 ∧ day ≤ 30
     ∨ key = "OCTOBER" ∧ anchor = 574 ∧ num = 10 ∧ day ≤ 31
     ∨ key = "NOVEMBER" ∧ anchor = 638 ∧ num = 11 ∧ day ≤ 30
     ∨ key = "DECEMBER" ∧ anchor = 700 ∧ num = 12 ∧ day ≤ 31).
Proof.
  intros Hkey Hday Hanchor Hnum.
  destruct (month_tables key Hkey) as (a & n & Ha & _ & Hn & _ & _ & _ & Hdays).
  pose proof (validate_day_in_month_inv _ _ _ _ (Hdays year) Hday) as Hd.
  rewrite Hanchor in Ha. rewrite Hnum in Hn. injection Ha as <-. injection Hn as <-.
  split; [lia|].
  assert (days_in year 2 ≤ 29) as Hfeb
    by (unfold days_in; simpl; destruct (GeneralHelper.is_leap_year year); lia).
  apply month_key_cases in Hkey. simpl in Hkey.
  destruct_or!; try done; subst key; injection Hanchor as <-; injection Hnum as <-;
    unfold days_in in Hd; simpl in Hd; unfold days_in in Hfeb; simpl in Hfeb; pick.
Qed.

(** X4: the rows of two valid slots, of any two months and years, are the
    same row only for the same month, day and slot; the rows of an earlier
    month lie above those of a later one, and every slot row lies between
    rows 10 and 763, below the cells of the marker, the income and the
    year. *)
Theorem month_blocks_disjoint key1 key2 y1 y2 d1 d2 s1 s2 a1 a2 n1 n2 r1 r2 :
  str_in key1 _MONTH_KEYS = true → str_in key2 _MONTH_KEYS = true →
  validate_day_in_month key1 y1 d1 = Ok tt →
  validate_day_in_month key2 y2 d2 = Ok tt →
  get_anchor_row key1 = Ok a1 → get_anchor_row key2 = Ok a2 →
  month_to_number key1 = Ok n1 → month_to_number key2 = Ok n2 →
  row_for_day a1 d1 s1 = Ok r1 → row_for_day a2 d2 s2 = Ok r2 →
  10 ≤ r1 ≤ 763
  ∧ (n1 < n2 → r1 < r2)
  ∧ (r1 = r2 → key1 = key2 ∧ d1 = d2 ∧ s1 = s2).
Proof.
  intros Hk1 Hk2 Hd1 Hd2 Ha1 Ha2 Hn1 Hn2 Hr1 Hr2.
  apply row_for_day_inv in Hr1 as (_ & Hs1 & ->).
  apply row_for_day_inv in Hr2 as (_ & Hs2 & ->).
  destruct (block_cases _ _ _ _ _ Hk1 Hd1 Ha1 Hn1) as [Hp1 Hc1].
  destruct (block_cases _ _ _ _ _ Hk2 Hd2 Ha2 Hn2) as [Hp2 Hc2].
  clear Hk1 Hk2 Hd1 Hd2 Ha1 Ha2 Hn1 Hn2.
  assert (8 ≤ a1 ≤ 700 ∧ a1 + 2 * d1 ≤ 762) as Hb1 by (destruct_or!; lia).
  split; [lia|]. split.
  - intros Hlt. destruct_or! Hc1; destruct Hc1 as (_ & -> & -> & ?);
      destruct_or! Hc2; destruct Hc2 as (_ & -> & -> & ?); lia.
  - intros Heq. destruct_or! Hc1; destruct Hc1 as (-> & -> & _ & ?);
      destruct_or! Hc2; destruct Hc2 as (-> & -> & _ & ?);
      first [lia | (split; [done|lia])].
Qed.

Lemma month_blocks_disjoint_example :
  10 ≤ 131 ≤ 763
  ∧ (2 < 3 → 131 < 134)
  ∧ (131 = 134 → "FEBRUARY" = "MARCH" ∧ 29 = 1 ∧ 1 = 0).
Proof.
  apply (month_blocks_disjoint "FEBRUARY" "MARCH" 2024 2023 29 1 1 0 72 132 2 3);
    reflexivity.
Defined.

End Blocks.

(** ** What a write changes and what it leaves *)

Section WriteFrame.
Import ExcelLoader.

Lemma ensure_open_frame self ws ws' :
  _ws self = Some ws → ensure_open (after_write self ws') = ensure_open self.
Proof. intros H. unfold ensure_open, after_write. simpl. rewrite H. by destruct (_wb self). Qed.

Lemma verify_template_frame self ws ws' :
  _ws self = Some ws → ws' !! TEMPLATE_MARKER_CELL = ws !! TEMPLATE_MARKER_CELL →
  verify_template (after_write self ws') = verify_template self.
Proof.
  intros H Hc. unfold verify_template. rewrite (ensure_open_frame self ws) by done.
  unfold sheet. simpl. by rewrite H, Hc.
Qed.

Lemma get_year_frame self ws ws' :
  _ws self = Some ws → ws' !! YEAR_CELL = ws !! YEAR_CELL →
  get_year (after_write self ws') = get_year self.
Proof.
  intros H Hc. unfold get_year. rewrite (ensure_open_frame self ws) by done.
  unfold sheet. simpl. by rewrite H, Hc.
Qed.

Lemma get_current_income_frame self ws ws' :
  _ws self = Some ws → ws' !! CURRENT_INCOME_CELL = ws !! CURRENT_INCOME_CELL →
  get_current_income (after_write self ws') = get_current_income self.
Proof.
  intros H Hc. unfold get_current_income. rewrite (ensure_open_frame self ws) by done.
  unfold sheet. simpl. by rewrite H, Hc.
Qed.

Lemma cleared_other_cols ws row c :
  ¬ In c (COL.*2) → cleared ws row !! (row, c) = ws !! (row, c).
Proof.
  intros Hc. unfold cleared. simpl in Hc.
  rewrite lookup_insert_ne by (intros [= <-]; tauto).
  rewrite !lookup_delete_ne by (intros [= <-]; tauto). done.
Qed.

Lemma written_other_cols k ws row tx c :
  ¬ In c (COL.*2) → written_cells k ws row tx !! (row, c) = ws !! (row, c).
Proof.
  intros Hc. unfold written_cells. simpl in Hc.
  destruct k as [|[|[|[|[|[|k]]]]]]; cbn [firstn foldl fst snd];
    rewrite ?firstn_nil; cbn [foldl fst snd];
    by rewrite ?lookup_insert_ne by (intros [= <-]; tauto).
Qed.

Lemma written_cells_date k ws row tx :
  (1 ≤ k)%nat →
  written_cells k ws row tx !! (row, 1) = Some (CInt (extract_day (Transaction.date tx))).
Proof.
  intros Hk. unfold written_cells.
  destruct k as [|[|[|[|[|[|k]]]]]]; [lia|..]; cbn [firstn foldl fst snd];
    rewrite ?firstn_nil; cbn [foldl fst snd];
    rewrite ?lookup_insert_ne by done; by rewrite lookup_insert_eq.
Qed.

Lemma written_cells_description k ws row tx :
  (k ≤ 5)%nat → written_cells k ws row tx !! (row, 11) = ws !! (row, 11).
Proof.
  intros Hk. unfold written_cells.
  destruct k as [|[|[|[|[|[|k]]]]]]; [..|lia]; cbn [firstn foldl fst snd];
    by rewrite ?lookup_insert_ne by done.
Qed.

Lemma cells_accepted_cases tx :
  let all := accepted (Transaction.day tx) && accepted (Transaction.category tx)
             && accepted (upper (Transaction.type tx))
             && accepted (Transaction.description tx) in
  (cells_accepted tx = 6%nat ∧ all = true)
  ∨ ((1 ≤ cells_accepted tx ≤ 5)%nat ∧ all = false).
Proof.
  unfold cells_accepted.
  destruct (accepted (Transaction.day tx)); cbn; [|right; split; [lia|done]].
  destruct (accepted (Transaction.category tx)); cbn; [|right; split; [lia|done]].
  destruct (accepted (upper (Transaction.type tx))); cbn; [|right; split; [lia|done]].
  destruct (accepted (Transaction.description tx)); cbn; [|right; split; [lia|done]].
  by left.
Qed.

(** The errors of the checks that come before the first cell is written:
    none is the error of a text that a cell refuses. *)
Lemma get_year_error self e : get_year self = Raise e → e ≠ IllegalCharacterError.
Proof.
  unfold get_year, ensure_open, sheet.
  destruct (_wb self), (_ws self) as [ws|]; cbn [mbind result_bind];
    try (by intros [= <-]).
  destruct (ws !! YEAR_CELL) as [[s|n|x|b]|]; cbn [float_of mbind result_bind].
  - destruct (float_of_str s) as [x|e'] eqn:E; cbn [mbind result_bind].
    + destruct x; cbn; by intros [= <-].
    + rewrite (float_of_str_raises _ _ E). by intros [= <-].
  - unfold float_of_int. destruct (overflows _ _); cbn; by intros [= <-].
  - destruct x; cbn; by intros [= <-].
  - done.
  - by intros [= <-].
Qed.

Lemma validate_month_name_error month_name e :
  validate_month_name month_name = Raise e → e ≠ IllegalCharacterError.
Proof. unfold validate_month_name. repeat case_match; by intros [= <-]. Qed.

Lemma validate_day_in_month_error month_key year day e :
  validate_day_in_month month_key year day = Raise e → e ≠ IllegalCharacterError.
Proof.
  unfold validate_day_in_month.
  destruct (GeneralHelper.get_days_in_month month_key year);
    cbn [try_except mbind result_bind]; [|by intros [= <-]].
  destruct (_ || _); by intros [= <-].
Qed.

Lemma validate_slot_index_error slot_index e :
  validate_slot_index slot_index = Raise e → e ≠ IllegalCharacterError.
Proof. unfold validate_slot_index. destruct (negb _); by intros [= <-]. Qed.

Lemma validate_transaction_or_none_error tx e :
  validate_transaction_or_none tx = Raise e → e ≠ IllegalCharacterError.
Proof.
  destruct tx as [t|]; [|done]. unfold validate_transaction_or_none.
  destruct (float_ltb _ _); [by intros [= <-]|].
  destruct (negb (str_in _ _)); [by intros [= <-]|].
  destruct (is_empty (strip (Transaction.category t))); [by intros [= <-]|].
  destruct (is_empty (strip (Transaction.date t))); [by intros [= <-]|].
  destruct (strptime _); cbn [try_except mbind result_bind]; by intros [= <-].
Qed.

Lemma validate_date_matches_month_error month_key date_str year e :
  validate_date_matches_month month_key date_str year = Raise e →
  e ≠ IllegalCharacterError.
Proof.
  unfold validate_date_matches_month.
  destruct (strptime date_str) as [[[dy dm] dd]|]; cbn [try_except mbind result_bind];
    [|by intros [= <-]].
  destruct (GeneralHelper.dict_get _ _); [|by intros [= <-]].
  destruct (_ || _); by intros [= <-].
Qed.

Lemma write_day_entry_outcome month_name day slot_index tx self :
  (∃ e, write_day_entry month_name day slot_index tx self = (self, Raise e)
        ∧ e ≠ IllegalCharacterError)
  ∨ (∃ ws month_key year anchor row,
       _ws self = Some ws
       ∧ validate_month_name month_name = Ok month_key
       ∧ get_year self = Ok year
       ∧ validate_day_in_month month_key year day = Ok tt
       ∧ validate_slot_index slot_index = Ok tt
       ∧ validate_transaction_or_none tx = Ok tt
       ∧ (∀ t, tx = Some t →
            validate_date_matches_month month_key (Transaction.date t) year = Ok tt)
       ∧ get_anchor_row month_key = Ok anchor
       ∧ row_for_day anchor day slot_index = Ok row
       ∧ write_day_entry month_name day slot_index tx self
         = (after_write self (slot_written ws row tx), write_outcome tx)).
Proof.
  destruct (ensure_open self) as [[]|e0] eqn:E0.
  2:{ left. exists e0. split; [unfold write_day_entry, bind, reads; by rewrite E0|].
      revert E0. unfold ensure_open. by repeat case_match; intros [= <-]. }
  destruct (ensure_open_inv _ E0) as (wb & ws & Hwb & Hws).
  destruct (validate_month_name month_name) as [month_key|e1] eqn:E1.
  2:{ left. exists e1. split; [|by apply validate_month_name_error in E1].
      unfold write_day_entry, bind, reads, lift; by rewrite E0, E1. }
  destruct (get_year self) as [year|e2] eqn:E2.
  2:{ left. exists e2. split; [|by apply get_year_error in E2].
      unfold write_day_entry, bind, reads, lift; by rewrite E0, E1, E2. }
  destruct (validate_day_in_month month_key year day) as [[]|e3] eqn:E3.
  2:{ left. exists e3. split; [|by apply validate_day_in_month_error in E3].
      unfold write_day_entry, bind, reads, lift; by rewrite E0, E1, E2, E3. }
  destruct (validate_slot_index slot_index) as [[]|e4] eqn:E4.
  2:{ left. exists e4. split; [|by apply validate_slot_index_error in E4].
      unfold write_day_entry, bind, reads, lift; by rewrite E0, E1, E2, E3, E4. }
  destruct (validate_transaction_or_none tx) as [[]|e5] eqn:E5.
  2:{ left. exists e5. split; [|by apply validate_transaction_or_none_error in E5].
      unfold write_day_entry, bind, reads, lift; by rewrite E0, E1, E2, E3, E4, E5. }
  assert (∃ anchor row, get_anchor_row month_key = Ok anchor
                        ∧ row_for_day anchor day slot_index = Ok row)
    as (anchor & row & Ha & Hr).
  { destruct (valid_target _ _ _ _ _ _ E1 E2 E3 E4)
      as (? & anchor & ? & _ & Ha & _ & _ & _ & _ & _ & _ & _ & Hr).
    eauto. }
  destruct tx as [t|].
  - destruct (validate_date_matches_month month_key (Transaction.date t) year)
      as [[]|e6] eqn:E6.
    + right. exists ws, month_key, year, anchor, row.
      repeat (split; [done|]). split; [by intros ? [= <-]|].
      repeat (split; [done|]). by apply (write_day_entry_Some _ _ _ month_key year _ _ anchor).
    + left. exists e6. split; [|by apply validate_date_matches_month_error in E6].
      unfold write_day_entry, bind, reads, lift.
      rewrite E0, E1, E2, E3, E4, E5. cbv beta iota. by rewrite E6.
  - right. exists ws, month_key, year, anchor, row.
    repeat (split; [done|]). by apply (write_day_entry_None _ _ _ month_key year _ _ anchor).
Qed.

(** X5: a [write_day_entry] that raises has left the adapter as it was,
    every check being made before the first cell is written, unless the
    error is that of a text which a cell refuses. That error is raised for a
    record only, one of whose texts holds, within its first 32767
    characters, a control character other than TAB, LF and CR; the cells of
    the record before that text are then written: the date cell of the row
    holds the day of the new record, while the description cell and the
    other rows are as before. *)
Theorem write_day_entry_failure month_name day slot_index tx self self' e :
  write_day_entry month_name day slot_index tx self = (self', Raise e) →
  (e ≠ IllegalCharacterError → self' = self)
  ∧ (e = IllegalCharacterError →
     ∃ t ws ws' month_key anchor row,
       tx = Some t
       ∧ accepted (Transaction.day t) && accepted (Transaction.category t)
         && accepted (upper (Transaction.type t)) && accepted (Transaction.description t)
         = false
       ∧ _ws self = Some ws ∧ _ws self' = Some ws'
       ∧ validate_month_name month_name = Ok month_key
       ∧ get_anchor_row month_key = Ok anchor
       ∧ row_for_day anchor day slot_index = Ok row
       ∧ ws' !! (row, col "DATE") = Some (CInt (extract_day (Transaction.date t)))
       ∧ ws' !! (row, col "DESCRIPTION") = ws !! (row, col "DESCRIPTION")
       ∧ (∀ r c, r ≠ row → ws' !! (r, c) = ws !! (r, c))).
Proof.
  destruct (write_day_entry_outcome month_name day slot_index tx self)
    as [(e' & -> & He')|(ws & month_key & year & anchor & row & Hws & Hm & _ & _ & _ & _
                         & _ & Ha & Hr & ->)].
  { intros [= <-]. split; [done|]. by intros ->. }
  destruct tx as [t|]; [|done]. unfold write_outcome, slot_written.
  destruct (cells_accepted_cases t) as [[-> _]|[Hk Hall]]; [done|].
  destruct (Nat.eqb_spec (cells_accepted t) 6) as [|_]; [lia|].
  intros [= <- <-]. split; [done|]. intros _.
  exists t, ws, (written_cells (cells_accepted t) ws row t), month_key, anchor, row.
  repeat (split; [done|]).
  split; [apply written_cells_date; lia|].
  split; [apply written_cells_description; lia|].
  intros r c Hne. by apply written_other_rows.
Qed.

Lemma write_day_entry_failure_example :
  (IllegalCharacterError ≠ IllegalCharacterError → bell_loader = example_loader)
  ∧ (IllegalCharacterError = IllegalCharacterError →
     ∃ t ws ws' month_key anchor row,
       Some bell_record = Some t
       ∧ accepted (Transaction.day t) && accepted (Transaction.category t)
         && accepted (upper (Transaction.type t)) && accepted (Transaction.description t)
         = false
       ∧ _ws example_loader = Some ws ∧ _ws bell_loader = Some ws'
       ∧ validate_month_name "january" = Ok month_key
       ∧ get_anchor_row month_key = Ok anchor
       ∧ row_for_day anchor 5 1 = Ok row
       ∧ ws' !! (row, col "DATE") = Some (CInt (extract_day (Transaction.date t)))
       ∧ ws' !! (row, col "DESCRIPTION") = ws !! (row, col "DESCRIPTION")
       ∧ (∀ r c, r ≠ row → ws' !! (r, c) = ws !! (r, c))).
Proof.
  apply (write_day_entry_failure "january" 5 1 (Some bell_record) example_loader).
  by vm_compute.
Defined.

(** X6: a [write_day_entry] that returns has written one row, from row 10
    on: every cell of another row, and every cell of that row outside the
    six tracked columns, is as before, and so are the backing path, the
    template check, the year and the current income. *)
Theorem write_day_entry_frame month_name day slot_index tx self self' :
  write_day_entry month_name day slot_index tx self = (self', Ok tt) →
  ∃ ws ws' month_key anchor row,
    _ws self = Some ws ∧ _ws self' = Some ws'
    ∧ validate_month_name month_name = Ok month_key
    ∧ get_anchor_row month_key = Ok anchor
    ∧ row_for_day anchor day slot_index = Ok row
    ∧ 10 ≤ row
    ∧ (∀ r c, r ≠ row ∨ ¬ In c (COL.*2) → ws' !! (r, c) = ws !! (r, c))
    ∧ _path self' = _path self
    ∧ verify_template self' = verify_template self
    ∧ get_year self' = get_year self
    ∧ get_current_income self' = get_current_income self.
Proof.
  destruct (write_day_entry_outcome month_name day slot_index tx self)
    as [(e' & -> & _)|(ws & month_key & year & anchor & row & Hws & Hm & Hy & Hd & Hs & _
                       & _ & Ha & Hr & ->)]; [done|].
  intros [= <- _].
  destruct (valid_target _ _ _ _ _ _ Hm Hy Hd Hs)
    as (? & anchor' & ? & _ & Ha' & Hge & _ & _ & _ & _ & Hday & Hslot & Hr').
  rewrite Ha in Ha'. injection Ha' as <-. rewrite Hr in Hr'. injection Hr' as ->.
  assert (∀ r c, r ≠ anchor + 2 + (day - 1) * 2 + slot_index ∨ ¬ In c (COL.*2) →
            slot_written ws (anchor + 2 + (day - 1) * 2 + slot_index) tx !! (r, c)
            = ws !! (r, c)) as Hframe.
  { intros r c [Hne|Hc].
    - destruct tx; [by apply written_other_rows | by apply cleared_other_rows].
    - destruct (decide (r = anchor + 2 + (day - 1) * 2 + slot_index)) as [->|Hne].
      + destruct tx; [by apply written_other_cols | by apply cleared_other_cols].
      + destruct tx; [by apply written_other_rows | by apply cleared_other_rows]. }
  eexists ws, _, month_key, anchor, _. split; [done|]. split; [reflexivity|].
  split; [done|]. split; [done|]. split; [done|]. split; [lia|]. split; [exact Hframe|].
  split; [done|]. split; [|split].
  - apply (verify_template_frame self ws); [done|]. apply Hframe. left.
    unfold TEMPLATE_MARKER_CELL. simpl. lia.
  - apply (get_year_frame self ws); [done|]. apply Hframe. left. simpl. lia.
  - apply (get_current_income_frame self ws); [done|]. apply Hframe. left. simpl. lia.
Qed.

Lemma write_day_entry_frame_example :
  ∃ ws ws' month_key anchor row,
    _ws example_loader = Some ws ∧ _ws written_loader = Some ws'
    ∧ validate_month_name "january" = Ok month_key
    ∧ get_anchor_row month_key = Ok anchor
    ∧ row_for_day anchor 5 1 = Ok row
    ∧ 10 ≤ row
    ∧ (∀ r c, r ≠ row ∨ ¬ In c (COL.*2) → ws' !! (r, c) = ws !! (r, c))
    ∧ _path written_loader = _path example_loader
    ∧ verify_template written_loader = verify_template example_loader
    ∧ get_year written_loader = get_year example_loader
    ∧ get_current_income written_loader = get_current_income example_loader.
Proof.
  apply (write_day_entry_frame "january" 5 1 (Some example_record) example_loader).
  by vm_compute.
Defined.

End WriteFrame.

(** ** The year and the income *)

Section FixedFields.
Import ExcelLoader.

Lemma year_fits year : 1900 ≤ year ≤ 2100 → float_of_int year = Ok (FFin (10 * year) 0).
Proof.
  intros H. unfold float_of_int, overflows.
  assert (21000 < float_overflow_bound * pow10 1) as Hb by (by vm_compute).
  destruct (Z.leb_spec (float_overflow_bound * pow10 1) (Z.abs (10 * year))); [lia|done].
Qed.

(** X7: on an open workbook, [set_year] with a year from 1900 to 2100
    succeeds and [get_year] then returns that year, the current income, the
    template check and the backing path being as before; with any other year
    it raises the range error and leaves the adapter unchanged. *)
Theorem set_year_then_get_year self year :
  ensure_open self = Ok tt →
  (1900 ≤ year ≤ 2100 →
     ∃ self', set_year year self = (self', Ok tt)
       ∧ get_year self' = Ok year
       ∧ get_current_income self' = get_current_income self
       ∧ verify_template self' = verify_template self
       ∧ _path self' = _path self)
  ∧ (¬ 1900 ≤ year ≤ 2100 →
     set_year year self
     = (self, Raise (ValidationError "Year must be between 1900 and 2100."))).
Proof.
  intros Ho. destruct (ensure_open_inv _ Ho) as (wb & ws & Hwb & Hws).
  unfold set_year, bind, lift, reads, validate_year_value. split; intros Hy.
  - destruct (Z.ltb_spec year 1900); [lia|]. destruct (Z.ltb_spec 2100 year); [lia|].
    cbn [orb]. rewrite Ho. rewrite (write_cell_open self ws) by done.
    eexists. split; [reflexivity|]. split; [|split; [|split]].
    + unfold get_year. rewrite (ensure_open_frame self ws), Ho by done.
      unfold sheet, after_write, set_cell_value, YEAR_CELL. cbn.
      rewrite lookup_insert_eq. cbn. rewrite year_fits by done. cbn.
      f_equal. change (pow10 1) with 10. rewrite Z.mul_comm. apply Z.quot_mul. lia.
    + apply (get_current_income_frame self ws); [done|]. by apply lookup_insert_ne.
    + apply (verify_template_frame self ws); [done|]. by apply lookup_insert_ne.
    + done.
  - destruct (Z.ltb_spec year 1900); [done|]. destruct (Z.ltb_spec 2100 year); [done|lia].
Qed.

Lemma set_year_then_get_year_example :
  (1900 ≤ 2030 ≤ 2100 →
     ∃ self', set_year 2030 example_loader = (self', Ok tt)
       ∧ get_year self' = Ok 2030
       ∧ get_current_income self' = get_current_income example_loader
       ∧ verify_template self' = verify_template example_loader
       ∧ _path self' = _path example_loader)
  ∧ (¬ 1900 ≤ 2030 ≤ 2100 →
     set_year 2030 example_loader
     = (example_loader, Raise (ValidationError "Year must be between 1900 and 2100."))).
Proof. apply (set_year_then_get_year example_loader 2030). reflexivity. Defined.

(** X8: on an open workbook, [set_current_income] with an amount that is
    not below zero succeeds and [get_current_income] then returns that
    amount, the year, the template check and the backing path being as
    before; with an amount below zero it raises and leaves the adapter
    unchanged. *)
Theorem set_income_then_get_income self income :
  ensure_open self = Ok tt →
  float_in_range income = true →
  (float_ltb income float_zero = false →
     ∃ self', set_current_income income self = (self', Ok tt)
       ∧ get_current_income self' = Ok income
       ∧ get_year self' = get_year self
       ∧ verify_template self' = verify_template self
       ∧ _path self' = _path self)
  ∧ (float_ltb income float_zero = true →
     set_current_income income self
     = (self, Raise (ValidationError "Income must be non-negative."))).
Proof.
  intros Ho Hr. destruct (ensure_open_inv _ Ho) as (wb & ws & Hwb & Hws).
  unfold set_current_income, bind, lift, reads, validate_income_value.
  split; intros Hy; rewrite Hy; [|done].
  rewrite Ho. rewrite (write_cell_open self ws) by done.
  eexists. split; [reflexivity|]. split; [|split; [|split]].
  - unfold get_current_income. rewrite (ensure_open_frame self ws), Ho by done.
    unfold sheet, after_write, set_cell_value, CURRENT_INCOME_CELL. cbn.
    rewrite lookup_insert_eq. by apply to_float_float.
  - apply (get_year_frame self ws); [done|]. by apply lookup_insert_ne.
  - apply (verify_template_frame self ws); [done|]. by apply lookup_insert_ne.
  - done.
Qed.

Lemma set_income_then_get_income_example :
  (float_ltb (FFin 25005 1) float_zero = false →
     ∃ self', set_current_income (FFin 25005 1) example_loader = (self', Ok tt)
       ∧ get_current_income self' = Ok (FFin 25005 1)
       ∧ get_year self' = get_year example_loader
       ∧ verify_template self' = verify_template example_loader
       ∧ _path self' = _path example_loader)
  ∧ (float_ltb (FFin 25005 1) float_zero = true →
     set_current_income (FFin 25005 1) example_loader
     = (example_loader, Raise (ValidationError "Income must be non-negative."))).
Proof.
  apply (set_income_then_get_income example_loader (FFin 25005 1)); reflexivity.
Defined.
End FixedFields.

(** ** The shape of what is read *)

Section Shapes.
Import ExcelLoader.

Lemma read_days_shape self month_key year anchor ds : ∀ result,
  read_days self month_key year anchor ds = Ok result →
  result.*1 = ds ∧ Forall (λ entry, length entry.2 = 2%nat) result.
Proof.
  induction ds as [|d rest IH]; intros result; cbn [read_days].
  - by intros [= <-].
  - destruct (row_for_day anchor d 0) as [row|]; [|done]. cbn [mbind result_bind].
    destruct (read_row_as_transaction self month_key year d row) as [slot0|]; [|done].
    destruct (read_row_as_transaction self month_key year d (row + 1)) as [slot1|]; [|done].
    destruct (read_days self month_key year anchor rest) as [r|]; [|done].
    intros [= <-]. destruct (IH r eq_refl) as [IH1 IH2]. split.
    + cbn. by rewrite IH1.
    + by constructor.
Qed.

(** X9: what [read_month] returns has one entry for each day of the month,
    from 1 to the length of the month in the workbook's year and in that
    order, and every entry holds exactly two slots. *)
Theorem read_month_shape self month_name result :
  read_month self month_name = Ok result →
  ∃ month_key year day_count,
    validate_month_name month_name = Ok month_key
    ∧ get_year self = Ok year
    ∧ GeneralHelper.get_days_in_month month_key year = Ok day_count
    ∧ 28 ≤ day_count ≤ 31
    ∧ result.*1 = seqZ 1 day_count
    ∧ Forall (λ entry, length entry.2 = 2%nat) result.
Proof.
  unfold read_month.
  destruct (ensure_open self) as [[]|]; [|done]. cbn [mbind result_bind].
  destruct (validate_month_name month_name) as [month_key|] eqn:Em;
    cbn [mbind result_bind]; [|done].
  destruct (get_anchor_row month_key) as [anchor|]; cbn [mbind result_bind]; [|done].
  destruct (get_year self) as [year|] eqn:Ey; cbn [mbind result_bind]; [|done].
  destruct (GeneralHelper.get_days_in_month month_key year) as [day_count|] eqn:Ed;
    cbn [mbind result_bind]; [|done].
  intros [H1 H2]%read_days_shape. exists month_key, year, day_count.
  repeat (split; [done|]). split; [|done].
  apply validate_month_name_inv in Em as [_ Hk].
  destruct (month_tables month_key Hk) as (? & num & _ & _ & _ & Hn & _ & _ & Hdays).
  rewrite Hdays in Ed. injection Ed as <-. unfold days_in.
  repeat case_match; lia.
Qed.

Lemma read_month_shape_example :
  ∃ month_key year day_count,
    validate_month_name "February" = Ok month_key
    ∧ get_year example_loader = Ok year
    ∧ GeneralHelper.get_days_in_month month_key year = Ok day_count
    ∧ 28 ≤ day_count ≤ 31
    ∧ february_rows.*1 = seqZ 1 day_count
    ∧ Forall (λ entry, length entry.2 = 2%nat) february_rows.
Proof.
  apply (read_month_shape example_loader "February"). by vm_compute.
Defined.

Lemma read_months_shape self months : ∀ data,
  read_months self months = Ok data →
  data.*1 = months
  ∧ ∀ month_key days, In (month_key, days) data → read_month self month_key = Ok days.
Proof.
  induction months as [|m rest IH]; intros data; cbn [read_months].
  - intros [= <-]. split; [done|]. by intros ? ? [].
  - destruct (read_month self m) as [days|] eqn:Em; [|done]. cbn [mbind result_bind].
    destruct (read_months self rest) as [r|]; [|done]. intros [= <-].
    destruct (IH r eq_refl) as [IH1 IH2]. split; [cbn; by rewrite IH1|].
    intros month_key days' [[= <- <-]|Hin]; [done|by apply IH2].
Qed.

(** X10: what [read_all] returns has the twelve months of the template, in
    template order, and under each month what [read_month] returns for it. *)
Theorem read_all_shape self data :
  read_all self = Ok data →
  data.*1 = months_in_order
  ∧ ∀ month_key days, In (month_key, days) data → read_month self month_key = Ok days.
Proof.
  unfold read_all. destruct (ensure_open self) as [[]|]; [|done].
  apply read_months_shape.
Qed.

Lemma read_all_shape_example :
  example_year.*1 = months_in_order
  ∧ ∀ month_key days,
      In (month_key, days) example_year → read_month example_loader month_key = Ok days.
Proof. apply (read_all_shape example_loader). by vm_compute. Defined.

(** X11: once [close] was called the adapter has no path, and every read,
    write and save raises the workbook-is-not-open error, leaving the adapter
    and the files as they are. *)
Theorem closed_adapter_rejects_io self fs month_name day slot_index tx data backup_dir now :
  let closed := (close self).1 in
  let not_open := ValidationError "Workbook is not open. Call open(file_path) first." in
  get_path closed = None
  ∧ verify_template closed = Raise not_open
  ∧ get_year closed = Raise not_open
  ∧ get_current_income closed = Raise not_open
  ∧ read_month closed month_name = Raise not_open
  ∧ read_all closed = Raise not_open
  ∧ write_day_entry month_name day slot_index tx closed = (closed, Raise not_open)
  ∧ write_all data closed = (closed, Raise not_open)
  ∧ save (closed, fs) = ((closed, fs), Raise not_open)
  ∧ save_backup backup_dir now (closed, fs) = ((closed, fs), Raise not_open).
Proof. repeat split. Qed.
End Shapes.

(** ** Amounts as text *)

Section Coercion.
Import ExcelLoader.

(** X12: [to_float] does not raise on a value that [str] prints, that is
    on any value but an [int] of more than 4300 digits: it returns a float,
    0.0 for [None] and for a value whose text is blank, and the amount itself
    for the text of an amount with a dollar sign in front. *)
Theorem to_float_never_raises :
  (∀ raw, printable raw = true → ∃ x, to_float raw = Ok x)
  ∧ (∀ raw, raw = None ∨ is_empty (strip (str_opt raw)) = true →
       to_float raw = Ok float_zero)
  ∧ (∀ x, float_in_range x = true →
       to_float (Some (CStr (String "$" (float_str x)))) = Ok x).
Proof.
  split; [intros raw _; rewrite to_float_total; eauto|]. split.
  - intros [v|]; [|done]. unfold to_float, str_opt. by intros [[=]| ->].
  - intros x Hx. pose proof (float_of_str_float_str x Hx) as Hparse.
    unfold to_float. cbn [str]. destruct x as [|[]|m p]; [done..|].
    pose proof (numeric_float_str m p) as Hnum.
    assert (strip (String "$" (float_str (FFin m p))) = String "$" (float_str (FFin m p)))
      as ->.
    { unfold strip. cbn [rstrip]. rewrite (rstrip_numeric _ Hnum).
      change (is_space "$") with false. cbn [andb lstrip].
      by change (is_space "$") with false. }
    cbn [is_empty replace]. change (Ascii.eqb "$" "$") with true. cbv iota.
    cbn [String.append]. rewrite (replace_numeric "$"%char _ Hnum) by (by left).
    change (EmptyString +:+ float_str (FFin m p)) with (float_str (FFin m p)).
    rewrite (replace_numeric ","%char _ Hnum) by (by right).
    by rewrite Hparse.
Qed.
End Coercion.

(** ** Text: prefixes, suffixes and runs of digits *)

Section Text.

Lemma app_nil_s (b : string) : EmptyString +:+ b = b.
Proof. done. Qed.

Lemma app_cons_s x (a b : string) : String x a +:+ b = String x (a +:+ b).
Proof. done. Qed.

Lemma app_assoc_s (a b c : string) : (a +:+ b) +:+ c = a +:+ (b +:+ c).
Proof. induction a as [|x a IH]; [done|]. by rewrite !app_cons_s, IH. Qed.

Lemma startswith_app a b : startswith (a +:+ b) a = true.
Proof.
  induction a as [|x a IH]; [rewrite app_nil_s; by destruct b|].
  rewrite app_cons_s. cbn [startswith]. by rewrite Ascii.eqb_refl, IH.
Qed.

Lemma drop_prefix_app a b : drop_prefix (a +:+ b) a = b.
Proof. induction a as [|x a IH]; [by destruct b|]. by rewrite app_cons_s. Qed.

Lemma lower_app a b : lower (a +:+ b) = lower a +:+ lower b.
Proof.
  induction a as [|x a IH]; [done|]. rewrite app_cons_s. cbn [lower].
  by rewrite app_cons_s, IH.
Qed.

Lemma contains_app c a b : contains c (a +:+ b) = contains c a || contains c b.
Proof.
  induction a as [|x a IH]; [done|]. rewrite app_cons_s. cbn [contains].
  by rewrite IH, orb_assoc.
Qed.

Lemma rev_app_app a b acc :
  String.rev_app (a +:+ b) acc = String.rev_app b (String.rev_app a acc).
Proof.
  revert acc. induction a as [|x a IH]; intros acc; [done|].
  rewrite app_cons_s. cbn [String.rev_app]. by rewrite IH.
Qed.

Lemma rev_app_acc a : ∀ acc, String.rev_app a acc = String.rev_app a EmptyString +:+ acc.
Proof.
  induction a as [|x a IH]; intros acc; [done|]. cbn [String.rev_app].
  rewrite IH, (IH (String x EmptyString)), app_assoc_s. done.
Qed.

Lemma endswith_app a b : endswith (a +:+ b) b = true.
Proof.
  unfold endswith, String.rev. rewrite rev_app_app, rev_app_acc. apply startswith_app.
Qed.

Lemma substring_app a b : String.substring 0 (String.length a) (a +:+ b) = a.
Proof.
  induction a as [|x a IH]; [by destruct b|]. rewrite app_cons_s.
  cbn [String.length String.substring]. by rewrite IH.
Qed.

Lemma digit_chars_absent c s :
  is_digit c = false → all_chars is_digit s = true → contains c s = false.
Proof.
  intros Hc. induction s as [|x s IH]; [done|]. cbn.
  intros [Hx Hs]%andb_prop. rewrite (IH Hs), orb_false_r.
  destruct (Ascii.eqb_spec x c) as [->|]; [congruence|done].
Qed.

Lemma digits_fixed_digits k : ∀ n acc,
  all_chars is_digit acc = true → all_chars is_digit (fixed_digits k n acc) = true.
Proof.
  induction k as [|k IH]; intros n acc Hacc; cbn [fixed_digits]; [done|].
  apply IH. cbn. rewrite Hacc. by destruct (digit_char_spec (n mod 10) (mod10_digit n)) as [-> _].
Qed.

Lemma digits_digits_fuel f : ∀ n acc,
  all_chars is_digit acc = true → all_chars is_digit (digits_fuel f n acc) = true.
Proof.
  induction f as [|f IH]; intros n acc Hacc; cbn [digits_fuel]; [done|].
  assert (all_chars is_digit (String (digit_char (n mod 10)) acc) = true) as Hd.
  { cbn. rewrite Hacc. by destruct (digit_char_spec (n mod 10) (mod10_digit n)) as [-> _]. }
  destruct (n / 10 =? 0); [done|]. by apply IH.
Qed.

Lemma digits_numeric s : all_chars is_digit s = true → all_chars numeric_char s = true.
Proof.
  induction s as [|x s IH]; [done|]. cbn. intros [Hx Hs]%andb_prop.
  by rewrite (digit_numeric _ Hx), (IH Hs).
Qed.

(** A run of digits is scanned to its end. *)
Lemma scan_digit_run ds : ∀ rest a c,
  all_chars is_digit ds = true →
  match rest with String x _ => is_digit x = false | EmptyString => True end →
  ∃ v, scan_digits ds a c = (v, (c + String.length ds)%nat, EmptyString)
       ∧ scan_digits (ds +:+ rest) a c = (v, (c + String.length ds)%nat, rest).
Proof.
  induction ds as [|x ds IH]; intros rest a c Hds Hrest.
  - exists a. rewrite Nat.add_0_r. split; [done|].
    rewrite app_nil_s. destruct rest as [|y r]; [done|].
    cbn. by rewrite Hrest.
  - cbn in Hds. apply andb_prop in Hds as [Hx Hds].
    change (String x ds +:+ rest) with (String x (ds +:+ rest)). cbn [scan_digits].
    rewrite Hx. destruct (IH rest (10 * a + digit_val x) (S c) Hds Hrest) as (v & H1 & H2).
    exists v. cbn [String.length]. rewrite Nat.add_succ_r. done.
Qed.

Lemma int_of_str_digits n :
  0 ≤ n → int_of_str (str_of_nonneg n EmptyString) = Ok n.
Proof.
  intros Hn.
  assert (all_chars numeric_char (str_of_nonneg n EmptyString) = true) as Hnum
    by (by apply numeric_digits_fuel).
  unfold int_of_str. rewrite (strip_numeric _ Hnum), (strip_underscores_numeric _ _ Hnum).
  destruct (digits_fuel_head (Z.to_nat (Z.log2 n)) n EmptyString) as (d & r & Hd & Hr).
  destruct (scan_str_of_nonneg n EmptyString 0 Hn) as [k Hk].
  unfold str_of_nonneg in *. rewrite Hr, (scan_sign_digit d r Hd), <- Hr, Hk. done.
Qed.

Lemma split_nonempty sep s : split sep s ≠ [].
Proof.
  destruct s as [|c r]; [done|]. cbn. destruct (Ascii.eqb c sep); [done|].
  by destruct (split sep r).
Qed.

Lemma last_skip {A} (x : A) l d : l ≠ [] → List.last (x :: l) d = List.last l d.
Proof. by destruct l. Qed.

Lemma last_part_split_app sep a b :
  last_part (split sep (a +:+ String sep b)) = last_part (split sep b).
Proof.
  unfold last_part.
  assert (∃ pre, split sep (a +:+ String sep b) = pre ++ split sep b ∧ pre ≠ [])
    as (pre & -> & _).
  { induction a as [|x a (pre & IH & Hpre)].
    - exists [EmptyString]. change (EmptyString +:+ String sep b) with (String sep b).
      cbn. by rewrite Ascii.eqb_refl.
    - change (String x a +:+ String sep b) with (String x (a +:+ String sep b)).
      cbn [split]. rewrite IH. destruct (Ascii.eqb x sep).
      + by exists (EmptyString :: pre).
      + destruct pre as [|h t]; [done|]. by exists (String x h :: t). }
  induction pre as [|p pre IH]; [done|].
  rewrite <- app_comm_cons, last_skip; [done|].
  pose proof (split_nonempty sep b). by destruct pre, (split sep b).
Qed.

Lemma path_name_join dir name :
  contains "/" name = false → path_name (path_join dir name) = name.
Proof.
  intros H. unfold path_name, path_join.
  change (dir +:+ "/" +:+ name) with (dir +:+ String "/" name).
  rewrite last_part_split_app.
  assert (split "/" name = [name]) as ->; [|done].
  clear dir. induction name as [|c r IH]; [done|]. cbn in *.
  apply orb_false_elim in H as [Hc Hr]. by rewrite Hc, (IH Hr).
Qed.

End Text.

(** ** Dates as parts *)

Section SplitText.

Lemma split_without sep s : contains sep s = false → split sep s = [s].
Proof.
  induction s as [|c r IH]; cbn [contains split]; [done|].
  intros [Hc Hr]%orb_false_elim. by rewrite Hc, (IH Hr).
Qed.

Lemma split_at_sep sep a b :
  contains sep a = false → split sep (a +:+ String sep b) = a :: split sep b.
Proof.
  induction a as [|c r IH]; cbn [contains]; intros H.
  - change (EmptyString +:+ String sep b) with (String sep b). cbn [split].
    by rewrite Ascii.eqb_refl.
  - apply orb_false_elim in H as [Hc Hr].
    change (String c r +:+ String sep b) with (String c (r +:+ String sep b)).
    cbn [split]. by rewrite Hc, (IH Hr).
Qed.

Lemma split_parts sep s : Forall (λ p, contains sep p = false) (split sep s).
Proof.
  induction s as [|c r IH]; cbn [split]; [by repeat constructor|].
  destruct (Ascii.eqb c sep) eqn:Hc; [by constructor|].
  destruct (split sep r) as [|h t]; [by repeat constructor; cbn; rewrite Hc|].
  inversion IH as [|? ? Hh Ht]; subst. constructor; [|done]. cbn. by rewrite Hc, Hh.
Qed.

Lemma split_lookup sep s i p : split sep s !! i = Some p → contains sep p = false.
Proof.
  intros H. pose proof (split_parts sep s) as Hall.
  rewrite Forall_lookup in Hall. by apply (Hall i).
Qed.

Lemma contains_fixed_digits k : ∀ n acc,
  contains "-" (fixed_digits k n acc) = contains "-" acc.
Proof.
  induction k as [|k IH]; intros n acc; cbn [fixed_digits]; [done|].
  rewrite IH. cbn [contains].
  destruct (digit_char_spec (n mod 10) (mod10_digit n)) as [Hd _].
  by rewrite (digit_not_dash _ Hd).
Qed.

Lemma contains_digits_fuel f : ∀ n acc,
  contains "-" (digits_fuel f n acc) = contains "-" acc.
Proof.
  induction f as [|f IH]; intros n acc; cbn [digits_fuel]; [done|].
  assert (contains "-" (String (digit_char (n mod 10)) acc) = contains "-" acc) as Hd.
  { cbn [contains]. destruct (digit_char_spec (n mod 10) (mod10_digit n)) as [Hd _].
    by rewrite (digit_not_dash _ Hd). }
  destruct (n / 10 =? 0); [done|]. by rewrite IH.
Qed.

(** The text of [{n:02d}] for a number that is not negative: digits that
    [int] reads back. *)
Lemma format_0d_nonneg n :
  0 ≤ n →
  contains "-" (format_0d 2 n) = false ∧ int_of_str (format_0d 2 n) = Ok n.
Proof.
  intros Hn. unfold format_0d. destruct (Z.ltb_spec n 0); [lia|].
  cbn [String.length Nat.sub]. rewrite Z.abs_eq by done.
  change (EmptyString +:+ ?x) with x.
  destruct (Z.ltb_spec n (10 ^ Z.of_nat 2)) as [Hlt|Hge].
  - split; [by rewrite contains_fixed_digits|].
    assert (all_chars numeric_char (fixed_digits 2 n EmptyString) = true) as Hnum
      by (by apply numeric_fixed_digits).
    unfold int_of_str. rewrite (strip_numeric _ Hnum), (strip_underscores_numeric _ _ Hnum).
    cbn [fixed_digits]. rewrite scan_sign_digit by apply mod10_digit.
    change (String (digit_char (n / 10 mod 10)) (String (digit_char (n mod 10)) EmptyString))
      with (fixed_digits 2 n EmptyString).
    rewrite scan_fixed_digits. cbn [scan_digits Nat.add].
    change (pow10 2) with 100. change (10 ^ Z.of_nat 2) with 100 in Hlt.
    rewrite Z.mod_small by lia. done.
  - split; [unfold str_of_nonneg; by rewrite contains_digits_fuel|].
    assert (all_chars numeric_char (str_of_nonneg n EmptyString) = true) as Hnum
      by (by apply numeric_digits_fuel).
    unfold int_of_str. rewrite (strip_numeric _ Hnum), (strip_underscores_numeric _ _ Hnum).
    destruct (digits_fuel_head (Z.to_nat (Z.log2 n)) n EmptyString) as (d & r & Hd & Hr).
    destruct (scan_str_of_nonneg n EmptyString 0 Hn) as [k Hk].
    unfold str_of_nonneg in *. rewrite Hr, (scan_sign_digit d r Hd), <- Hr, Hk. done.
Qed.

Lemma format_0d_negative n :
  n < 0 → ∃ digits, format_0d 2 n = String "-" digits ∧ contains "-" digits = false.
Proof.
  intros Hn. unfold format_0d. destruct (Z.ltb_spec n 0); [|lia].
  cbn [String.length Nat.sub]. eexists. split; [reflexivity|].
  destruct (_ <? _); [by rewrite contains_fixed_digits|].
  unfold str_of_nonneg. by rewrite contains_digits_fuel.
Qed.

End SplitText.
(** ** The record and its legacy accessors *)

Section Records.

(** X13: building a record from the fields of a record the constructor
    built gives that record again: the constructor's normalisation (trimmed
    text, upper-case category and type) is idempotent. *)
Theorem make_idempotent date day category amount type description :
  let tx := Transaction.make date day category amount type description in
  Transaction.make (Transaction.date tx) (Transaction.day tx) (Transaction.category tx)
    (Transaction.amount tx) (Transaction.type tx) (Transaction.description tx) = tx.
Proof.
  unfold Transaction.make.
  cbn [Transaction.date Transaction.day Transaction.category Transaction.amount
       Transaction.type Transaction.description].
  by rewrite !strip_idem, !strip_strip_upper, !upper_idem.
Qed.

(** The year and the month that the date setters keep. *)
Lemma kept_parts (self : Transaction.t) :
  let parts := split "-" (Transaction.date self) in
  contains "-" (match parts !! 0%nat with
                | Some p => if is_empty p then "0000" else p
                | None => "0000"
                end) = false
  ∧ contains "-" (match parts !! 1%nat with Some p => p | None => "01" end) = false
  ∧ contains "-" (match parts !! 2%nat with Some p => p | None => "01" end) = false.
Proof.
  intros parts. repeat split.
  - destruct (parts !! 0%nat) as [p|] eqn:E; [|done].
    destruct (is_empty p); [done|]. by apply split_lookup in E.
  - destruct (parts !! 1%nat) as [p|] eqn:E; [|done]. by apply split_lookup in E.
  - destruct (parts !! 2%nat) as [p|] eqn:E; [|done]. by apply split_lookup in E.
Qed.

(** X14: [set_day] raises [ValueError] exactly for a day of more than 4300
    digits, which its f-string does not print. Otherwise, after [set_day]
    with a day that is not negative [get_day] returns that day, whatever the
    date was before; after [set_day] with a negative day it returns 0, the
    sign being read as a separator. The month part is the one the date had,
    or 01 when it had none. *)
Theorem set_day_then_get_day self new_day :
  match Transaction.set_day new_day self with
  | Ok tx =>
      Z.abs new_day < int_str_bound
      ∧ Transaction.get_day tx = Z.max new_day 0
      ∧ Transaction.get_month tx
        = match split "-" (Transaction.date self) !! 1%nat with
          | Some mm => mm
          | None => "01"
          end
  | Raise e => e = ValueError ∧ int_str_bound ≤ Z.abs new_day
  end.
Proof.
  destruct (kept_parts self) as (Hy & Hm & _).
  unfold Transaction.set_day, format_int, printable_int.
  destruct (Z.ltb_spec (Z.abs new_day) int_str_bound) as [Hlt|Hge];
    cbn [mbind result_bind]; [|done].
  split; [done|].
  unfold Transaction.get_day, Transaction.get_month, Transaction.with_date.
  cbn [Transaction.date].
  set (yy := match split "-" (Transaction.date self) !! 0%nat with
             | Some p => if is_empty p then "0000" else p | None => "0000" end) in *.
  set (mm := match split "-" (Transaction.date self) !! 1%nat with
             | Some p => p | None => "01" end) in *.
  change (yy +:+ "-" +:+ mm +:+ "-" +:+ format_0d 2 new_day)
    with (yy +:+ String "-" (mm +:+ String "-" (format_0d 2 new_day))).
  rewrite (split_at_sep _ yy) by done. rewrite (split_at_sep _ mm) by done.
  split; [|done]. cbn [lookup list_lookup].
  destruct (Z.lt_ge_cases new_day 0) as [Hneg|Hpos].
  - destruct (format_0d_negative new_day Hneg) as (digits & -> & Hd).
    cbn [split]. change (Ascii.eqb "-" "-") with true. cbv iota. cbn. lia.
  - destruct (format_0d_nonneg new_day Hpos) as [Hd Hint].
    rewrite (split_without _ _ Hd). cbn. rewrite Hint. lia.
Qed.

End Records.

(** ** Archives *)

Section FreshNames.
Import SessionManager.

Lemma backup_number_of_name prefix n :
  0 ≤ n →
  backup_number prefix (prefix +:+ "_" +:+ str_of_int n +:+ ".xlsx") = Some n.
Proof.
  intros Hn. unfold backup_number, pattern_match, str_of_int.
  destruct (Z.ltb_spec n 0); [lia|].
  set (ds := str_of_nonneg n EmptyString).
  assert (prefix +:+ "_" +:+ ds +:+ ".xlsx" = (prefix +:+ "_") +:+ (ds +:+ ".xlsx")) as ->
    by (by rewrite app_assoc_s).
  rewrite lower_app, startswith_app, drop_prefix_app.
  assert (all_chars is_digit ds = true) as Hds by (by apply digits_digits_fuel).
  destruct (scan_digit_run ds ".xlsx" 0 0 Hds eq_refl) as (v & _ & ->).
  destruct (digits_fuel_head (Z.to_nat (Z.log2 n)) n EmptyString) as (d & r & _ & Hr).
  fold (str_of_nonneg n EmptyString) in Hr. fold ds in Hr.
  assert (String.length ds = S (String.length r)) as Hlen by (by rewrite Hr).
  rewrite Nat.add_0_l, Hlen. cbv beta iota.
  change (String.eqb (lower ".xlsx") ".xlsx") with true. cbn [orb]. cbv iota.
  rewrite <- Hlen, substring_app. unfold ds. by rewrite int_of_str_digits.
Qed.

Lemma listdir_elem fs dir name :
  contains "/" name = false →
  exists_ fs (path_join dir name) = true → name ∈ listdir fs dir.
Proof.
  intros Hname Hex. unfold listdir. apply list_elem_of_fmap.
  exists (path_join dir name). rewrite path_name_join by done. split; [done|].
  apply list_elem_of_filter. rewrite path_name_join by done. split; [done|].
  apply elem_of_app. unfold exists_, is_file, is_dir in Hex.
  apply orb_prop in Hex as [Hf|Hd].
  - left. apply bool_decide_eq_true in Hf as [f Hf]. apply list_elem_of_fmap.
    exists (path_join dir name, f). split; [done|]. by apply elem_of_map_to_list.
  - right. apply bool_decide_eq_true in Hd. by apply elem_of_elements.
Qed.

(** X16: for a prefix without a slash, the path [unique_backup_name]
    returns is the path of no file and of no directory that exists: an
    archive never replaces an earlier one. *)
Theorem unique_backup_name_is_fresh self fs prefix :
  contains "/" prefix = false →
  exists_ fs (unique_backup_name self fs prefix) = false.
Proof.
  intros Hprefix.
  pose proof (highest_suffix_bounds prefix (glob_xlsx fs (_backups_dir self))) as [Hle _].
  unfold unique_backup_name.
  rewrite scan_backups_max, Z.max_r by (try apply highest_suffix_nonneg; done).
  set (top := highest_suffix prefix (glob_xlsx fs (_backups_dir self))) in *.
  pose proof (highest_suffix_nonneg prefix (glob_xlsx fs (_backups_dir self))) as Htop.
  fold top in Htop.
  destruct (exists_ fs _) eqn:Hex; [exfalso|done].
  set (name := prefix +:+ "_" +:+ str_of_int (top + 1) +:+ ".xlsx") in *.
  assert (contains "/" name = false) as Hslash.
  { unfold name. rewrite !contains_app, Hprefix. cbn [orb contains].
    change (Ascii.eqb "_" "/") with false. cbn [orb].
    unfold str_of_int. destruct (Z.ltb_spec (top + 1) 0); [lia|].
    rewrite (digit_chars_absent "/" (str_of_nonneg (top + 1) EmptyString)); [done..|].
    by apply digits_digits_fuel. }
  assert (In name (glob_xlsx fs (_backups_dir self))) as Hin.
  { apply list_elem_of_In. unfold glob_xlsx. apply list_elem_of_filter. split.
    - unfold name. rewrite <- !app_assoc_s. apply endswith_app.
    - by apply listdir_elem. }
  specialize (Hle name (top + 1) Hin (backup_number_of_name prefix (top + 1) ltac:(lia))).
  lia.
Qed.
Lemma unique_backup_name_is_fresh_example :
  exists_ session_files (unique_backup_name fresh_manager session_files "User_Data_Fresh")
  = false.
Proof. apply unique_backup_name_is_fresh. reflexivity. Defined.

End FreshNames.
Section Archive.
Import SessionManager.

Lemma archive_current_user_data_outcome label self fs s' r :
  contains "/" label = false →
  archive_current_user_data label (self, fs) = (s', r) →
  match r with
  | Ok archived =>
      archived = unique_backup_name self fs ("User_Data_" +:+ label)
      ∧ exists_ fs archived = false
      ∧ s'.1 = self
      ∧ is_Some (files fs !! _user_data_path self)
      ∧ files s'.2 !! archived = files fs !! _user_data_path self
      ∧ files s'.2 !! _user_data_path self = None
      ∧ (∀ p, p ≠ archived → p ≠ _user_data_path self → files s'.2 !! p = files fs !! p)
      ∧ dirs s'.2 = dirs fs
  | Raise e => s' = (self, fs)
  end.
Proof.
  intros Hlabel.
  assert (exists_ fs (unique_backup_name self fs ("User_Data_" +:+ label)) = false) as Hfresh.
  { apply unique_backup_name_is_fresh. by rewrite contains_app, Hlabel. }
  unfold archive_current_user_data, bind, gets, ret, id, raise. cbn [fst snd].
  destruct (exists_ fs (_user_data_path self)) eqn:Hex; cbn [negb];
    [|by intros [= <- <-]].
  set (archived := unique_backup_name self fs ("User_Data_" +:+ label)) in *.
  unfold on_snd, move. cbn [fst snd].
  destruct (files fs !! _user_data_path self) as [f|] eqn:Hf; [|by intros [= <- <-]].
  destruct (_ || _); [by intros [= <- <-]|]. intros [= <- <-]. cbn [fst snd files dirs].
  assert (archived ≠ _user_data_path self) as Hne by (intros Heq; congruence).
  split; [done|]. split; [done|]. split; [done|]. split; [done|].
  split; [by rewrite lookup_insert_eq|].
  split; [by rewrite lookup_insert_ne, lookup_delete_eq|].
  split; [|done]. intros p ? ?. by rewrite lookup_insert_ne, lookup_delete_ne.
Qed.

(** X17: [end_session_and_archive] returns [None] and changes nothing when
    no session is active. When it returns a path, that path did not exist
    before and now holds the session file, the session file is gone from its
    place, every other file is as before, and the manager has no session
    path and no mode, so that no session is active. When it raises, the
    manager and the files are as before. *)
Theorem end_session_outcome self fs s' r :
  end_session_and_archive (self, fs) = (s', r) →
  match r with
  | Ok None => is_session_active self fs = false ∧ s' = (self, fs)
  | Ok (Some archived) =>
      is_session_active self fs = true
      ∧ exists_ fs archived = false
      ∧ get_session_path s'.1 = None ∧ get_mode s'.1 = None
      ∧ is_session_active s'.1 s'.2 = false
      ∧ is_Some (files fs !! _user_data_path self)
      ∧ files s'.2 !! archived = files fs !! _user_data_path self
      ∧ files s'.2 !! _user_data_path self = None
      ∧ (∀ p, p ≠ archived → p ≠ _user_data_path self → files s'.2 !! p = files fs !! p)
  | Raise e => is_session_active self fs = true ∧ s' = (self, fs)
  end.
Proof.
  unfold end_session_and_archive, bind, gets, ret, id. cbn [fst snd].
  destruct (is_session_active self fs) eqn:Hact; cbn [negb]; [|by intros [= <- <-]].
  set (label := match mode (_state self) with
                | Some m => if String.eqb m "FRESH" then "Fresh"
                            else if String.eqb m "IMPORTED" then "Imported" else "Prev"
                | None => "Prev"
                end).
  assert (contains "/" label = false) as Hlabel
    by (unfold label; by repeat case_match).
  destruct (archive_current_user_data label (self, fs)) as [s1 [archived|e]] eqn:Ha;
    apply archive_current_user_data_outcome in Ha; try done.
  - destruct Ha as (_ & Hfresh & Hself & Hsome & Hmoved & Hgone & Hrest & _).
    unfold set_state, modify. intros [= <- <-]. cbn [fst snd].
    split; [done|]. split; [done|]. by repeat (split; [done|]).
  - intros [= <- <-]. done.
Qed.
Lemma end_session_outcome_example :
  match archived_state.2 with
  | Ok None =>
      is_session_active fresh_manager session_files = false
      ∧ archived_state.1 = (fresh_manager, session_files)
  | Ok (Some archived) =>
      is_session_active fresh_manager session_files = true
      ∧ exists_ session_files archived = false
      ∧ get_session_path archived_state.1.1 = None ∧ get_mode archived_state.1.1 = None
      ∧ is_session_active archived_state.1.1 archived_state.1.2 = false
      ∧ is_Some (files session_files !! _user_data_path fresh_manager)
      ∧ files archived_state.1.2 !! archived
        = files session_files !! _user_data_path fresh_manager
      ∧ files archived_state.1.2 !! _user_data_path fresh_manager = None
      ∧ (∀ p, p ≠ archived → p ≠ _user_data_path fresh_manager →
           files archived_state.1.2 !! p = files session_files !! p)
  | Raise e =>
      is_session_active fresh_manager session_files = true
      ∧ archived_state.1 = (fresh_manager, session_files)
  end.
Proof.
  apply (end_session_outcome fresh_manager session_files). apply surjective_pairing.
Defined.

End Archive.

(** ** Opening, saving and the session file *)

Section Persistence.
Import ExcelLoader.

Lemma outcome_eq {St A} (x : St * result A) r : x.2 = r → x = (x.1, r).
Proof. destruct x. simpl. congruence. Qed.

Lemma outcome_eq2 {S1 S2 A} (x : (S1 * S2) * result A) r :
  x.2 = r → x = ((x.1.1, x.1.2), r).
Proof. destruct x as [[? ?] ?]. simpl. congruence. Qed.

Lemma save_workbook_cases ws p fs :
  match save_workbook ws p fs with
  | (fs', Ok _) =>
      ∃ size, files fs' = <[p := mkFile (Some ws) true size]> (files fs)
              ∧ dirs fs' = dirs fs ∧ locked fs' = locked fs
  | (fs', Raise e) => fs' = fs ∧ e = OSError
  end.
Proof. unfold save_workbook. destruct (_ || _); [done|]. cbn. eauto. Qed.

Lemma save_cases self fs :
  match save (self, fs) with
  | (s', Ok _) =>
      ∃ wb p size,
        _wb self = Some wb ∧ _path self = Some p
        ∧ s'.1 = self
        ∧ files s'.2 = <[p := mkFile (Some wb) true size]> (files fs)
        ∧ dirs s'.2 = dirs fs ∧ locked s'.2 = locked fs
  | (s', Raise e) => s' = (self, fs)
  end.
Proof.
  unfold save, bind, on_fst, reads, gets, raise. cbn [fst snd].
  destruct (ensure_open self) as [[]|] eqn:Ho; [|done].
  destruct (_path self) as [p|]; [|done].
  unfold wb_save, bind, gets, raise, on_snd. cbn [fst snd].
  destruct (_wb self) as [wb|]; [|done]. cbn [fst snd].
  pose proof (save_workbook_cases wb p fs) as Hs.
  destruct (save_workbook wb p fs) as [fs' [[]|e]]; cbv beta iota in Hs |- *.
  - destruct Hs as (size & Hf & Hd & Hl). exists wb, p, size. done.
  - by destruct Hs as [-> _].
Qed.

(** X18: a [save] that raises leaves the adapter and the files as they
    were, and raises the not-open error, the no-backing-path error or the
    error of the file system. A [save] that returns was made on an open
    workbook bound to a path: it leaves the adapter as it was, a file at that
    path, and every other file and every directory as before. *)
Theorem save_outcome self fs :
  match save (self, fs) with
  | (s', Ok _) =>
      ensure_open self = Ok tt
      ∧ s'.1 = self
      ∧ ∃ wb p,
          _wb self = Some wb ∧ _path self = Some p
          ∧ s'.2 = (save_workbook wb p fs).1
          ∧ is_file s'.2 p = true
          ∧ (∀ q, q ≠ p → files s'.2 !! q = files fs !! q)
          ∧ dirs s'.2 = dirs fs
  | (s', Raise e) =>
      s' = (self, fs)
      ∧ (ensure_open self = Raise e
         ∨ ensure_open self = Ok tt ∧ _path self = None ∧ e = no_backing_path
         ∨ ensure_open self = Ok tt ∧ is_Some (_path self) ∧ e = OSError)
  end.
Proof.
  unfold save, bind, on_fst, reads, gets, raise. cbn [fst snd].
  destruct (ensure_open self) as [[]|e0] eqn:Ho; [|split; [done|by left]].
  destruct (_path self) as [p|] eqn:Hp; [|split; [done|right; by left]].
  unfold wb_save, bind, gets, raise, on_snd. cbn [fst snd].
  destruct (ensure_open_inv _ Ho) as (wb & ws & Hwb & _). rewrite Hwb. cbn [fst snd].
  pose proof (save_workbook_cases wb p fs) as Hs.
  destruct (save_workbook wb p fs) as [fs' [[]|e]] eqn:Es; cbv beta iota in Hs |- *.
  - destruct Hs as (size & Hf & Hd & Hl). cbn [fst snd].
    split; [done|]. split; [done|]. exists wb, p. split; [done|]. split; [done|].
    split; [by rewrite Es|].
    split; [unfold is_file; rewrite Hf, lookup_insert_eq; by apply bool_decide_eq_true_2|].
    split; [intros q Hq; by rewrite Hf, lookup_insert_ne|done].
  - destruct Hs as [-> ->]. split; [done|]. right. right. eauto.
Qed.

Lemma open_cases file_path self fs :
  match open file_path (self, fs) with
  | (s', Ok _) =>
      validate_open_excel_path fs file_path = Ok tt
      ∧ ∃ wb, load_workbook fs file_path = Ok wb
              ∧ s' = (Build (Some wb) (Some wb) (Some file_path), fs)
  | (s', Raise e) =>
      validate_open_excel_path fs file_path = Raise e ∧ s' = (self, fs)
      ∨ validate_open_excel_path fs file_path = Ok tt
        ∧ load_workbook fs file_path = Raise e
        ∧ s' = (Build (_wb self) (_ws self) (Some file_path), fs)
  end.
Proof.
  unfold open, bind, gets, lift, modify. cbn [fst snd].
  destruct (validate_open_excel_path fs file_path) as [[]|e]; [|by left].
  destruct (load_workbook fs file_path) as [wb|e]; cbn [fst snd _wb _ws _path]; eauto.
Qed.

(** X19: [open], on a path in resolved form, leaves the files as they are.
    When it returns, the path passed the open checks and the adapter holds
    the workbook loaded from it, bound to that path. When the checks reject
    the path, the adapter is unchanged. When the checks pass and loading
    fails, the adapter is bound to the new path while it still holds the
    workbook it had: a [save] then writes that workbook at the new path. *)
Theorem open_outcome file_path self fs :
  resolved file_path = true →
  match open file_path (self, fs) with
  | (s', Ok _) =>
      validate_open_excel_path fs file_path = Ok tt
      ∧ ∃ wb, load_workbook fs file_path = Ok wb
              ∧ s' = (Build (Some wb) (Some wb) (Some file_path), fs)
  | (s', Raise e) =>
      validate_open_excel_path fs file_path = Raise e ∧ s' = (self, fs)
      ∨ validate_open_excel_path fs file_path = Ok tt
        ∧ load_workbook fs file_path = Raise e
        ∧ s' = (Build (_wb self) (_ws self) (Some file_path), fs)
        ∧ (∀ wb, ensure_open self = Ok tt → _wb self = Some wb →
             save s' = ((s'.1, (save_workbook wb file_path fs).1),
                        (save_workbook wb file_path fs).2))
  end.
Proof.
  intros _. pose proof (open_cases file_path self fs) as H.
  destruct (open file_path (self, fs)) as [s' [[]|e]]; [done|].
  destruct H as [H|(Hv & Hl & ->)]; [by left|]. right. repeat (split; [done|]).
  intros wb Ho Hwb. destruct (ensure_open_inv _ Ho) as (wb' & ws & Hwb' & Hws).
  unfold save, bind, on_fst, reads, gets, ensure_open, wb_save, on_snd.
  cbn [fst snd _wb _ws _path]. rewrite Hwb, Hws. cbn [fst snd _wb _ws _path].
  unfold bind, gets. cbn [fst snd _wb].
  by destruct (save_workbook wb file_path fs).
Qed.

Lemma open_outcome_example :
  match failed_open_state with
  | (s', Ok _) =>
      validate_open_excel_path corrupt_files "/home/user/notes.xlsx" = Ok tt
      ∧ ∃ wb, load_workbook corrupt_files "/home/user/notes.xlsx" = Ok wb
              ∧ s' = (Build (Some wb) (Some wb) (Some "/home/user/notes.xlsx"),
                      corrupt_files)
  | (s', Raise e) =>
      validate_open_excel_path corrupt_files "/home/user/notes.xlsx" = Raise e
      ∧ s' = (opened_state.1, corrupt_files)
      ∨ validate_open_excel_path corrupt_files "/home/user/notes.xlsx" = Ok tt
        ∧ load_workbook corrupt_files "/home/user/notes.xlsx" = Raise e
        ∧ s' = (Build (_wb opened_state.1) (_ws opened_state.1)
                  (Some "/home/user/notes.xlsx"), corrupt_files)
        ∧ (∀ wb, ensure_open opened_state.1 = Ok tt → _wb opened_state.1 = Some wb →
             save s' = ((s'.1, (save_workbook wb "/home/user/notes.xlsx" corrupt_files).1),
                        (save_workbook wb "/home/user/notes.xlsx" corrupt_files).2))
  end.
Proof.
  apply (open_outcome "/home/user/notes.xlsx" opened_state.1 corrupt_files). reflexivity.
Defined.

Lemma mkdir_files d fs fs' r :
  mkdir d fs = (fs', r) →
  files fs' = files fs ∧ locked fs' = locked fs ∧ dirs fs ⊆ dirs fs'
  ∧ (r = Ok tt → d ∈ dirs fs').
Proof.
  unfold mkdir. destruct (_ || _); intros [= <- <-]; [done|].
  cbn. repeat split; [set_solver|set_solver].
Qed.

Lemma ensure_directory_writable_files d fs fs' r :
  ensure_directory_writable d fs = (fs', r) →
  files fs' = files fs ∧ locked fs' = locked fs ∧ dirs fs ⊆ dirs fs'
  ∧ (r = Ok tt → d ∈ dirs fs')
  ∧ r ≠ Raise verification_failed.
Proof.
  unfold ensure_directory_writable, bind, try_prog, raise.
  destruct (mkdir d fs) as [fs1 [[]|e]] eqn:Em; apply mkdir_files in Em as (Hf & Hl & Hd & Hin).
  - unfold probe_writable. destruct (_ && _); intros [= <- <-]; repeat split; auto; done.
  - intros [= <- <-]. done.
Qed.

Lemma validate_fresh_session_paths_files tp sd fs fs' r :
  validate_fresh_session_paths tp sd fs = (fs', r) →
  files fs' = files fs ∧ locked fs' = locked fs ∧ dirs fs ⊆ dirs fs'
  ∧ (r = Ok tt → sd ∈ dirs fs' ∧ is_file fs tp = true)
  ∧ r ≠ Raise verification_failed.
Proof.
  unfold validate_fresh_session_paths, bind, gets, raise, id. cbv beta iota.
  destruct (negb (exists_ fs tp) || negb (is_file fs tp)) eqn:E1;
    [by intros [= <- <-]|].
  destruct (negb (String.eqb _ _)); [by intros [= <- <-]|].
  intros (Hf & Hl & Hd & Hin & Hne)%ensure_directory_writable_files.
  repeat (split; [done|]). split; [|done]. intros Hr. split; [auto|].
  apply orb_false_elim in E1 as [_ E1]. by apply negb_false_iff in E1.
Qed.

Lemma validate_open_excel_path_raises fs p :
  validate_open_excel_path fs p ≠ Raise verification_failed.
Proof. unfold validate_open_excel_path. by repeat case_match. Qed.


Lemma validate_backup_directory_files d fs fs' :
  validate_backup_directory d fs = (fs', Ok tt) →
  files fs' = files fs ∧ locked fs' = locked fs ∧ dirs fs ⊆ dirs fs' ∧ d ∈ dirs fs'.
Proof.
  unfold validate_backup_directory. destruct (_ || _); [done|].
  intros (Hf & Hl & Hd & Hin & _)%ensure_directory_writable_files. auto.
Qed.

Lemma length_app_s a b :
  String.length (a +:+ b) = (String.length a + String.length b)%nat.
Proof. induction a as [|x a IH]; [done|]. rewrite app_cons_s. cbn. by rewrite IH. Qed.

Lemma rsplit_dot_none s : contains "." s = false → rsplit_dot s = None.
Proof.
  induction s as [|c r IH]; [done|]. cbn [contains rsplit_dot].
  intros [Hc Hr]%orb_false_elim. by rewrite (IH Hr), Hc.
Qed.

Lemma rsplit_dot_app a b :
  contains "." b = false → rsplit_dot (a +:+ String "." b) = Some (a, b).
Proof.
  intros Hb. induction a as [|x a IH].
  - rewrite app_nil_s. cbn [rsplit_dot]. by rewrite (rsplit_dot_none _ Hb).
  - rewrite app_cons_s. cbn [rsplit_dot]. by rewrite IH.
Qed.

Lemma rsplit_dot_inv s : ∀ b a, rsplit_dot s = Some (b, a) → s = b +:+ String "." a.
Proof.
  induction s as [|c r IH]; intros b a; [done|]. cbn [rsplit_dot].
  destruct (rsplit_dot r) as [[b' a']|].
  - intros [= <- <-]. rewrite app_cons_s. by rewrite <- (IH b' a' eq_refl).
  - destruct (Ascii.eqb_spec c ".") as [->|]; [|done]. by intros [= <- <-].
Qed.

Lemma path_name_no_slash p : contains "/" (path_name p) = false.
Proof.
  unfold path_name, last_part. pose proof (split_parts "/" p) as H.
  pose proof (split_nonempty "/" p) as Hne.
  induction H as [|x l Hx Hl IH]; [done|].
  destruct l as [|y l]; [done|]. rewrite last_skip by done. by apply IH.
Qed.

Lemma path_stem_no_slash p : contains "/" (path_stem p) = false.
Proof.
  unfold path_stem. pose proof (path_name_no_slash p) as H.
  destruct (rsplit_dot (path_name p)) as [[b a]|] eqn:E; [|done].
  destruct b as [|x b]; [done|]. destruct a as [|y a]; [done|].
  apply rsplit_dot_inv in E. rewrite E, contains_app in H.
  by apply orb_false_elim in H as [H _].
Qed.

Lemma timestamp_no_slash now : timestamp now = true → contains "/" now = false.
Proof.
  unfold timestamp. induction now as [|c r IH]; [done|]. cbn [all_chars contains].
  intros [Hc Hr]%andb_prop. rewrite (IH Hr), orb_false_r.
  destruct (Ascii.eqb_spec c "/") as [->|]; [done|done].
Qed.

Lemma backup_path_differs dir p now :
  timestamp now = true →
  let name := path_stem p +:+ "_backup_" +:+ now +:+ ".xlsx" in
  path_name (path_join dir name) = name ∧ path_join dir name ≠ p.
Proof.
  intros Hnow name.
  assert (contains "/" name = false) as Hname.
  { unfold name. rewrite !contains_app, path_stem_no_slash, (timestamp_no_slash _ Hnow).
    done. }
  split; [by apply path_name_join|]. intros Heq.
  assert (path_stem p = path_stem p +:+ "_backup_" +:+ now) as Hstem.
  { rewrite <- Heq at 1. unfold path_stem at 1. rewrite (path_name_join _ _ Hname).
    unfold name.
    replace (path_stem p +:+ "_backup_" +:+ now +:+ ".xlsx")
      with ((path_stem p +:+ "_backup_" +:+ now) +:+ String "." "xlsx")
      by (by rewrite !app_assoc_s).
    rewrite rsplit_dot_app by done.
    destruct (path_stem p); by rewrite ?app_cons_s. }
  apply (f_equal String.length) in Hstem. rewrite !length_app_s in Hstem.
  cbn in Hstem. lia.
Qed.

(** X20: when [save_backup] returns a path, with a time stamp of digits and
    underscores and an adapter bound to a path in resolved form, the name of
    that path is the adapter's file name with [_backup_], the time stamp and
    [.xlsx] added to its stem, and the path is that name in the backup
    directory when the directory is given in resolved form; it is not the
    adapter's own path. The backup directory exists, the file at the
    returned path is the adapter's file as the call leaves it, the adapter
    is as it was and every other file is untouched. *)
Theorem save_backup_result backup_dir now self fs s' dst :
  save_backup backup_dir now (self, fs) = (s', Ok dst) →
  timestamp now = true →
  (∀ p, _path self = Some p → resolved p = true) →
  ∃ wb p f,
    _wb self = Some wb ∧ _path self = Some p
    ∧ path_name dst = path_stem p +:+ "_backup_" +:+ now +:+ ".xlsx"
    ∧ (resolved backup_dir = true → dst = path_join backup_dir (path_name dst))
    ∧ dst ≠ p
    ∧ s'.1 = self
    ∧ is_dir s'.2 backup_dir = true
    ∧ files s'.2 !! p = Some f
    ∧ files s'.2 !! dst = Some f
    ∧ (∀ q, q ≠ p → q ≠ dst → files s'.2 !! q = files fs !! q).
Proof.
  intros H Hnow _. revert H.
  unfold save_backup, bind, on_fst, reads, gets, raise. cbn [fst snd].
  destruct (ensure_open self) as [[]|] eqn:Ho; [|done].
  destruct (_path self) as [p|] eqn:Hp; [|done].
  unfold on_snd at 1. cbn [fst snd].
  destruct (validate_backup_directory backup_dir fs) as [fs1 [[]|]] eqn:Ev; [|done].
  apply validate_backup_directory_files in Ev as (Hf1 & Hl1 & Hd1 & Hin).
  pose proof (save_cases self fs1) as Hs.
  destruct (save (self, fs1)) as [s2 [[]|]]; [|done].
  destruct Hs as (wb & p' & size & Hwb & Hp' & Hs2 & Hf2 & Hd2 & Hl2).
  rewrite Hp in Hp'. injection Hp' as <-.
  unfold on_snd, copy2, ret. rewrite Hf2, lookup_insert_eq. cbn [f_readable negb orb].
  destruct (_ || _); [done|]. intros [= <- <-]. cbn [fst snd files dirs].
  destruct (backup_path_differs backup_dir p now Hnow) as [Hname Hne].
  exists wb, p, (mkFile (Some wb) true size).
  split; [done|]. split; [done|]. split; [done|]. split; [by rewrite Hname|].
  split; [done|]. split; [done|].
  split; [apply bool_decide_eq_true_2; rewrite Hd2; by apply Hin|].
  split; [by rewrite lookup_insert_ne, lookup_insert_eq by done|].
  split; [by rewrite lookup_insert_eq|].
  intros q Hq1 Hq2. by rewrite !lookup_insert_ne, Hf1.
Qed.

Lemma save_backup_result_example :
  ∃ wb p f,
    _wb opened_state.1 = Some wb ∧ _path opened_state.1 = Some p
    ∧ path_name "/home/user/user_data_backup_20240105_101500.xlsx"
      = path_stem p +:+ "_backup_" +:+ "20240105_101500" +:+ ".xlsx"
    ∧ (resolved "/home/user" = true →
       "/home/user/user_data_backup_20240105_101500.xlsx"
       = path_join "/home/user"
           (path_name "/home/user/user_data_backup_20240105_101500.xlsx"))
    ∧ "/home/user/user_data_backup_20240105_101500.xlsx" ≠ p
    ∧ backup_state.1.1 = opened_state.1
    ∧ is_dir backup_state.1.2 "/home/user" = true
    ∧ files backup_state.1.2 !! p = Some f
    ∧ files backup_state.1.2 !! "/home/user/user_data_backup_20240105_101500.xlsx" = Some f
    ∧ (∀ q, q ≠ p → q ≠ "/home/user/user_data_backup_20240105_101500.xlsx" →
         files backup_state.1.2 !! q = files opened_state.2 !! q).
Proof.
  apply (save_backup_result "/home/user" "20240105_101500" opened_state.1 opened_state.2
           backup_state.1 "/home/user/user_data_backup_20240105_101500.xlsx").
  - unfold backup_state. rewrite <- (surjective_pairing opened_state).
    apply outcome_eq. by vm_compute.
  - reflexivity.
  - intros p. vm_compute. by intros [= <-].
Defined.

Lemma marker_checks_agree (marker : option cell) :
  String.eqb (upper (strip (str_or_empty marker))) _TEMPLATE_MARKER_VALUE = true →
  String.eqb (upper (strip (str_opt marker))) TEMPLATE_MARKER_VALUE = true.
Proof.
  destruct marker as [[s|n|x|[]]|]; try done.
  - by destruct n.
  - cbn [str_or_empty str_opt str]. by destruct (float_eqb x float_zero).
Qed.

Lemma validate_template_signature_Ok p fs fs' :
  validate_template_signature p fs = (fs', Ok tt) →
  ∃ ws size,
    load_workbook fs p = Ok ws
    ∧ String.eqb (upper (strip (str_or_empty (ws !! _TEMPLATE_MARKER_CELL))))
        _TEMPLATE_MARKER_VALUE = true
    ∧ files fs' = <[p := mkFile (Some ws) true size]> (files fs)
    ∧ dirs fs' = dirs fs ∧ locked fs' = locked fs.
Proof.
  unfold validate_template_signature, bind, try_prog, gets, lift, raise, ret, id.
  destruct (load_workbook fs p) as [ws|]; [|done].
  pose proof (save_workbook_cases ws p fs) as Hs.
  destruct (save_workbook ws p fs) as [fs1 [[]|]]; [|done].
  destruct Hs as (size & Hf & Hd & Hl).
  destruct (String.eqb _ _) eqn:Hm; [|done]. intros [= <-]. by exists ws, size.
Qed.

Lemma import_into_session_Ok source_path self fs s' p :
  import_into_session source_path (self, fs) = (s', Ok tt) →
  _path self = Some p →
  source_path ≠ p →
  ∃ ws,
    load_workbook fs source_path = Ok ws
    ∧ s'.1 = Build (Some ws) (Some ws) (Some p)
    ∧ verify_template s'.1 = Ok true
    ∧ load_workbook s'.2 p = Ok ws
    ∧ load_workbook s'.2 source_path = Ok ws
    ∧ validate_upload_filesize fs source_path 20 = Ok tt.
Proof.
  intros H Hp Hne. revert H.
  unfold import_into_session, bind, gets, lift. cbn [fst snd]. rewrite Hp. cbn [fst snd].
  destruct (validate_upload_filesize fs source_path 20) as [[]|] eqn:Hsize; [|done].
  unfold on_snd at 1. cbn [fst snd].
  unfold validate_import_into_session, bind, lift, gets, id.
  destruct (validate_workbook_is_open _) as [[]|]; [|done].
  destruct (validate_user_upload_path fs source_path) as [[]|]; [|done].
  destruct (validate_template_signature source_path fs) as [fs1 [[]|]] eqn:Ev; [|done].
  apply validate_template_signature_Ok in Ev as (ws & size & Hload & Hmark & Hf1 & Hd1 & Hl1).
  pose proof (save_cases self fs1) as Hs.
  destruct (save (self, fs1)) as [s2 [[]|]]; [|done].
  destruct Hs as (wb & p' & size' & Hwb & Hp' & Hs2 & Hf2 & Hd2 & Hl2).
  rewrite Hp in Hp'. injection Hp' as <-.
  unfold on_snd, copy2. cbv beta.
  rewrite Hf2. rewrite lookup_insert_ne by done. rewrite Hf1, lookup_insert_eq.
  cbn [f_readable negb orb]. destruct (_ || _); [done|].
  set (fs3 := mkFS _ _ _).
  pose proof (open_cases p s2.1 fs3) as Ho.
  destruct (open p (s2.1, fs3)) as [s4 [[]|]]; [|done].
  destruct Ho as (_ & wb' & Hload' & ->). intros [= <-]. cbn [fst snd].
  assert (wb' = ws) as ->.
  { unfold load_workbook, fs3 in Hload'. cbn [files] in Hload'.
    rewrite lookup_insert_eq in Hload'. cbn in Hload'. by injection Hload'. }
  exists ws. split; [done|]. split; [done|]. split.
  { unfold verify_template. cbn. f_equal. by apply marker_checks_agree. }
  split; [done|]. split; [|done].
  unfold load_workbook, fs3. cbn [files].
  rewrite !lookup_insert_ne by done. by rewrite lookup_insert_eq.
Qed.


Lemma prepare_fresh_session_cases tp sd self fs :
  let dst := path_join sd "user_data.xlsx" in
  match prepare_fresh_session tp sd (self, fs) with
  | (s', Ok p) =>
      p = dst
      ∧ ∃ f wb,
          files fs !! tp = Some f
          ∧ files s'.2 = <[dst := f]> (files fs)
          ∧ locked s'.2 = locked fs ∧ dirs fs ⊆ dirs s'.2 ∧ sd ∈ dirs s'.2
          ∧ f_book f = Some wb
          ∧ s'.1 = Build (Some wb) (Some wb) (Some dst)
          ∧ verify_template s'.1 = Ok true
  | (s', Raise e) =>
      e = verification_failed →
      s'.1 = Build None None None
      ∧ files s'.2 = delete dst (files fs)
      ∧ ∃ f wb, files fs !! tp = Some f ∧ f_book f = Some wb
                ∧ verify_template (Build (Some wb) (Some wb) (Some dst)) = Ok false
  end.
Proof.
  intros dst. unfold prepare_fresh_session, bind. fold dst.
  unfold on_snd at 1. cbn [fst snd].
  destruct (validate_fresh_session_paths tp sd fs) as [fs1 [[]|e]] eqn:Ev;
    apply validate_fresh_session_paths_files in Ev as (Hf1 & Hl1 & Hd1 & Hok & Hne).
  2:{ intros ->. done. }
  destruct (Hok eq_refl) as [Hsd _].
  unfold on_snd at 1, copy2. cbn [fst snd]. rewrite Hf1, Hl1.
  destruct (files fs !! tp) as [f|] eqn:Hf; [|done].
  destruct (negb (f_readable f) || is_dir fs1 dst || bool_decide (path_parent dst ∈ locked fs))
    eqn:Hc; [done|].
  apply orb_false_elim in Hc as [_ Hlock].
  set (fs2 := mkFS (<[dst := f]> (files fs)) (dirs fs1) (locked fs)).
  pose proof (open_cases dst self fs2) as Hopen.
  destruct (open dst (self, fs2)) as [s3 [[]|e]]; cbv beta iota.
  2:{ intros ->. destruct Hopen as [[Hv _]|(_ & Hl & _)].
      - by apply validate_open_excel_path_raises in Hv.
      - unfold load_workbook in Hl. by repeat case_match. }
  destruct Hopen as (_ & wb & Hload & ->).
  unfold on_fst at 1, reads. cbn [fst snd].
  assert (f_book f = Some wb) as Hbook.
  { unfold load_workbook, fs2 in Hload. cbn [files] in Hload.
    rewrite lookup_insert_eq in Hload. destruct (f_book f) as [b|]; [|done].
    destruct (f_readable f); by simplify_eq. }
  destruct (verify_template (Build (Some wb) (Some wb) (Some dst))) as [[]|e] eqn:Hver;
    cbn [negb].
  - split; [done|]. exists f, wb. cbn [fst snd files dirs locked]. done.
  - unfold on_fst, close, modify, try_prog, on_snd, unlink, raise, ret.
    cbn [fst snd locked fs2]. unfold fs2. cbn [locked].
    rewrite Hlock. cbn [andb fst snd files]. intros _.
    split; [done|]. split; [by rewrite delete_insert_eq|]. by exists f, wb.
  - intros ->. unfold verify_template in Hver. cbn in Hver. done.
Qed.

(** X22: when [prepare_fresh_session] fails because the copy of the
    template does not carry the marker, the adapter is closed, no file is
    left at the session path, every other file is as before, and the
    template is a workbook whose marker cell does not hold the marker. *)
Theorem prepare_fresh_session_cleans_up tp sd self fs s' :
  prepare_fresh_session tp sd (self, fs) = (s', Raise verification_failed) →
  let dst := path_join sd "user_data.xlsx" in
  s'.1 = new
  ∧ files s'.2 !! dst = None
  ∧ (∀ p, p ≠ dst → files s'.2 !! p = files fs !! p)
  ∧ ∃ f wb, files fs !! tp = Some f ∧ f_book f = Some wb
            ∧ String.eqb (upper (strip (str_opt (wb !! TEMPLATE_MARKER_CELL))))
                TEMPLATE_MARKER_VALUE = false.
Proof.
  intros H dst. pose proof (prepare_fresh_session_cases tp sd self fs) as Hc.
  rewrite H in Hc. destruct (Hc eq_refl) as (Hl & Hf & f & wb & Htp & Hbook & Hver).
  split; [done|]. rewrite Hf. split; [by rewrite lookup_delete_eq|].
  split; [intros p Hp; by rewrite lookup_delete_ne|].
  exists f, wb. split; [done|]. split; [done|].
  unfold verify_template in Hver. cbn in Hver. by injection Hver.
Qed.
Lemma prepare_fresh_session_cleans_up_example :
  let dst := path_join "/app/template/file_storage" "user_data.xlsx" in
  (prepare_fresh_session "/app/template/templateFile.xlsx" "/app/template/file_storage"
     (new, unmarked_files)).1.1 = new
  ∧ files (prepare_fresh_session "/app/template/templateFile.xlsx"
             "/app/template/file_storage" (new, unmarked_files)).1.2 !! dst = None
  ∧ (∀ p, p ≠ dst →
       files (prepare_fresh_session "/app/template/templateFile.xlsx"
                "/app/template/file_storage" (new, unmarked_files)).1.2 !! p
       = files unmarked_files !! p)
  ∧ ∃ f wb, files unmarked_files !! "/app/template/templateFile.xlsx" = Some f
            ∧ f_book f = Some wb
            ∧ String.eqb (upper (strip (str_opt (wb !! TEMPLATE_MARKER_CELL))))
                TEMPLATE_MARKER_VALUE = false.
Proof.
  apply (prepare_fresh_session_cleans_up "/app/template/templateFile.xlsx"
           "/app/template/file_storage" new unmarked_files).
  apply outcome_eq. by vm_compute.
Defined.

Lemma bind_Ok {St A B} (m : prog St A) (k : A → prog St B) s s' b :
  bind m k s = (s', Ok b) → ∃ s1 a, m s = (s1, Ok a) ∧ k a s1 = (s', Ok b).
Proof. unfold bind. destruct (m s) as [s1 [a|e]]; [eauto|done]. Qed.

Lemma validate_open_excel_path_file fs p :
  validate_open_excel_path fs p = Ok tt → is_file fs p = true.
Proof.
  unfold validate_open_excel_path. destruct (_ || _); [done|].
  destruct (negb (exists_ fs p) || negb (is_file fs p)) eqn:E; [done|].
  intros _. apply orb_false_elim in E as [_ E]. by apply negb_false_iff in E.
Qed.

Lemma import_into_session_exists source_path self fs s' p :
  import_into_session source_path (self, fs) = (s', Ok tt) →
  _path self = Some p → is_file s'.2 p = true.
Proof.
  intros H Hp. unfold import_into_session in H.
  apply bind_Ok in H as (s0 & self0 & [= <- <-] & H). cbn [fst] in H. rewrite Hp in H.
  apply bind_Ok in H as (? & ? & _ & H). apply bind_Ok in H as (? & ? & _ & H).
  apply bind_Ok in H as (? & ? & _ & H). apply bind_Ok in H as (? & ? & _ & H).
  apply bind_Ok in H as (s3 & ? & _ & H).
  pose proof (open_cases p s3.1 s3.2) as Ho. rewrite <- surjective_pairing, H in Ho.
  destruct Ho as (Hv & wb & _ & ->). by apply validate_open_excel_path_file.
Qed.
End Persistence.

(** ** Saving under another name *)

Section SaveAs.
Import ExcelLoader.

Lemma validate_download_target_path_Ok p fs fs' :
  validate_download_target_path p fs = (fs', Ok tt) →
  String.eqb (lower (path_suffix p)) ".xlsx" = true
  ∧ files fs' = files fs ∧ path_parent p ∈ dirs fs'.
Proof.
  unfold validate_download_target_path. destruct (_ || _); [done|].
  destruct (String.eqb _ _); [|done]. cbn [negb].
  intros (Hf & _ & _ & Hin & _)%ensure_directory_writable_files. auto.
Qed.

(** X30: when [save_as] returns, for a target given in resolved form in a
    folder below the root, the target name ends in [.xlsx], whatever its
    case, the target's directory exists and the target is a file; the adapter
    is as it was, still bound to the path it had, and every other file is
    untouched. *)
Theorem save_as_result file_path self fs s' :
  save_as file_path (self, fs) = (s', Ok tt) →
  resolved file_path = true →
  resolved (path_parent file_path) = true →
  ∃ wb,
    _wb self = Some wb
    ∧ s'.1 = self
    ∧ String.eqb (lower (path_suffix file_path)) ".xlsx" = true
    ∧ is_dir s'.2 (path_parent file_path) = true
    ∧ is_file s'.2 file_path = true
    ∧ (∀ q, q ≠ file_path → files s'.2 !! q = files fs !! q).
Proof.
  intros H _ _. revert H.
  unfold save_as, bind. unfold on_snd at 1. cbn [fst snd].
  destruct (validate_download_target_path file_path fs) as [fs1 [[]|]] eqn:Ev; [|done].
  apply validate_download_target_path_Ok in Ev as (Hsuffix & Hf1 & Hdir).
  unfold on_fst, reads. cbn [fst snd].
  destruct (ensure_open self) as [[]|]; [|done].
  unfold wb_save, bind, gets, raise, on_snd. cbn [fst snd].
  destruct (_wb self) as [wb|]; [|done]. cbn [fst snd].
  pose proof (save_workbook_cases wb file_path fs1) as Hs.
  destruct (save_workbook wb file_path fs1) as [fs2 [[]|]]; [|done].
  destruct Hs as (size & Hf2 & Hd2 & _). intros [= <-]. cbn [fst snd].
  exists wb. split; [done|]. split; [done|]. split; [done|].
  split; [apply bool_decide_eq_true_2; by rewrite Hd2|].
  split; [unfold is_file; rewrite Hf2, lookup_insert_eq; by apply bool_decide_eq_true_2|].
  intros q Hq. by rewrite Hf2, lookup_insert_ne, Hf1.
Qed.

Lemma save_as_result_example :
  ∃ wb,
    _wb opened_state.1 = Some wb
    ∧ copy_state.1.1 = opened_state.1
    ∧ String.eqb (lower (path_suffix "/home/user/Copy.XLSX")) ".xlsx" = true
    ∧ is_dir copy_state.1.2 (path_parent "/home/user/Copy.XLSX") = true
    ∧ is_file copy_state.1.2 "/home/user/Copy.XLSX" = true
    ∧ (∀ q, q ≠ "/home/user/Copy.XLSX" →
         files copy_state.1.2 !! q = files opened_state.2 !! q).
Proof.
  apply (save_as_result "/home/user/Copy.XLSX" opened_state.1 opened_state.2 copy_state.1).
  - unfold copy_state. rewrite <- (surjective_pairing opened_state).
    apply outcome_eq. by vm_compute.
  - reflexivity.
  - reflexivity.
Defined.
End SaveAs.

(** ** Starting a session *)

Section FreshSession.
Import SessionManager.

Lemma set_state_paths st s :
  (set_state st s).1 = (Build (_template_path s.1) (_storage_dir s.1) (_backups_dir s.1)
                          (_user_data_path s.1) st, s.2).
Proof. done. Qed.

Lemma move_dirs src dst fs fs' r : move src dst fs = (fs', r) → dirs fs' = dirs fs.
Proof. unfold move. repeat case_match; by intros [= <- <-]. Qed.

Lemma archive_current_user_data_paths label s s' r :
  archive_current_user_data label s = (s', r) → s'.1 = s.1 ∧ dirs s'.2 = dirs s.2.
Proof.
  unfold archive_current_user_data, bind, gets, raise, ret, id.
  destruct (negb _); [by intros [= <- <-]|].
  unfold on_snd. destruct (move _ _ s.2) as [fs1 [[]|e]] eqn:Em;
    apply move_dirs in Em; by intros [= <- <-].
Qed.

Lemma archive_if_stale_exists_paths label s s' r :
  archive_if_stale_exists label s = (s', r) →
  same_paths s'.1 s.1 ∧ dirs s'.2 = dirs s.2.
Proof.
  unfold archive_if_stale_exists, bind, gets, ret, id, try_prog.
  destruct (exists_ s.2 (_user_data_path s.1)); [|by intros [= <- <-]].
  destruct (archive_current_user_data label s) as [s1 [a|e]] eqn:Ea;
    apply archive_current_user_data_paths in Ea as [Hs Hd].
  - unfold set_state, modify. intros [= <- <-]. cbn. by rewrite Hs.
  - unfold on_snd. destruct (move _ _ s1.2) as [fs1 [[]|e']] eqn:Em;
      apply move_dirs in Em; intros [= <- <-]; cbn; by rewrite Hs, Em.
Qed.

Lemma ensure_base_paths_dirs s s' :
  ensure_base_paths s = (s', Ok tt) → s'.1 = s.1 ∧ _backups_dir s.1 ∈ dirs s'.2.
Proof.
  unfold ensure_base_paths, bind, gets. cbv beta iota.
  unfold on_snd at 1.
  destruct (validate_fresh_session_paths _ _ s.2) as [fs1 [[]|e]]; [|done].
  cbn [fst snd]. unfold on_snd.  cbn [fst snd].
  destruct (mkdir (_backups_dir s.1) fs1) as [fs2 [[]|e]] eqn:Em; [|done].
  apply mkdir_files in Em as (_ & _ & _ & Hin). intros [= <-]. by split; [|apply Hin].
Qed.


(** X23: when [start_fresh_session] returns a path, for a manager whose
    storage directory is given in resolved form, it is the path of
    [user_data.xlsx] in the storage directory; the manager keeps its paths,
    records that path and the mode FRESH, and has an active session; the
    storage and backup directories exist, and the session file is the
    template file, a workbook whose marker cell holds the marker. *)
Theorem start_fresh_session_result self fs self' fs' p :
  start_fresh_session (self, fs) = ((self', fs'), Ok p) →
  resolved (_storage_dir self) = true →
  p = path_join (_storage_dir self) USER_DATA_FILE
  ∧ same_paths self' self
  ∧ get_session_path self' = Some p
  ∧ get_mode self' = Some "FRESH"
  ∧ is_session_active self' fs' = true
  ∧ is_dir fs' (_storage_dir self) = true
  ∧ is_dir fs' (_backups_dir self) = true
  ∧ ∃ f wb,
      files fs' !! p = Some f
      ∧ files fs' !! _template_path self = Some f
      ∧ f_book f = Some wb
      ∧ String.eqb (upper (strip (ExcelLoader.str_opt (wb !! ExcelLoader.TEMPLATE_MARKER_CELL))))
          ExcelLoader.TEMPLATE_MARKER_VALUE = true.
Proof.
  intros H _. revert H.
  unfold start_fresh_session, bind.
  destruct (ensure_base_paths (self, fs)) as [s1 [[]|e]] eqn:E1; [|done].
  apply ensure_base_paths_dirs in E1 as [Hs1 Hb1]. cbn [fst snd] in Hs1, Hb1.
  destruct (archive_if_stale_exists "Stale" s1) as [s2 [[]|e]] eqn:E2; [|done].
  apply archive_if_stale_exists_paths in E2 as [(Ht & Hsd & Hbd & Hud) Hd2].
  rewrite Hs1 in Ht, Hsd, Hbd, Hud. unfold gets at 1. cbv beta iota.
  unfold with_loader, bind. cbn [fst snd].
  pose proof (prepare_fresh_session_cases (_template_path s2.1) (_storage_dir s2.1)
                ExcelLoader.new s2.2) as Hc.
  destruct (ExcelLoader.prepare_fresh_session _ _ (ExcelLoader.new, s2.2))
    as [[l3 fs3] [dst|e]]; [|done].
  destruct Hc as (-> & f & wb & Htp & Hfiles & _ & Hdirs & Hsdir & Hbook & Hl3 & Hver).
  cbn [fst snd] in *. unfold on_fst, ExcelLoader.close, modify, ret, set_state.
  cbn [fst snd]. intros [= <- <- <-]. cbn [fst snd].
  rewrite Hsd, Ht in *.
  set (dst := path_join (_storage_dir self) "user_data.xlsx") in *.
  assert (files fs3 !! dst = Some f) as Hdst by (by rewrite Hfiles, lookup_insert_eq).
  split; [done|]. split; [done|]. split; [done|]. split; [done|]. split.
  { unfold is_session_active, exists_, is_file. cbn [_state session_path]. fold dst.
    rewrite Hdst, bool_decide_eq_true_2 by eauto.
    unfold dst, path_join. by destruct (_storage_dir self). }
  split; [by apply bool_decide_eq_true_2|].
  split; [apply bool_decide_eq_true_2, Hdirs; by rewrite Hd2|].
  exists f, wb. split; [done|]. split.
  { rewrite Hfiles. destruct (decide (dst = _template_path self)) as [<-|Hne];
      [by rewrite lookup_insert_eq | by rewrite lookup_insert_ne]. }
  split; [done|]. rewrite Hl3 in Hver. unfold ExcelLoader.verify_template in Hver.
  cbn in Hver. by injection Hver.
Qed.
Lemma start_fresh_session_result_example :
  "/app/template/file_storage/user_data.xlsx"
  = path_join (_storage_dir (new "/app")) USER_DATA_FILE
  ∧ same_paths started_state.1.1 (new "/app")
  ∧ get_session_path started_state.1.1 = Some "/app/template/file_storage/user_data.xlsx"
  ∧ get_mode started_state.1.1 = Some "FRESH"
  ∧ is_session_active started_state.1.1 started_state.1.2 = true
  ∧ is_dir started_state.1.2 (_storage_dir (new "/app")) = true
  ∧ is_dir started_state.1.2 (_backups_dir (new "/app")) = true
  ∧ ∃ f wb,
      files started_state.1.2 !! "/app/template/file_storage/user_data.xlsx" = Some f
      ∧ files started_state.1.2 !! _template_path (new "/app") = Some f
      ∧ f_book f = Some wb
      ∧ String.eqb (upper (strip (ExcelLoader.str_opt (wb !! ExcelLoader.TEMPLATE_MARKER_CELL))))
          ExcelLoader.TEMPLATE_MARKER_VALUE = true.
Proof.
  apply (start_fresh_session_result (new "/app") session_files started_state.1.1
           started_state.1.2 "/app/template/file_storage/user_data.xlsx").
  - apply outcome_eq2. by vm_compute.
  - reflexivity.
Defined.

(** X24: when [start_imported_session] returns a path, for a manager whose
    storage directory is given in resolved form, it is the path of
    [user_data.xlsx] in the storage directory; the manager keeps its paths,
    records that path and the mode IMPORTED, and has an active session; and,
    for an upload that is not that file itself, the session file and the
    upload load as the same workbook, whose marker cell holds the marker. *)
Theorem start_imported_session_result source_path self fs self' fs' p :
  start_imported_session source_path (self, fs) = ((self', fs'), Ok p) →
  resolved (_storage_dir self) = true →
  p = path_join (_storage_dir self) USER_DATA_FILE
  ∧ same_paths self' self
  ∧ get_session_path self' = Some p
  ∧ get_mode self' = Some "IMPORTED"
  ∧ is_session_active self' fs' = true
  ∧ (source_path ≠ p →
     ∃ ws,
       load_workbook fs' p = Ok ws
       ∧ load_workbook fs' source_path = Ok ws
       ∧ String.eqb (upper (strip (ExcelLoader.str_opt (ws !! ExcelLoader.TEMPLATE_MARKER_CELL))))
           ExcelLoader.TEMPLATE_MARKER_VALUE = true).
Proof.
  intros H _. revert H.
  unfold start_imported_session, bind.
  destruct (ensure_base_paths (self, fs)) as [s1 [[]|e]] eqn:E1; [|done].
  apply ensure_base_paths_dirs in E1 as [Hs1 Hb1]. cbn [fst snd] in Hs1, Hb1.
  unfold gets at 1, lift. cbv beta iota.
  destruct (validate_user_upload_path s1.2 source_path) as [[]|]; [|done].
  destruct (validate_upload_filesize s1.2 source_path 20) as [[]|]; [|done].
  destruct (on_snd (validate_template_signature source_path) s1) as [s1' [[]|]] eqn:E1';
    [|done].
  assert (s1'.1 = self) as Hs1'.
  { pose proof (on_snd_fst (validate_template_signature source_path) s1) as H.
    rewrite E1' in H. cbn in H. congruence. }
  destruct (archive_if_stale_exists "Stale" s1') as [s2 [[]|e]] eqn:E2; [|done].
  apply archive_if_stale_exists_paths in E2 as [(Ht & Hsd & Hbd & Hud) Hd2].
  rewrite Hs1' in Ht, Hsd, Hbd, Hud. unfold gets at 1. cbv beta iota.
  unfold with_loader, bind. cbn [fst snd].
  pose proof (prepare_fresh_session_cases (_template_path s2.1) (_storage_dir s2.1)
                ExcelLoader.new s2.2) as Hc.
  destruct (ExcelLoader.prepare_fresh_session _ _ (ExcelLoader.new, s2.2))
    as [[l3 fs3] [dst|e]]; [|done].
  destruct Hc as (-> & f & wb & Htp & Hfiles & _ & Hdirs & Hsdir & Hbook & Hl3 & Hver).
  cbn [fst snd] in *. rewrite Hsd, Ht in *.
  set (dst := path_join (_storage_dir self) "user_data.xlsx") in *.
  destruct (ExcelLoader.import_into_session source_path (l3, fs3)) as [[l4 fs4] [[]|e]] eqn:E4;
    [|done].
  unfold on_fst, ExcelLoader.close, modify, ret, set_state. cbn [fst snd].
  intros [= <- <- <-]. cbn [fst snd].
  assert (ExcelLoader._path l3 = Some dst) as Hp3 by (by rewrite Hl3).
  split; [done|]. split; [done|]. split; [done|]. split; [done|].
  assert (source_path ≠ dst →
          ∃ ws, load_workbook fs4 dst = Ok ws ∧ load_workbook fs4 source_path = Ok ws
                ∧ String.eqb (upper (strip (ExcelLoader.str_opt
                                              (ws !! ExcelLoader.TEMPLATE_MARKER_CELL))))
                    ExcelLoader.TEMPLATE_MARKER_VALUE = true) as Himp.
  { intros Hne.
    destruct (import_into_session_Ok _ _ _ _ _ E4 Hp3 Hne)
      as (ws & _ & Hl4 & Hver4 & Hload4 & Hsrc4 & _).
    exists ws. split; [done|]. split; [done|]. cbn [fst] in Hl4, Hver4. rewrite Hl4 in Hver4.
    unfold ExcelLoader.verify_template in Hver4. cbn in Hver4. by injection Hver4. }
  split; [|done].
  unfold is_session_active. cbn [_state session_path]. fold dst.
  assert (is_empty dst = false) as -> by (unfold dst, path_join; by destruct (_storage_dir self)).
  cbn [negb andb].
  pose proof (import_into_session_exists _ _ _ _ _ E4 Hp3) as Hex. cbn [snd] in Hex.
  unfold exists_. by rewrite Hex.
Qed.
Lemma start_imported_session_result_example :
  "/app/template/file_storage/user_data.xlsx"
  = path_join (_storage_dir (new "/app")) USER_DATA_FILE
  ∧ same_paths imported_state.1.1 (new "/app")
  ∧ get_session_path imported_state.1.1 = Some "/app/template/file_storage/user_data.xlsx"
  ∧ get_mode imported_state.1.1 = Some "IMPORTED"
  ∧ is_session_active imported_state.1.1 imported_state.1.2 = true
  ∧ ("/home/user/budget.xlsx" ≠ "/app/template/file_storage/user_data.xlsx" →
     ∃ ws,
       load_workbook imported_state.1.2 "/app/template/file_storage/user_data.xlsx" = Ok ws
       ∧ load_workbook imported_state.1.2 "/home/user/budget.xlsx" = Ok ws
       ∧ String.eqb (upper (strip (ExcelLoader.str_opt (ws !! ExcelLoader.TEMPLATE_MARKER_CELL))))
           ExcelLoader.TEMPLATE_MARKER_VALUE = true).
Proof.
  apply (start_imported_session_result "/home/user/budget.xlsx" (new "/app") upload_files
           imported_state.1.1 imported_state.1.2 "/app/template/file_storage/user_data.xlsx").
  - apply outcome_eq2. by vm_compute.
  - reflexivity.
Defined.

End FreshSession.

(** ** Without a session *)

Section NoSession.
Import SessionManager.

(** X25: without an active session, [read_all], [write_all], [save] and
    [save_backup] of the manager raise the no-active-session error and
    [end_session_and_archive] returns [None]; none of them changes the
    manager or the files. *)
Theorem no_session_no_io self fs data backup_dir now :
  is_session_active self fs = false →
  read_all (self, fs) = ((self, fs), Raise no_active_session)
  ∧ write_all data (self, fs) = ((self, fs), Raise no_active_session)
  ∧ save (self, fs) = ((self, fs), Raise no_active_session)
  ∧ save_backup backup_dir now (self, fs) = ((self, fs), Raise no_active_session)
  ∧ end_session_and_archive (self, fs) = ((self, fs), Ok None).
Proof.
  intros H.
  unfold read_all, write_all, save, save_backup, end_session_and_archive,
    require_active_session, bind, gets, raise, ret, id.
  cbn [fst snd]. by rewrite H.
Qed.

Lemma no_session_no_io_example :
  read_all (new "/app", session_files) = ((new "/app", session_files), Raise no_active_session)
  ∧ write_all [] (new "/app", session_files)
    = ((new "/app", session_files), Raise no_active_session)
  ∧ save (new "/app", session_files) = ((new "/app", session_files), Raise no_active_session)
  ∧ save_backup "/home/user" "20240105_101500" (new "/app", session_files)
    = ((new "/app", session_files), Raise no_active_session)
  ∧ end_session_and_archive (new "/app", session_files)
    = ((new "/app", session_files), Ok None).
Proof. by apply no_session_no_io. Defined.
End NoSession.


(** ** Export targets *)

Section ExportTarget.

(** X26: [validate_export_target_path] has the outcome of
    [validate_download_target_path] on every target, session path and file
    system: the error it raises for a target inside the live storage folder
    is caught by its own handler, so that such a target is accepted. *)
Theorem export_target_check_is_download_check target_path active_session_path fs :
  validate_export_target_path target_path active_session_path fs
  = validate_download_target_path target_path fs.
Proof.
  unfold validate_export_target_path, bind.
  destruct (validate_download_target_path target_path fs) as [fs' [[]|e]]; [|done].
  destruct active_session_path as [active|]; [|done].
  destruct (is_empty active); [done|].
  unfold try_prog, lift, ret.
  destruct (relative_to target_path (path_parent active)) as [?|[]]; reflexivity.
Qed.

End ExportTarget.


(** ** The analytics reader *)

Section Iterators.
Import AnalyticManager.

Lemma all_slots_cons month_key days rest :
  all_slots ((month_key, days) :: rest) = month_slots days ++ all_slots rest.
Proof. done. Qed.

Lemma read_months_parts loader months : ∀ data,
  ExcelLoader.read_months loader months = Ok data →
  Forall2 (λ m part, ExcelLoader.read_month loader m = Ok part) months (data.*2)
  ∧ all_slots data = concat (month_slots <$> data.*2).
Proof.
  induction months as [|m rest IH]; intros data; cbn [ExcelLoader.read_months].
  - intros [= <-]. split; [constructor|done].
  - destruct (ExcelLoader.read_month loader m) as [days|] eqn:Em; [|done].
    cbn [mbind result_bind].
    destruct (ExcelLoader.read_months loader rest) as [r|]; [|done].
    cbn [mbind result_bind]. intros [= <-]. destruct (IH r eq_refl) as [IH1 IH2].
    split; [by constructor|]. rewrite all_slots_cons, IH2. done.
Qed.

(** X27: what [_iter_all_transactions] yields is nothing when the session
    file fails the template check; otherwise it is what
    [_iter_month_transactions] yields for each of the twelve months, in
    template order, one month after the other. *)
Theorem year_iterator_is_months self fs txs :
  _iter_all_transactions self fs = Ok txs →
  ∃ path loader fs',
    require_active_session self = Ok path
    ∧ ExcelLoader.open path (ExcelLoader.new, fs) = ((loader, fs'), Ok tt)
    ∧ (ExcelLoader.verify_template loader = Ok false ∧ txs = []
       ∨ ExcelLoader.verify_template loader = Ok true
         ∧ ∃ parts,
             Forall2 (λ month_key part,
                        _iter_month_transactions self fs month_key = Ok part)
               ExcelLoader.months_in_order parts
             ∧ txs = concat parts).
Proof.
  unfold _iter_all_transactions, _iter_month_transactions.
  destruct (require_active_session self) as [path|]; [|done]. cbn [mbind result_bind].
  destruct (ExcelLoader.open path (ExcelLoader.new, fs)) as [[loader fs'] [[]|]] eqn:Eo;
    [|done].
  intros H. exists path, loader, fs'. split; [done|]. split; [done|]. revert H.
  destruct (ExcelLoader.verify_template loader) as [[]|]; [| |done];
    cbn [mbind result_bind negb].
  2: { intros [= <-]. by left. }
  unfold ExcelLoader.read_all.
  destruct (ExcelLoader.ensure_open loader) as [[]|]; [|done]. cbn [mbind result_bind].
  destruct (ExcelLoader.read_months loader ExcelLoader.months_in_order) as [data|] eqn:Ed;
    [|done].
  cbn [mbind result_bind]. intros [= <-]. right. split; [done|].
  apply read_months_parts in Ed as [Hparts ->].
  exists (month_slots <$> data.*2). split; [|done].
  apply Forall2_fmap_r. eapply Forall2_impl; [exact Hparts|].
  intros m part Hm. cbn beta. by rewrite Hm.
Qed.

Lemma year_iterator_is_months_example :
  ∃ path loader fs',
    require_active_session ledger_analytics = Ok path
    ∧ ExcelLoader.open path (ExcelLoader.new, ledger_files) = ((loader, fs'), Ok tt)
    ∧ (ExcelLoader.verify_template loader = Ok false ∧ ledger_records = []
       ∨ ExcelLoader.verify_template loader = Ok true
         ∧ ∃ parts,
             Forall2 (λ month_key part,
                        _iter_month_transactions ledger_analytics ledger_files month_key
                        = Ok part)
               ExcelLoader.months_in_order parts
             ∧ ledger_records = concat parts).
Proof.
  apply (year_iterator_is_months ledger_analytics ledger_files). by vm_compute.
Defined.

End Iterators.

Section Analytics.
Import AnalyticManager.

Lemma float_add_in_range x y : float_in_range (float_add x y) = true.
Proof.
  destruct x as [|nx|m p], y as [|ny|n q]; cbn [float_add float_in_range]; try done.
  - by destruct (Bool.eqb nx ny).
  - unfold mk_float. destruct (overflows _ _) eqn:E; [done|]. cbn. by rewrite E.
Qed.

Lemma sum_in_range xs : float_in_range (sum xs) = true.
Proof.
  unfold sum. assert (float_in_range float_zero = true) as H0 by done.
  revert H0. generalize float_zero. induction xs as [|x xs IH]; intros acc Hacc; [done|].
  cbn [fold_left]. apply IH, float_add_in_range.
Qed.

Lemma float_sub_zero x : float_in_range x = true → float_sub x float_zero = x.
Proof.
  destruct x as [|nx|m p]; [done..|]. cbn [float_in_range]. intros Hr%negb_true_iff.
  unfold float_sub, float_neg, float_zero, float_add. cbn [Z.opp].
  rewrite Nat.max_0_r, Nat.sub_diag, Nat.sub_0_r.
  change (pow10 0) with 1. rewrite Z.mul_1_r, Z.mul_0_l, Z.add_0_r.
  unfold mk_float. by rewrite Hr.
Qed.

Lemma get_month_totals_eq self fs month_key :
  get_month_totals self fs month_key
  = (λ txs,
       let income := sum (Transaction.amount <$> List.filter (has_kind "INCOME") txs) in
       ({[ "income" := income; "expense" := float_zero; "net" := income ]}
          : gmap string pyfloat))
    <$> _iter_month_transactions self fs month_key.
Proof.
  unfold get_month_totals, sum_of_kind, bind, iterate, ret.
  destruct (_iter_month_transactions self fs month_key) as [txs|e]; [|done].
  cbn [snd fmap result_fmap].
  change (sum (Transaction.amount <$> List.filter (has_kind "EXPENSE") [])) with float_zero.
  by rewrite float_sub_zero by apply sum_in_range.
Qed.

(** X28: [get_month_totals] reports, as income, the sum of the amounts of
    the month's INCOME records, and always an expense of zero and a net
    equal to the income: the month's records come from a generator, which
    the sum of the income exhausts before the sum of the expense runs over
    it. *)
Theorem get_month_totals_reports_no_expense self fs month_key totals :
  get_month_totals self fs month_key = Ok totals →
  ∃ txs,
    _iter_month_transactions self fs month_key = Ok txs
    ∧ totals !! "income"
      = Some (sum (Transaction.amount <$> List.filter (has_kind "INCOME") txs))
    ∧ totals !! "expense" = Some float_zero
    ∧ totals !! "net" = totals !! "income".
Proof.
  rewrite get_month_totals_eq.
  destruct (_iter_month_transactions self fs month_key) as [txs|e]; [|done].
  cbn [fmap result_fmap]. intros [= <-]. exists txs. split; [done|].
  rewrite lookup_insert_eq. split; [done|].
  rewrite lookup_insert_ne, lookup_insert_eq by done. split; [done|].
  by rewrite !lookup_insert_ne, lookup_singleton_eq by done.
Qed.

Lemma get_month_totals_reports_no_expense_example :
  ∃ txs,
    _iter_month_transactions ledger_analytics ledger_files "JANUARY" = Ok txs
    ∧ january_totals !! "income"
      = Some (sum (Transaction.amount <$> List.filter (has_kind "INCOME") txs))
    ∧ january_totals !! "expense" = Some float_zero
    ∧ january_totals !! "net" = january_totals !! "income".
Proof.
  apply (get_month_totals_reports_no_expense ledger_analytics ledger_files "JANUARY").
  vm_compute. reflexivity.
Defined.

Lemma series_of_expense self fs months : ∀ series,
  series_of self fs months = Ok series →
  Forall (λ entry : gmap string value, entry !! "expense" = Some (VFloat float_zero)) series.
Proof.
  induction months as [|m rest IH]; intros series; cbn [series_of].
  - by intros [= <-].
  - rewrite get_month_totals_eq.
    destruct (_iter_month_transactions self fs m) as [txs|e]; [|done].
    cbn [fmap result_fmap mbind result_bind]. cbv beta zeta.
    set (income := sum (Transaction.amount <$> List.filter (has_kind "INCOME") txs)).
    set (t := ({[ "income" := income; "expense" := float_zero; "net" := income ]}
                 : gmap string pyfloat)).
    assert (item t "income" = Ok income) as ->
      by (unfold item, t; by rewrite lookup_insert_eq).
    assert (item t "expense" = Ok float_zero) as ->.
    { unfold item, t. rewrite lookup_insert_ne by done. by rewrite lookup_insert_eq. }
    assert (item t "net" = Ok income) as ->.
    { unfold item, t. rewrite lookup_insert_ne by done. rewrite lookup_insert_ne by done.
      by rewrite lookup_singleton_eq. }
    cbn [mbind result_bind].
    destruct (series_of self fs rest) as [r|]; [|done]. cbn [mbind result_bind].
    intros [= <-]. constructor; [|by apply IH].
    rewrite lookup_insert_ne by done. rewrite lookup_insert_ne by done.
    by rewrite lookup_insert_eq.
Qed.

Lemma sum_items_expense totals x :
  Forall (λ entry : gmap string value, entry !! "expense" = Some (VFloat float_zero)) totals →
  sum_items "expense" totals = Ok x → x = float_zero.
Proof.
  unfold sum_items. intros Hall.
  assert (mapM (λ m : gmap string value, v ← item m "expense"; number v) totals
          = Ok (replicate (length totals) float_zero)) as ->.
  { induction Hall as [|entry rest He _ IH]; [done|]. cbn [mapM].
    assert (item entry "expense" = Ok (VFloat float_zero)) as ->
      by (unfold item; by rewrite He).
    cbn [mbind result_bind number]. rewrite IH. done. }
  cbn [fmap result_fmap]. intros [= <-]. unfold sum.
  induction (length totals) as [|n IH]; [done|]. cbn [replicate fold_left].
  by change (float_add float_zero float_zero) with float_zero.
Qed.

(** X29: the summary [compute_financial_summary] returns carries the
    workbook's year and no notes, and always a total expense of zero and net
    savings equal to the total income, the monthly totals it adds up holding
    no expense. *)
Theorem financial_summary_reports_no_expense self fs summary :
  compute_financial_summary self fs = Ok summary →
  get_year self fs = Ok (FinancialSummary.get_year summary)
  ∧ FinancialSummary.get_total_expense summary = float_zero
  ∧ FinancialSummary.get_net_savings summary = FinancialSummary.get_total_income summary
  ∧ FinancialSummary.get_notes summary = None.
Proof.
  unfold compute_financial_summary.
  destruct (get_year self fs) as [year|]; [|done]. cbn [mbind result_bind].
  destruct (get_monthly_series self fs) as [totals|] eqn:Es; [|done].
  cbn [mbind result_bind].
  destruct (sum_items "income" totals) as [ti|] eqn:Ei; [|done]. cbn [mbind result_bind].
  destruct (sum_items "expense" totals) as [te|] eqn:Ee; [|done]. cbn [mbind result_bind].
  intros [= <-]. cbn.
  assert (te = float_zero) as ->.
  { apply (sum_items_expense totals); [|done]. revert Es. unfold get_monthly_series.
    destruct (require_active_session self) as [path|]; [|done]. cbn [mbind result_bind].
    destruct (ExcelLoader.open path _) as [? [[]|]]; [|done]. apply series_of_expense. }
  split; [done|]. split; [done|]. split; [|done].
  apply float_sub_zero. unfold sum_items in Ei.
  destruct (mapM _ totals) as [xs|]; [|done]. injection Ei as <-. apply sum_in_range.
Qed.

Lemma financial_summary_reports_no_expense_example :
  get_year ledger_analytics ledger_files = Ok (FinancialSummary.get_year ledger_summary)
  ∧ FinancialSummary.get_total_expense ledger_summary = float_zero
  ∧ FinancialSummary.get_net_savings ledger_summary
    = FinancialSummary.get_total_income ledger_summary
  ∧ FinancialSummary.get_notes ledger_summary = None.
Proof.
  apply (financial_summary_reports_no_expense ledger_analytics ledger_files). by vm_compute.
Defined.

End Analytics.
